(** * A shallow embedding of the retrieval-and-decision pipeline

    The development follows the Python sources of the repository:
    - [src/agents/semantic_chunker.py]   (module [Chunker])
    - [src/agents/retrieval_agent.py]    (modules [Retrieval], [QueryParser])
    - [src/agents/validation_agent.py]   (module [Validation])
    - [src/agents/decision_agent.py]     (module [Decision])
    - [src/agents/mapping_agent.py]      (module [Mapping])
    - [src/agents/orchestrator.py]       (module [Orchestrator])
    - [src/config.py]                    (module [Config])

    Modelling conventions.
    - A Python [str] is a [string] of 7-bit characters (one character per
      byte), so [len] is [String.length].
    - A Python [float] is an exact rational of [Q]; rounding of the binary
      representation is not modelled.
    - A [Dict[str, Any]] whose iteration order is not observable is a
      [gmap string _]; a dict that the code iterates with [.values()] is an
      insertion-ordered association list.
    - Code that can raise returns [except A]; a [try/except Exception] is a
      [match] on that sum.
    - The [re] module is modelled by a small backtracking matcher with the
      priorities of Python's engine (leftmost alternative first, greedy
      repetition). *)

From Stdlib Require Import Ascii String QArith Lia Sorted.
From stdpp Require Import gmap strings list.

(** ** Python strings *)

Module PyStr.

Definition code (c : ascii) : nat := nat_of_ascii c.

Definition in_range (lo hi : nat) (c : ascii) : bool :=
  (lo <=? code c)%nat && (code c <=? hi)%nat.

(** [str.isspace] / [\s] on 7-bit text. *)
Definition isspace (c : ascii) : bool :=
  in_range 9 13 c || in_range 28 32 c.

Definition isdigit (c : ascii) : bool := in_range 48 57 c.
Definition isupper (c : ascii) : bool := in_range 65 90 c.
Definition islower (c : ascii) : bool := in_range 97 122 c.
Definition isalpha (c : ascii) : bool := isupper c || islower c.

(** [\w] on 7-bit text. *)
Definition isword (c : ascii) : bool :=
  isalpha c || isdigit c || (code c =? 95)%nat.

Definition lower_char (c : ascii) : ascii :=
  if isupper c then ascii_of_nat (code c + 32) else c.

Definition upper_char (c : ascii) : ascii :=
  if islower c then ascii_of_nat (code c - 32) else c.

Fixpoint lower (s : string) : string :=
  match s with
  | EmptyString => EmptyString
  | String c s' => String (lower_char c) (lower s')
  end.

Fixpoint lstrip (s : string) : string :=
  match s with
  | String c s' => if isspace c then lstrip s' else s
  | EmptyString => EmptyString
  end.

Fixpoint rev_onto (s acc : string) : string :=
  match s with
  | EmptyString => acc
  | String c s' => rev_onto s' (String c acc)
  end.

Definition srev (s : string) : string := rev_onto s EmptyString.

(** [s.strip()] *)
Definition strip (s : string) : string := srev (lstrip (srev (lstrip s))).

(** [s.split()]: maximal runs of non-whitespace characters. *)
Fixpoint split_aux (s : string) (cur : string) : list string :=
  match s with
  | EmptyString =>
      match cur with EmptyString => [] | _ => [srev cur] end
  | String c s' =>
      if isspace c then
        match cur with
        | EmptyString => split_aux s' EmptyString
        | _ => srev cur :: split_aux s' EmptyString
        end
      else split_aux s' (String c cur)
  end.

Definition split (s : string) : list string := split_aux s EmptyString.

(** [sep.join(l)] *)
Fixpoint join (sep : string) (l : list string) : string :=
  match l with
  | [] => EmptyString
  | [x] => x
  | x :: l' => x +:+ sep +:+ join sep l'
  end.

Fixpoint prefix (p s : string) : bool :=
  match p, s with
  | EmptyString, _ => true
  | String a p', String b s' => Ascii.eqb a b && prefix p' s'
  | String _ _, EmptyString => false
  end.

(** [sub in s] *)
Fixpoint contains (sub s : string) : bool :=
  prefix sub s ||
  match s with
  | EmptyString => false
  | String _ s' => contains sub s'
  end.

(** [any(t in s for t in terms)] *)
Definition any_in (terms : list string) (s : string) : bool :=
  existsb (fun t => contains t s) terms.

(** [sum(1 for t in terms if t in s)] *)
Definition count_in (terms : list string) (s : string) : nat :=
  length (filter (fun t => contains t s = true) terms).

Fixpoint filter_chars (p : ascii -> bool) (s : string) : string :=
  match s with
  | EmptyString => EmptyString
  | String c s' => if p c then String c (filter_chars p s') else filter_chars p s'
  end.

Fixpoint count_char (c : ascii) (s : string) : nat :=
  match s with
  | EmptyString => 0%nat
  | String d s' => ((if Ascii.eqb c d then 1 else 0) + count_char c s')%nat
  end.

Fixpoint replicate_char (n : nat) (c : ascii) : string :=
  match n with
  | O => EmptyString
  | S n' => String c (replicate_char n' c)
  end.

(** [s[:n]] for [0 <= n]. *)
Definition take (n : nat) (s : string) : string := String.substring 0 n s.

(** Decimal rendering of a natural number, [str(n)]. *)
Definition digit_char (d : nat) : ascii := ascii_of_nat (48 + d).

Fixpoint of_nat_aux (fuel n : nat) (acc : string) : string :=
  match fuel with
  | O => acc
  | S fuel' =>
      let acc' := String (digit_char (n mod 10)) acc in
      if (n <? 10)%nat then acc' else of_nat_aux fuel' (n / 10) acc'
  end.

Definition of_nat (n : nat) : string := of_nat_aux (S n) n EmptyString.

Definition of_Z (z : Z) : string :=
  if (z <? 0)%Z then String "-" (of_nat (Z.to_nat (- z))) else of_nat (Z.to_nat z).

(** Value of a run of decimal digits. *)
Fixpoint digits_value (s : string) (acc : Z) : Z :=
  match s with
  | EmptyString => acc
  | String c s' => digits_value s' (10 * acc + Z.of_nat (code c - 48))%Z
  end.

Definition all_chars (p : ascii -> bool) (s : string) : bool :=
  String.length (filter_chars p s) =? String.length s.

End PyStr.

(** ** The [re] module *)

Module Re.

Inductive regex : Type :=
| Eps
| Cls (p : ascii -> bool)
| Cat (r1 r2 : regex)
| Alt (r1 r2 : regex)
| Star (r : regex)
| Grp (i : nat) (r : regex)
| WordB
| Look (r : regex).

Definition Plus (r : regex) : regex := Cat r (Star r).
Definition Opt (r : regex) : regex := Alt r Eps.
Definition Chr (c : ascii) : regex := Cls (Ascii.eqb c).

(** A literal under [re.IGNORECASE]. *)
Definition ChrI (c : ascii) : regex :=
  Cls (fun d => Ascii.eqb (PyStr.lower_char c) (PyStr.lower_char d)).

Fixpoint Lit (s : string) : regex :=
  match s with
  | EmptyString => Eps
  | String c s' => Cat (Chr c) (Lit s')
  end.

Fixpoint LitI (s : string) : regex :=
  match s with
  | EmptyString => Eps
  | String c s' => Cat (ChrI c) (LitI s')
  end.

Fixpoint Alts (l : list regex) : regex :=
  match l with
  | [] => Cls (fun _ => false)
  | [r] => r
  | r :: l' => Alt r (Alts l')
  end.

Fixpoint Times (n : nat) (r : regex) : regex :=
  match n with
  | O => Eps
  | S n' => Cat r (Times n' r)
  end.

(** Matcher state: the character before the cursor, the text after it, the
    cursor position and the groups captured so far. *)
Record mstate : Type := MState {
  prev : option ascii;
  rest : string;
  pos : nat;
  caps : list (nat * string)
}.

Definition is_word_opt (c : option ascii) : bool :=
  match c with Some c => PyStr.isword c | None => false end.

Definition next_char (st : mstate) : option ascii :=
  match rest st with String c _ => Some c | EmptyString => None end.

Definition at_boundary (st : mstate) : bool :=
  xorb (is_word_opt (prev st)) (is_word_opt (next_char st)).

Definition advance (st : mstate) : option mstate :=
  match rest st with
  | String c s' => Some (MState (Some c) s' (S (pos st)) (caps st))
  | EmptyString => None
  end.

Definition set_cap (i : nat) (from to : mstate) : mstate :=
  MState (prev to) (rest to) (pos to)
         ((i, String.substring 0 (pos to - pos from) (rest from))
            :: filter (fun c => negb (fst c =? i)%nat) (caps to)).

(** Backtracking matcher in continuation-passing style. [Star] is greedy and
    tries at most one iteration per remaining character, every iteration
    having to consume input. *)
Fixpoint run {R : Type} (r : regex) (st : mstate)
    (k : mstate -> option R) : option R :=
  match r with
  | Eps => k st
  | Cls p =>
      match rest st with
      | String c _ =>
          if p c then match advance st with Some st' => k st' | None => None end
          else None
      | EmptyString => None
      end
  | Cat r1 r2 => run r1 st (fun st' => run r2 st' k)
  | Alt r1 r2 =>
      match run r1 st k with
      | Some x => Some x
      | None => run r2 st k
      end
  | Star r' =>
      (fix loop (n : nat) (st : mstate) : option R :=
         match n with
         | O => k st
         | S n' =>
             match run r' st (fun st' =>
                     if (pos st' =? pos st)%nat then None else loop n' st') with
             | Some x => Some x
             | None => k st
             end
         end) (String.length (rest st)) st
  | Grp i r' => run r' st (fun st' => k (set_cap i st st'))
  | WordB => if at_boundary st then k st else None
  | Look r' =>
      match run r' st (fun st' => Some st') with
      | Some _ => k st
      | None => None
      end
  end.

(** [pattern.match] anchored at the cursor. *)
Definition match_here (r : regex) (st : mstate) : option mstate :=
  run r (MState (prev st) (rest st) (pos st) []) (fun st' => Some st').

(** One match object: start, end, captured groups. *)
Record rmatch : Type := RMatch {
  m_start : nat;
  m_end : nat;
  m_caps : list (nat * string)
}.

(** [re.finditer]: leftmost matches, scanning resumes where a match ended
    (one character further after an empty match). *)
Fixpoint finditer_from (fuel : nat) (r : regex) (st : mstate) : list rmatch :=
  match fuel with
  | O => []
  | S fuel' =>
      match match_here r st with
      | Some st' =>
          RMatch (pos st) (pos st') (caps st') ::
            (if (pos st' =? pos st)%nat then
               match advance st with
               | Some st1 => finditer_from fuel' r st1
               | None => []
               end
             else finditer_from fuel' r (MState (prev st') (rest st') (pos st') []))
      | None =>
          match advance st with
          | Some st1 => finditer_from fuel' r st1
          | None => []
          end
      end
  end.

Definition finditer (r : regex) (s : string) : list rmatch :=
  finditer_from (S (String.length s)) r (MState None s 0 []).

(** [match.groups()] for a pattern with [n] groups. *)
Definition groups (n : nat) (m : rmatch) : list (option string) :=
  map (fun i => snd <$> List.find (fun c => (fst c =? i)%nat) (m_caps m)) (seq 1 n).

(** [re.split(r, s)] for a pattern without groups. *)
Fixpoint split_at (ms : list rmatch) (from : nat) (s : string) : list string :=
  match ms with
  | [] => [String.substring from (String.length s - from) s]
  | m :: ms' =>
      String.substring from (m_start m - from) s :: split_at ms' (m_end m) s
  end.

Definition split (r : regex) (s : string) : list string :=
  split_at (finditer r s) 0 s.

(** [re.sub(r, repl, s)] for a constant replacement. *)
Fixpoint sub_at (ms : list rmatch) (repl : string) (from : nat) (s : string)
  : string :=
  match ms with
  | [] => String.substring from (String.length s - from) s
  | m :: ms' =>
      String.substring from (m_start m - from) s +:+ repl
        +:+ sub_at ms' repl (m_end m) s
  end.

Definition sub (r : regex) (repl : string) (s : string) : string :=
  sub_at (finditer r s) repl 0 s.

(** [re.findall(r, s)] for a pattern without groups. *)
Definition findall (r : regex) (s : string) : list string :=
  map (fun m => String.substring (m_start m) (m_end m - m_start m) s)
      (finditer r s).

End Re.

(** ** Python lists and insertion-ordered dicts *)

Module PyList.

(** [list.sort(key=..., reverse=True)] is stable: elements with equal keys
    keep their order. [gt y x] says that the key of [y] is strictly greater
    than the key of [x]. *)
Fixpoint insert_desc {A : Type} (gt : A -> A -> bool) (x : A) (l : list A)
  : list A :=
  match l with
  | [] => [x]
  | y :: l' => if gt y x then y :: insert_desc gt x l' else x :: y :: l'
  end.

Definition sort_desc {A : Type} (gt : A -> A -> bool) (l : list A) : list A :=
  foldr (insert_desc gt) [] l.

(** [sorted(l, key=...)], ascending and stable; [lt y x] says that the key of
    [y] is strictly smaller than the key of [x]. *)
Definition sort_asc {A : Type} (lt : A -> A -> bool) (l : list A) : list A :=
  foldr (insert_desc lt) [] l.

(** [l[-n:]] for an integer [n <> 0]. *)
Definition last_n {A : Type} (n : Z) (l : list A) : list A :=
  if (0 <? n)%Z then drop (length l - Z.to_nat n) l
  else drop (Z.to_nat (- n)) l.

(** [l[:n]] for an integer [n]. *)
Definition slice_to {A : Type} (n : Z) (l : list A) : list A :=
  if (0 <=? n)%Z then take (Z.to_nat n) l
  else take (length l - Z.to_nat (- n)) l.

(** [l[i:i+n] for i in range(0, len(l), n)] *)
Fixpoint groups_of (fuel n : nat) {A : Type} (l : list A) : list (list A) :=
  match fuel, l with
  | _, [] => []
  | O, _ => []
  | S fuel', _ => take n l :: groups_of fuel' n (drop n l)
  end.

(** Insertion-ordered dict as an association list. *)
Definition odict (K V : Type) : Type := list (K * V).

Fixpoint oget {K V : Type} (eqb : K -> K -> bool) (k : K) (d : odict K V)
  : option V :=
  match d with
  | [] => None
  | (k', v) :: d' => if eqb k k' then Some v else oget eqb k d'
  end.

(** [d[k] = v]: an existing key keeps its place. *)
Fixpoint oset {K V : Type} (eqb : K -> K -> bool) (k : K) (v : V)
    (d : odict K V) : odict K V :=
  match d with
  | [] => [(k, v)]
  | (k', v') :: d' =>
      if eqb k k' then (k, v) :: d' else (k', v') :: oset eqb k v d'
  end.

Definition ovalues {K V : Type} (d : odict K V) : list V := map snd d.

End PyList.

(** ** Python values and exceptions *)

Module Py.

(** The values an entity can take: a string or a list of strings (what
    [parse_query] stores) or an integer (what a caller may pass). *)
Inductive value : Type :=
| VStr (s : string)
| VList (l : list string)
| VInt (z : Z).

(** Truth value of [if v]. *)
Definition truthy (v : value) : bool :=
  match v with
  | VStr EmptyString => false
  | VStr _ => true
  | VList [] => false
  | VList _ => true
  | VInt z => negb (z =? 0)%Z
  end.

Definition hex_digit (n : nat) : ascii :=
  if (n <? 10)%nat then ascii_of_nat (48 + n) else ascii_of_nat (87 + n).

Definition escape_char (q c : ascii) : string :=
  let n := PyStr.code c in
  if Ascii.eqb c "\" then "\\"
  else if Ascii.eqb c q then String "\" (String c "")
  else if (n =? 10)%nat then "\n"
  else if (n =? 13)%nat then "\r"
  else if (n =? 9)%nat then "\t"
  else if (n <? 32)%nat || (n =? 127)%nat then
    String "\" (String "x" (String (hex_digit (n / 16)) (String (hex_digit (n mod 16)) "")))
  else String c "".

Fixpoint escape (q : ascii) (s : string) : string :=
  match s with
  | EmptyString => EmptyString
  | String c s' => escape_char q c +:+ escape q s'
  end.

Definition dquote : ascii := ascii_of_nat 34.

(** [repr(s)] of a string. *)
Definition repr_str (s : string) : string :=
  let q : ascii :=
    if (0 <? PyStr.count_char "'" s)%nat && (PyStr.count_char dquote s =? 0)%nat
    then dquote else "'"%char in
  String q (escape q s) +:+ String q "".

(** [str(v)] *)
Definition str (v : value) : string :=
  match v with
  | VStr s => s
  | VList l => "[" +:+ PyStr.join ", " (map repr_str l) +:+ "]"
  | VInt z => PyStr.of_Z z
  end.

(** [type(v).__name__] *)
Definition type_name (v : value) : string :=
  match v with
  | VStr _ => "str"
  | VList _ => "list"
  | VInt _ => "int"
  end.

(** A computation that returns or raises an [Exception] whose [str(e)] is
    the message. *)
Inductive except (A : Type) : Type :=
| Ok (a : A)
| Raise (msg : string).
Arguments Ok {A} a.
Arguments Raise {A} msg.

#[global] Instance except_ret : MRet except := @Ok.

#[global] Instance except_bind : MBind except := fun A B f m =>
  match m with
  | Ok a => f a
  | Raise msg => Raise msg
  end.

(** [int(tok)] for a token without whitespace: an optional sign and decimal
    digits, single underscores allowed between digits. *)
Fixpoint int_digits (s : string) (after_digit : bool) : bool :=
  match s with
  | EmptyString => after_digit
  | String c s' =>
      if PyStr.isdigit c then int_digits s' true
      else if Ascii.eqb c "_" then after_digit && int_digits s' false
      else false
  end.

Definition int_unsigned (tok : string) : option Z :=
  if int_digits tok false
  then Some (PyStr.digits_value (PyStr.filter_chars PyStr.isdigit tok) 0)
  else None.

Definition int_of_token (tok : string) : except Z :=
  let parsed :=
    match tok with
    | String "-" t => Z.opp <$> int_unsigned t
    | String "+" t => int_unsigned t
    | _ => int_unsigned tok
    end in
  match parsed with
  | Some z => Ok z
  | None => Raise ("invalid literal for int() with base 10: " +:+ repr_str tok)
  end.

(** [int(str(v).split()[0])] *)
Definition int_of_first_word (v : value) : except Z :=
  match PyStr.split (str v) with
  | [] => Raise "list index out of range"
  | tok :: _ => int_of_token tok
  end.

End Py.

(** ** Python numbers *)

Module PyNum.
Local Open Scope Q_scope.

(** [min(1.0, x)] and [max(0.0, x)]: the second argument is returned only
    when it is strictly smaller, respectively strictly greater. *)
Definition min_one (x : Q) : Q := if Qle_bool 1 x then 1 else x.
Definition max_zero (x : Q) : Q := if Qle_bool x 0 then 0 else x.

(** Rounding to the nearest integer, ties to even. *)
Definition round_half_even (q : Q) : Z :=
  let n := Qnum q in
  let d := Z.pos (Qden q) in
  let fl := (n / d)%Z in
  let r := (n mod d)%Z in
  match (2 * r ?= d)%Z with
  | Lt => fl
  | Gt => (fl + 1)%Z
  | Eq => if Z.even fl then fl else (fl + 1)%Z
  end.

Definition pow10 (k : nat) : positive := Pos.pow 10 (Pos.of_nat k).

Definition scale (k : nat) (q : Q) : Q :=
  match k with
  | O => q
  | _ => q * inject_Z (Z.pos (pow10 k))
  end.

(** [round(q, k)] *)
Definition round_to (k : nat) (q : Q) : Q :=
  match k with
  | O => inject_Z (round_half_even q)
  | _ => round_half_even (scale k q) # pow10 k
  end.

(** [format(q, '.kf')] for [0 < k] *)
Definition format_fixed (k : nat) (q : Q) : string :=
  let z := round_half_even (scale k q) in
  let digits := PyStr.of_nat (Z.to_nat (Z.abs z)) in
  let padded :=
    PyStr.replicate_char (S k - String.length digits) "0" +:+ digits in
  let int_len := (String.length padded - k)%nat in
  (if (z <? 0)%Z then "-" else "")
    +:+ String.substring 0 int_len padded +:+ "."
    +:+ String.substring int_len k padded.

(** [format(q, '.1%')] *)
Definition format_percent1 (q : Q) : string :=
  format_fixed 1 (q * 100) +:+ "%".

(** [sum(l)]: the items are added from the left, starting from 0. *)
Definition sum (l : list Q) : Q := foldl Qplus 0 l.

End PyNum.

(** ** [src/models/schemas.py] *)

Module Schemas.

(** The [metadata] dict of a chunk, with the keys [_create_chunk] writes. *)
Record ChunkMetadata : Type := {
  paragraph_index : nat;
  chunk_index : nat;
  word_count : nat;
  character_count : nat;
  key_phrases : list string;
  chunk_type : string
}.

Record DocumentChunk : Type := {
  chunk_id : string;
  content : string;
  document_source : string;
  metadata : ChunkMetadata
}.

Record SourceClause : Type := {
  document_name : string;
  clause_id : string;
  clause_text : string;
  relevance_score : Q;
  page_number : option nat
}.

End Schemas.

(** ** [src/agents/semantic_chunker.py] *)

Module Chunker.
Import Schemas.

Record ChunkingConfig : Type := {
  max_chunk_size : Z;
  min_chunk_size : Z;
  overlap_size : Z;
  semantic_threshold : Q;
  preserve_sentences : bool;
  preserve_paragraphs : bool
}.

Definition default_config : ChunkingConfig :=
  {| max_chunk_size := 512; min_chunk_size := 50; overlap_size := 50;
     semantic_threshold := 7 # 10;
     preserve_sentences := true; preserve_paragraphs := true |}.

Definition len (s : string) : Z := Z.of_nat (String.length s).

Definition nl : ascii := ascii_of_nat 10.

(** [re.compile(r'[.!?]+')] *)
Definition sentence_endings : Re.regex :=
  Re.Plus (Re.Cls (fun c => Ascii.eqb c "." || Ascii.eqb c "!" || Ascii.eqb c "?")).

(** [re.compile(r'\n\s*\n')] *)
Definition paragraph_breaks : Re.regex :=
  Re.Cat (Re.Chr nl) (Re.Cat (Re.Star (Re.Cls PyStr.isspace)) (Re.Chr nl)).

(** The class [\w\s\.\,\!\?\:\;\-\(\)\[\]\n] that [_preprocess_content]
    keeps. *)
Definition kept_char (c : ascii) : bool :=
  PyStr.isword c || PyStr.isspace c ||
  existsb (Ascii.eqb c)
    ["."; ","; "!"; "?"; ":"; ";"; "-"; "("; ")"; "["; "]"]%char.

Definition _preprocess_content (content : string) : string :=
  let content := Re.sub (Re.Plus (Re.Cls PyStr.isspace)) " " content in
  let content := Re.sub paragraph_breaks (String nl (String nl "")) content in
  let content := Re.sub (Re.Cls (fun c => negb (kept_char c))) "" content in
  PyStr.strip content.

Definition nonempty (s : string) : bool :=
  match s with EmptyString => false | _ => true end.

Definition _extract_paragraphs (cfg : ChunkingConfig) (content : string)
  : list string :=
  if preserve_paragraphs cfg then
    map PyStr.strip
      (filter (fun p => nonempty (PyStr.strip p) = true)
         (Re.split paragraph_breaks content))
  else [content].

Definition _extract_sentences (cfg : ChunkingConfig) (text : string)
  : list string :=
  if negb (preserve_sentences cfg) then
    let words := PyStr.split text in
    map (PyStr.join " ") (PyList.groups_of (length words) 20 words)
  else
    filter (fun s => (nonempty s && (10 <? len s)%Z) = true)
      (map PyStr.strip (Re.split sentence_endings text)).

Definition stop_words : list string :=
  ["the"; "a"; "an"; "and"; "or"; "but"; "in"; "on"; "at"; "to"; "for";
   "of"; "with"; "by"; "is"; "are"; "was"; "were"; "be"; "been"; "being";
   "have"; "has"; "had"; "do"; "does"; "did"; "will"; "would"; "could";
   "should"; "may"; "might"; "must"; "can"; "this"; "that"; "these"; "those"].

Definition in_list (s : string) (l : list string) : bool :=
  existsb (String.eqb s) l.

(** [" ".join(key_words[i:i+n])] for [i in range(len(key_words) - (n-1))],
    keeping the phrases longer than [minlen]. *)
Fixpoint ngrams (n : nat) (minlen : nat) (l : list string) : list string :=
  match l with
  | [] => []
  | _ :: l' =>
      if (n <=? length l)%nat then
        let g := PyStr.join " " (take n l) in
        if (minlen <? String.length g)%nat then g :: ngrams n minlen l'
        else ngrams n minlen l'
      else []
  end.

Definition count_phrases (phrases : list string) : PyList.odict string nat :=
  foldl (fun d p =>
           PyList.oset String.eqb p (default 0%nat (PyList.oget String.eqb p d) + 1)%nat d)
        [] phrases.

Definition _extract_key_phrases (content : string) : list string :=
  let words := PyStr.split (PyStr.lower content) in
  let key_words :=
    filter (fun w => (negb (in_list w stop_words) && (3 <? String.length w)%nat) = true)
           words in
  let phrases := ngrams 2 6 key_words ++ ngrams 3 10 key_words in
  let sorted_phrases :=
    PyList.sort_desc (fun y x => (snd x <? snd y)%nat) (count_phrases phrases) in
  map fst (take 5 sorted_phrases).

Definition _determine_chunk_type (content : string) : string :=
  let content_lower := PyStr.lower content in
  if PyStr.any_in ["policy"; "coverage"; "premium"; "deductible"] content_lower
  then "policy_clause"
  else if PyStr.any_in ["waiting"; "period"; "eligible"; "claim"] content_lower
  then "eligibility_rule"
  else if PyStr.any_in ["amount"; "payment"; "reimbursement"; "$"] content_lower
  then "financial_clause"
  else if PyStr.any_in ["exclusion"; "not covered"; "limitation"] content_lower
  then "exclusion_clause"
  else if (2 <? PyStr.count_char ":" content)%nat
          || (2 <? PyStr.count_char "|" content)%nat
  then "structured_data"
  else "general_content".

Definition _create_chunk (content source : string)
    (paragraph_index chunk_index : nat) : DocumentChunk :=
  {| chunk_id := source +:+ "_p" +:+ PyStr.of_nat paragraph_index
                   +:+ "_c" +:+ PyStr.of_nat chunk_index;
     content := content;
     document_source := source;
     metadata :=
       {| Schemas.paragraph_index := paragraph_index;
          Schemas.chunk_index := chunk_index;
          word_count := length (PyStr.split content);
          character_count := String.length content;
          key_phrases := _extract_key_phrases content;
          chunk_type := _determine_chunk_type content |} |}.

Definition _add_overlap (cfg : ChunkingConfig)
    (existing_chunks : list DocumentChunk) (new_sentence : string) : string :=
  match last existing_chunks with
  | None => new_sentence
  | Some previous =>
      if (overlap_size cfg =? 0)%Z then new_sentence
      else
        let previous_content := content previous in
        let words := PyStr.split previous_content in
        if (overlap_size cfg <? Z.of_nat (length words))%Z then
          PyStr.join " " (PyList.last_n (overlap_size cfg) words)
            +:+ " " +:+ new_sentence
        else previous_content +:+ " " +:+ new_sentence
  end.

(** One iteration of the loop of [_chunk_paragraph]; the state is the pair
    [(chunks, current_chunk)] (the list [sentence_indices] is written and
    never read). *)
Definition chunk_step (cfg : ChunkingConfig) (source : string)
    (paragraph_index : nat) (st : list DocumentChunk * string)
    (sentence : string) : list DocumentChunk * string :=
  let '(chunks, current_chunk) := st in
  let potential_chunk :=
    if nonempty current_chunk then current_chunk +:+ " " +:+ sentence
    else sentence in
  if (max_chunk_size cfg <? len potential_chunk)%Z && nonempty current_chunk
  then
    let chunks :=
      if (min_chunk_size cfg <=? len current_chunk)%Z then
        chunks ++ [_create_chunk (PyStr.strip current_chunk) source
                      paragraph_index (length chunks)]
      else chunks in
    (chunks, _add_overlap cfg chunks sentence)
  else (chunks, potential_chunk).

Definition _chunk_paragraph (cfg : ChunkingConfig) (paragraph source : string)
    (paragraph_index : nat) : list DocumentChunk :=
  if (len paragraph <=? max_chunk_size cfg)%Z then
    [_create_chunk paragraph source paragraph_index 0]
  else
    let sentences := _extract_sentences cfg paragraph in
    let '(chunks, current_chunk) :=
      foldl (chunk_step cfg source paragraph_index) ([], EmptyString) sentences in
    if nonempty current_chunk && (min_chunk_size cfg <=? len current_chunk)%Z
    then chunks ++ [_create_chunk (PyStr.strip current_chunk) source
                      paragraph_index (length chunks)]
    else chunks.

(** [optimized[-1]] updated in place by the merge of [_optimize_chunks]. *)
Definition merge_into (prev : DocumentChunk) (merged_content : string)
  : DocumentChunk :=
  {| chunk_id := chunk_id prev;
     content := merged_content;
     document_source := document_source prev;
     metadata :=
       {| Schemas.paragraph_index := Schemas.paragraph_index (metadata prev);
          Schemas.chunk_index := Schemas.chunk_index (metadata prev);
          word_count := length (PyStr.split merged_content);
          character_count := String.length merged_content;
          key_phrases := key_phrases (metadata prev);
          chunk_type := chunk_type (metadata prev) |} |}.

Definition optimize_step (cfg : ChunkingConfig)
    (optimized : list DocumentChunk) (chunk : DocumentChunk)
  : list DocumentChunk :=
  if (len (content chunk) <? min_chunk_size cfg)%Z then
    match last optimized with
    | Some prev =>
        if (len (content prev) + len (content chunk) <? max_chunk_size cfg)%Z
        then
          removelast optimized
            ++ [merge_into prev (content prev +:+ " " +:+ content chunk)]
        else optimized ++ [chunk]
    | None => optimized ++ [chunk]
    end
  else optimized ++ [chunk].

Definition _optimize_chunks (cfg : ChunkingConfig)
    (chunks : list DocumentChunk) : list DocumentChunk :=
  foldl (optimize_step cfg) [] chunks.

(** [chunks.extend(_chunk_paragraph(p, source, i)) for i, p in
    enumerate(paragraphs)] *)
Fixpoint chunk_paragraphs (cfg : ChunkingConfig) (source : string) (i : nat)
    (paragraphs : list string) : list DocumentChunk :=
  match paragraphs with
  | [] => []
  | p :: ps =>
      _chunk_paragraph cfg p source i ++ chunk_paragraphs cfg source (S i) ps
  end.

Definition create_chunks (cfg : ChunkingConfig)
    (document_content document_source : string) : list DocumentChunk :=
  let cleaned_content := _preprocess_content document_content in
  let paragraphs := _extract_paragraphs cfg cleaned_content in
  _optimize_chunks cfg (chunk_paragraphs cfg document_source 0 paragraphs).

End Chunker.

(** ** [src/agents/retrieval_agent.py]: [QueryParser] *)

Module QueryParser.
Import Re.

Definition digit : regex := Cls PyStr.isdigit.
Definition digits : regex := Plus digit.
Definition space : regex := Cls PyStr.isspace.
(** [[A-Z]] and [[a-z]] under [re.IGNORECASE]. *)
Definition letter : regex := Cls PyStr.isalpha.
(** [[-\s]?] *)
Definition dash_space : regex :=
  Opt (Cls (fun c => Ascii.eqb c "-" || PyStr.isspace c)).

Fixpoint Seq (l : list regex) : regex :=
  match l with
  | [] => Eps
  | [r] => r
  | r :: l' => Cat r (Seq l')
  end.

(** Pattern "\b(\d+)[-\s]?(?:year|yr|y)[-\s]?old|\b(\d+)[yY]\b|\b(\d+)\s*male|\b(\d+)\s*female" *)
Definition age_pattern : regex :=
  Alts [
    Seq [WordB; Grp 1 digits; dash_space;
         Alts [LitI "year"; LitI "yr"; LitI "y"]; dash_space; LitI "old"];
    Seq [WordB; Grp 2 digits; ChrI "y"; WordB];
    Seq [WordB; Grp 3 digits; Star space; LitI "male"];
    Seq [WordB; Grp 4 digits; Star space; LitI "female"] ].

(** Pattern "\b(male|female|man|woman|M|F)\b" *)
Definition gender_pattern : regex :=
  Seq [WordB;
       Grp 1 (Alts [LitI "male"; LitI "female"; LitI "man"; LitI "woman";
                    LitI "M"; LitI "F"]);
       WordB].

(** Pattern "\b(surgery|operation|treatment|procedure|knee|hip|heart|brain|cancer|diabetes)\b" *)
Definition procedure_pattern : regex :=
  Seq [WordB;
       Grp 1 (Alts [LitI "surgery"; LitI "operation"; LitI "treatment";
                    LitI "procedure"; LitI "knee"; LitI "hip"; LitI "heart";
                    LitI "brain"; LitI "cancer"; LitI "diabetes"]);
       WordB].

(** The location pattern: a word boundary; group 1, which is "[A-Z][a-z]+"
    followed by any number of "\s+[A-Z][a-z]+"; a word boundary; the
    lookahead "\s*(?:city|state|hospital|clinic)|\s*,". *)
Definition location_pattern : regex :=
  Seq [WordB;
       Grp 1 (Seq [letter; Plus letter;
                   Star (Seq [Plus space; letter; Plus letter])]);
       WordB;
       Look (Alt (Seq [Star space;
                       Alts [LitI "city"; LitI "state"; LitI "hospital";
                             LitI "clinic"]])
                 (Seq [Star space; Chr ","]))].

(** Pattern "\b(\d+)[-\s]?(?:month|yr|year)[-\s]?old\s+(?:policy|insurance)" *)
Definition policy_duration_pattern : regex :=
  Seq [WordB; Grp 1 digits; dash_space;
       Alts [LitI "month"; LitI "yr"; LitI "year"]; dash_space; LitI "old";
       Plus space; Alts [LitI "policy"; LitI "insurance"]].

(** Pattern "\$?\s*(\d+(?:,\d{3})*(?:\.\d{2})?)\s*(?:dollars?|USD|\$)?" *)
Definition amount_pattern : regex :=
  Seq [Opt (Chr "$"); Star space;
       Grp 1 (Seq [digits; Star (Cat (Chr ",") (Times 3 digit));
                   Opt (Cat (Chr ".") (Times 2 digit))]);
       Star space;
       Opt (Alts [Cat (LitI "dollar") (Opt (ChrI "s")); LitI "USD"; Chr "$"])].

(** [self.entity_patterns], with the number of groups of each pattern. *)
Definition entity_patterns : list (string * (regex * nat)) :=
  [ ("age", (age_pattern, 4));
    ("gender", (gender_pattern, 1));
    ("procedure", (procedure_pattern, 1));
    ("location", (location_pattern, 1));
    ("policy_duration", (policy_duration_pattern, 1));
    ("amount", (amount_pattern, 1)) ].

Definition nonempty (s : string) : bool :=
  match s with EmptyString => false | _ => true end.

(** [next((group for group in match.groups() if group), None)] *)
Definition first_group (gs : list (option string)) : option string :=
  List.find nonempty (omap id gs).

(** The list [values] that the loop over [re.finditer] builds. *)
Definition match_values (pattern : regex * nat) (query : string)
  : list string :=
  omap (fun m => PyStr.strip <$> first_group (groups (snd pattern) m))
       (finditer (fst pattern) query).

(** [values[0] if len(values) == 1 else values], stored only [if values]. *)
Definition entity_value (values : list string) : option Py.value :=
  match values with
  | [] => None
  | [v] => Some (Py.VStr v)
  | _ => Some (Py.VList values)
  end.

Definition extract_entities (query : string) : gmap string Py.value :=
  foldl (fun entities '(entity_type, pattern) =>
           match entity_value (match_values pattern query) with
           | Some v => <[entity_type := v]> entities
           | None => entities
           end)
        ∅ entity_patterns.

Definition _determine_question_type (query : string) : string :=
  if PyStr.any_in ["eligible"; "qualify"; "covered"; "allowed"] query
  then "eligibility"
  else if PyStr.any_in ["amount"; "cost"; "price"; "pay"; "$"] query
  then "financial"
  else if PyStr.any_in ["when"; "how long"; "waiting"; "period"] query
  then "timing"
  else if PyStr.any_in ["where"; "location"; "hospital"; "clinic"] query
  then "location"
  else "general".

Definition _build_structured_query (entities : gmap string Py.value)
  : string :=
  let part (label key : string) : list string :=
    match entities !! key with
    | Some v => [label +:+ Py.str v]
    | None => []
    end in
  let parts :=
    part "Age: " "age" ++ part "Gender: " "gender"
      ++ part "Procedure: " "procedure" ++ part "Location: " "location"
      ++ part "Policy Duration: " "policy_duration" in
  match parts with
  | [] => "General inquiry"
  | _ => PyStr.join " | " parts
  end.

Record QueryContext : Type := {
  query_length : nat;
  contains_urgency : bool;
  contains_negation : bool;
  question_type : string
}.

Record ParsedQuery : Type := {
  original_query : string;
  entities : gmap string Py.value;
  context : QueryContext;
  structured_query : string
}.

Definition parse_query (query : string) : ParsedQuery :=
  let entities := extract_entities query in
  let query_lower := PyStr.lower query in
  {| original_query := query;
     entities := entities;
     context :=
       {| query_length := length (PyStr.split query);
          contains_urgency :=
            PyStr.any_in ["urgent"; "emergency"; "asap"; "immediate"] query_lower;
          contains_negation :=
            PyStr.any_in ["not"; "no"; "never"; "without"] query_lower;
          question_type := _determine_question_type query_lower |};
     structured_query := _build_structured_query entities |}.

End QueryParser.

(** ** [src/agents/retrieval_agent.py]: [VectorStore] and [RetrievalAgent] *)

Module Retrieval.
Import Schemas.
Local Open Scope Q_scope.

Record RetrievalConfig : Type := {
  dense_weight : Q;
  sparse_weight : Q;
  max_results : Z;
  similarity_threshold : Q;
  rerank_results : bool
}.

(** [RetrievalConfig()] with the defaults of the dataclass. *)
Definition default_config : RetrievalConfig :=
  {| dense_weight := 7 # 10; sparse_weight := 3 # 10; max_results := 10;
     similarity_threshold := 6 # 10; rerank_results := true |}.

(** The [__init__] that [@dataclass] generates: it stores its arguments;
    the class has no [__post_init__]. *)
Definition RetrievalConfig_init (dense_weight sparse_weight : Q)
    (max_results : Z) (similarity_threshold : Q) (rerank_results : bool)
  : Py.except RetrievalConfig :=
  Py.Ok {| dense_weight := dense_weight; sparse_weight := sparse_weight;
           max_results := max_results;
           similarity_threshold := similarity_threshold;
           rerank_results := rerank_results |}.

(** [self.documents]; [dense_vectors] and [sparse_vectors] hold, under the
    same keys, the embeddings of the stored contents. *)
Record VectorStore : Type := {
  documents : PyList.odict string DocumentChunk
}.

Definition empty_store : VectorStore := {| documents := [] |}.

Definition add_document (store : VectorStore) (chunk : DocumentChunk)
  : VectorStore * bool :=
  ({| documents := PyList.oset String.eqb (chunk_id chunk) chunk (documents store) |},
   true).

(** [RetrievalAgent.add_documents] *)
Definition add_documents (store : VectorStore) (chunks : list DocumentChunk)
  : VectorStore * bool :=
  let '(store, success_count) :=
    foldl (fun '(st, n) chunk =>
             let '(st', ok) := add_document st chunk in
             (st', if ok then S n else n))
          (store, 0%nat) chunks in
  (store, (success_count =? length chunks)%nat).

Definition entity_weight (entity_type : string) : Q :=
  if String.eqb entity_type "procedure" then 15 # 10
  else if String.eqb entity_type "age" then 12 # 10
  else if String.eqb entity_type "location" then 13 # 10
  else if String.eqb entity_type "policy_duration" then 14 # 10
  else 1.

(** The bonus that [_rerank_results] adds to a clause. *)
Definition bonus_score (entities : gmap string Py.value) (clause_text : string)
  : Q :=
  let clause_text_lower := PyStr.lower clause_text in
  foldl (fun bonus_score '(entity_type, entity_value) =>
           match entity_value with
           | Py.VStr s =>
               if PyStr.contains (PyStr.lower s) clause_text_lower
               then bonus_score + entity_weight entity_type * (1 # 10)
               else bonus_score
           | _ => bonus_score
           end)
        0 (map_to_list entities).

Definition with_score (clause : SourceClause) (score : Q) : SourceClause :=
  {| document_name := document_name clause; clause_id := clause_id clause;
     clause_text := clause_text clause; relevance_score := score;
     page_number := page_number clause |}.

Definition score_gt (y x : SourceClause) : bool :=
  negb (Qle_bool (relevance_score y) (relevance_score x)).

Definition _rerank_results (results : list SourceClause)
    (parsed_query : QueryParser.ParsedQuery) : list SourceClause :=
  let boosted :=
    map (fun clause =>
           with_score clause
             (PyNum.min_one (relevance_score clause
                       + bonus_score (QueryParser.entities parsed_query)
                                     (clause_text clause))))
        results in
  PyList.sort_desc score_gt boosted.

Section Similarity.

(** The embedding capability, seen through the two similarities that
    [similarity_search] computes between the query text and the content of
    a stored chunk: [_cosine_similarity] of the dense embeddings and
    [_sparse_similarity] of the term-frequency vectors. *)
Variable dense_similarity : string -> string -> Q.
Variable sparse_similarity : string -> string -> Q.

Definition hybrid_score (config : RetrievalConfig) (query : string)
    (chunk : DocumentChunk) : Q :=
  dense_weight config * dense_similarity query (content chunk)
  + sparse_weight config * sparse_similarity query (content chunk).

Definition pair_gt (y x : string * Q) : bool :=
  negb (Qle_bool (snd y) (snd x)).

Definition similarity_search (store : VectorStore) (query : string)
    (config : RetrievalConfig) : list (string * Q) :=
  let similarities :=
    omap (fun '(doc_id, chunk) =>
            let score := hybrid_score config query chunk in
            if Qle_bool (similarity_threshold config) score
            then Some (doc_id, score) else None)
         (documents store) in
  PyList.slice_to (max_results config) (PyList.sort_desc pair_gt similarities).

(** The loop that turns [(doc_id, score)] pairs into [SourceClause]s;
    [None] stands for the [KeyError] of [documents[doc_id]]. *)
Definition to_source_clauses (store : VectorStore)
    (similar_docs : list (string * Q)) : option (list SourceClause) :=
  mapM (fun '(doc_id, similarity_score) =>
          chunk ← PyList.oget String.eqb doc_id (documents store);
          Some {| document_name := document_source chunk;
                  clause_id := chunk_id chunk;
                  clause_text := content chunk;
                  relevance_score := similarity_score;
                  page_number := Some (Schemas.paragraph_index (metadata chunk)) |})
       similar_docs.

Definition retrieve_relevant_documents (config : RetrievalConfig)
    (store : VectorStore) (query : string) : list SourceClause :=
  let parsed_query := QueryParser.parse_query query in
  let enhanced_query :=
    query +:+ " " +:+ QueryParser.structured_query parsed_query in
  let similar_docs := similarity_search store enhanced_query config in
  match to_source_clauses store similar_docs with
  | None => []
  | Some source_clauses =>
      if rerank_results config
      then _rerank_results source_clauses parsed_query
      else source_clauses
  end.

End Similarity.

End Retrieval.

(** ** [src/config.py] *)

Module Config.
Local Open Scope Q_scope.

(** The fields of [Settings] that the modelled code reads. *)
Record Settings : Type := {
  max_chunk_size : Z;
  min_chunk_size : Z;
  overlap_size : Z;
  dense_weight : Q;
  sparse_weight : Q;
  similarity_threshold : Q;
  max_results : Z;
  default_age_min : Z;
  default_age_max : Z
}.

Definition default_settings : Settings :=
  {| max_chunk_size := 512; min_chunk_size := 50; overlap_size := 50;
     dense_weight := 7 # 10; sparse_weight := 3 # 10;
     similarity_threshold := 6 # 10; max_results := 10;
     default_age_min := 18; default_age_max := 80 |}.

Definition weights_issue : string :=
  "Dense weight + Sparse weight must equal 1.0".

(** [validate_configuration]; [dir_issues] are the issues that the check
    of the directories [logs] and [data] has appended. *)
Definition validate_configuration (dir_issues : list string)
    (settings : Settings) : list string :=
  dir_issues
  ++ (if negb (Qeq_bool (dense_weight settings + sparse_weight settings) 1)
      then [weights_issue] else [])
  ++ (if (max_chunk_size settings <=? min_chunk_size settings)%Z
      then ["Max chunk size must be greater than min chunk size"] else [])
  ++ (if negb (Qle_bool 0 (similarity_threshold settings))
         || negb (Qle_bool (similarity_threshold settings) 1)
      then ["Similarity threshold must be between 0 and 1"] else [])
  ++ (if (default_age_max settings <=? default_age_min settings)%Z
      then ["Default minimum age must be less than maximum age"] else []).

(** The start of [main.py]: [exit(1)] when [validate_configuration] reports
    an issue; [None] when the module goes on to build the application. *)
Definition main_startup (dir_issues : list string) (settings : Settings)
  : option Z :=
  match validate_configuration dir_issues settings with
  | [] => None
  | _ => Some 1%Z
  end.

(** The configuration that [AgentOrchestrator.__init__] builds from the
    settings. *)
Definition orchestrator_retrieval_config (settings : Settings)
  : Py.except Retrieval.RetrievalConfig :=
  Retrieval.RetrievalConfig_init
    (dense_weight settings) (sparse_weight settings) (max_results settings)
    (similarity_threshold settings) true.

End Config.

(** ** [src/agents/validation_agent.py] *)

Module Validation.
Import Schemas.
Local Open Scope Q_scope.

(** The value of a condition: what the default rules use (numbers, lists of
    strings, flags) and what [json.loads] can also deliver (a string). *)
Inductive cond_value : Type :=
| CInt (z : Z)
| CList (l : list string)
| CStr (s : string)
| CBool (b : bool).

Definition cond_type_name (c : cond_value) : string :=
  match c with
  | CInt _ => "int"
  | CList _ => "list"
  | CStr _ => "str"
  | CBool _ => "bool"
  end.

Record PolicyRule : Type := {
  rule_id : string;
  name : string;
  conditions : list (string * cond_value);
  action : string;
  priority : Z
}.

Record ValidationResult : Type := {
  is_valid : bool;
  violated_rules : list string;
  satisfied_rules : list string;
  warnings : list string;
  validation_details : PyList.odict string (string * string)
}.

(** [float(s)] for a string of digits and dots: at most one dot and at
    least one digit, else [ValueError]. *)
Definition parse_float (s : string) : option Q :=
  let digits := PyStr.filter_chars PyStr.isdigit s in
  if (PyStr.count_char "." s <=? 1)%nat && (0 <? String.length digits)%nat
  then
    let frac :=
      match Re.split (Re.Chr ".") s with
      | [_; f] => String.length f
      | _ => 0%nat
      end in
    Some (if (frac =? 0)%nat then inject_Z (PyStr.digits_value digits 0)
          else PyStr.digits_value digits 0 # PyNum.pow10 frac)
  else None.

(** [_extract_numeric_value] *)
Definition _extract_numeric_value (value : Py.value) : Q :=
  match value with
  | Py.VInt z => inject_Z z
  | _ =>
      let numeric_str :=
        PyStr.filter_chars
          (fun c => PyStr.isdigit c || Ascii.eqb c ".") (Py.str value) in
      match numeric_str with
      | EmptyString => 0
      | _ => default 0 (parse_float numeric_str)
      end
  end.

(** [_extract_policy_duration] *)
Definition _extract_policy_duration (value : Py.value) : Z :=
  match value with
  | Py.VInt z => z
  | _ =>
      let duration_str := PyStr.lower (Py.str value) in
      match Re.findall (Re.Plus (Re.Cls PyStr.isdigit)) duration_str with
      | [] => 0%Z
      | number :: _ =>
          let value := PyStr.digits_value number 0 in
          if PyStr.contains "year" duration_str
             || PyStr.contains "yr" duration_str then (value * 365)%Z
          else if PyStr.contains "month" duration_str then (value * 30)%Z
          else if PyStr.contains "week" duration_str then (value * 7)%Z
          else value
      end
  end.

(** [context.get(key, default)] *)
Definition get (context : gmap string Py.value) (key : string)
    (dflt : string) : Py.value :=
  default (Py.VStr dflt) (context !! key).

(** The number a condition value stands for in a comparison, or the
    [TypeError] of comparing a number of type [left] with it. *)
Definition cond_number (op left : string) (c : cond_value) : Py.except Q :=
  match c with
  | CInt z => Py.Ok (inject_Z z)
  | CBool b => Py.Ok (if b then 1 else 0)
  | _ =>
      Py.Raise ("'" +:+ op +:+ "' not supported between instances of '"
                +:+ left +:+ "' and '" +:+ cond_type_name c +:+ "'")
  end.

(** The strings that [for x in condition_value] yields. *)
Fixpoint chars (s : string) : list string :=
  match s with
  | EmptyString => []
  | String c s' => String c "" :: chars s'
  end.

Definition cond_iter (c : cond_value) : Py.except (list string) :=
  match c with
  | CList l => Py.Ok l
  | CStr s => Py.Ok (chars s)
  | _ => Py.Raise ("'" +:+ cond_type_name c +:+ "' object is not iterable")
  end.

(** [' '.join(v).lower() if isinstance(v, list) else str(v).lower()] *)
Definition text_of (v : Py.value) : string :=
  match v with
  | Py.VList l => PyStr.lower (PyStr.join " " l)
  | _ => PyStr.lower (Py.str v)
  end.

Definition any_lower_in (terms : list string) (text : string) : bool :=
  existsb (fun t => PyStr.contains (PyStr.lower t) text) terms.

Definition _check_condition (condition_type : string)
    (condition_value : cond_value) (context : gmap string Py.value)
  : Py.except bool :=
  if String.eqb condition_type "min_age" then
    let age := _extract_numeric_value (get context "age" "0") in
    bound ← cond_number ">=" "float" condition_value;
    Py.Ok (Qle_bool bound age)
  else if String.eqb condition_type "max_age" then
    let age := _extract_numeric_value (get context "age" "0") in
    bound ← cond_number "<=" "float" condition_value;
    Py.Ok (Qle_bool age bound)
  else if String.eqb condition_type "gender" then
    match get context "gender" "" with
    | Py.VStr g =>
        let gender := PyStr.lower g in
        match condition_value with
        | CList l => Py.Ok (existsb (fun x => String.eqb gender (PyStr.lower x)) l)
        | CStr s => Py.Ok (String.eqb gender (PyStr.lower s))
        | _ =>
            Py.Raise ("'" +:+ cond_type_name condition_value
                      +:+ "' object has no attribute 'lower'")
        end
    | v => Py.Raise ("'" +:+ Py.type_name v +:+ "' object has no attribute 'lower'")
    end
  else if String.eqb condition_type "waiting_period_days" then
    let policy_duration :=
      _extract_policy_duration (get context "policy_duration" "0") in
    bound ← cond_number ">=" "int" condition_value;
    Py.Ok (Qle_bool bound (inject_Z policy_duration))
  else if String.eqb condition_type "covered_procedures" then
    let procedure := text_of (get context "procedure" "") in
    terms ← cond_iter condition_value;
    Py.Ok (any_lower_in terms procedure)
  else if String.eqb condition_type "excluded_procedures" then
    let procedure := text_of (get context "procedure" "") in
    terms ← cond_iter condition_value;
    Py.Ok (negb (any_lower_in terms procedure))
  else if String.eqb condition_type "covered_locations" then
    let location := text_of (get context "location" "") in
    terms ← cond_iter condition_value;
    Py.Ok (any_lower_in terms location)
  else if String.eqb condition_type "max_claim_amount" then
    let amount := _extract_numeric_value (get context "amount" "0") in
    bound ← cond_number "<=" "float" condition_value;
    Py.Ok (Qle_bool amount bound)
  else if String.eqb condition_type "requires_pre_authorization" then
    let procedure := text_of (get context "procedure" "") in
    Py.Ok (negb (PyStr.any_in ["surgery"; "operation"; "transplant"; "cardiac"]
                              procedure))
  else Py.Ok true.

(** The loop of [evaluate] over [self.conditions.items()]. *)
Fixpoint check_all (rule_name : string) (conds : list (string * cond_value))
    (context : gmap string Py.value) : Py.except (bool * string) :=
  match conds with
  | [] => Py.Ok (true, "Rule " +:+ rule_name +:+ ": all conditions satisfied")
  | (condition_type, condition_value) :: conds' =>
      match _check_condition condition_type condition_value context with
      | Py.Ok true => check_all rule_name conds' context
      | Py.Ok false =>
          Py.Ok (false, "Rule " +:+ rule_name +:+ ": " +:+ condition_type
                          +:+ " condition not met")
      | Py.Raise msg => Py.Raise msg
      end
  end.

(** [PolicyRule.evaluate], with its [try/except]. *)
Definition evaluate (rule : PolicyRule) (context : gmap string Py.value)
  : bool * string :=
  match check_all (name rule) (conditions rule) context with
  | Py.Ok r => r
  | Py.Raise msg => (false, "Rule evaluation error: " +:+ msg)
  end.

(** [_initialize_default_rules] *)
Definition default_rules : list PolicyRule :=
  [ {| rule_id := "age_limit"; name := "Age Eligibility";
       conditions := [("min_age", CInt 18); ("max_age", CInt 80)];
       action := "check_age_eligibility"; priority := 1 |};
    {| rule_id := "waiting_period"; name := "Waiting Period Check";
       conditions := [("waiting_period_days", CInt 90)];
       action := "check_waiting_period"; priority := 2 |};
    {| rule_id := "covered_procedures"; name := "Procedure Coverage";
       conditions :=
         [("covered_procedures",
           CList ["knee surgery"; "hip surgery"; "cardiac surgery"; "dental";
                  "eye surgery"; "general surgery"; "orthopedic"; "treatment"])];
       action := "check_procedure_coverage"; priority := 3 |};
    {| rule_id := "excluded_procedures"; name := "Excluded Procedures";
       conditions :=
         [("excluded_procedures",
           CList ["cosmetic"; "plastic surgery"; "experimental"; "elective"])];
       action := "reject_excluded_procedure"; priority := 1 |};
    {| rule_id := "geographic_coverage"; name := "Geographic Coverage";
       conditions :=
         [("covered_locations",
           CList ["pune"; "mumbai"; "delhi"; "bangalore"; "chennai";
                  "hyderabad"; "kolkata"; "ahmedabad"; "india"])];
       action := "check_geographic_coverage"; priority := 2 |};
    {| rule_id := "claim_amount_limit"; name := "Maximum Claim Amount";
       conditions := [("max_claim_amount", CInt 500000)];
       action := "check_claim_limit"; priority := 2 |};
    {| rule_id := "pre_authorization"; name := "Pre-authorization Required";
       conditions := [("requires_pre_authorization", CBool true)];
       action := "require_pre_auth"; priority := 3 |} ].

(** The agent: its list [self.rules]. *)
Record ValidationAgent : Type := { rules : list PolicyRule }.

(** [ValidationAgent()] *)
Definition new_agent : ValidationAgent := {| rules := default_rules |}.

(** [add_custom_rule]; [conditions] is the outcome of
    [json.loads(rule.condition)], [None] when it raises. *)
Definition add_custom_rule (agent : ValidationAgent) (rule_id name : string)
    (conditions : option (list (string * cond_value))) (action : string)
    (priority : Z) : ValidationAgent * bool :=
  match conditions with
  | Some conds =>
      ({| rules := rules agent
                   ++ [{| rule_id := rule_id; name := name; conditions := conds;
                          action := action; priority := priority |}] |}, true)
  | None => (agent, false)
  end.

Definition coverage_terms : list string :=
  ["covered"; "eligible"; "included"; "benefits"; "reimbursement";
   "payment"; "approved"; "qualified"].

Definition exclusion_terms : list string :=
  ["excluded"; "not covered"; "limitation"; "restriction";
   "prohibited"; "denied"; "rejected"].

Definition _contains_coverage_language (text : string) : bool :=
  PyStr.any_in coverage_terms text.

Definition _contains_exclusion_language (text : string) : bool :=
  PyStr.any_in exclusion_terms text.

Definition _check_entity_in_clause (entities : gmap string Py.value)
    (clause_text : string) : bool :=
  existsb (fun '(_, entity_value) =>
             match entity_value with
             | Py.VStr s => PyStr.contains (PyStr.lower s) clause_text
             | _ => false
             end)
          (map_to_list entities).

Definition _validate_against_clauses (entities : gmap string Py.value)
    (clauses : list SourceClause) : PyList.odict string (string * string) :=
  foldl (fun clause_validation clause =>
           let clause_text := PyStr.lower (Schemas.clause_text clause) in
           let key := "clause_" +:+ clause_id clause in
           if _contains_coverage_language clause_text then
             if _check_entity_in_clause entities clause_text then
               PyList.oset String.eqb key
                 ("supports_coverage", "Clause supports coverage for this case")
                 clause_validation
             else
               PyList.oset String.eqb key
                 ("neutral", "Clause is relevant but not specifically supportive")
                 clause_validation
           else if _contains_exclusion_language clause_text then
             if _check_entity_in_clause entities clause_text then
               PyList.oset String.eqb key
                 ("exclusion_risk", "Clause may exclude coverage for this case")
                 clause_validation
             else clause_validation
           else if PyStr.contains "waiting" clause_text
                   || PyStr.contains "period" clause_text then
             PyList.oset String.eqb key
               ("waiting_period_relevant",
                "Clause mentions waiting period requirements")
               clause_validation
           else clause_validation)
        [] clauses.

(** [dict.update] *)
Definition update {V : Type} (d other : PyList.odict string V)
  : PyList.odict string V :=
  foldl (fun d '(k, v) => PyList.oset String.eqb k v d) d other.

(** The state of the loop over [sorted_rules]. *)
Record loop_state : Type := {
  ls_violated : list string;
  ls_satisfied : list string;
  ls_warnings : list string;
  ls_details : PyList.odict string (string * string)
}.

Definition rule_step (entities : gmap string Py.value) (st : loop_state)
    (rule : PolicyRule) : loop_state :=
  let '(is_satisfied, explanation) := evaluate rule entities in
  if is_satisfied then
    {| ls_violated := ls_violated st;
       ls_satisfied := ls_satisfied st ++ [name rule];
       ls_warnings := ls_warnings st;
       ls_details :=
         PyList.oset String.eqb (rule_id rule) ("satisfied", explanation)
                     (ls_details st) |}
  else
    {| ls_violated := ls_violated st ++ [name rule];
       ls_satisfied := ls_satisfied st;
       ls_warnings :=
         ls_warnings st
         ++ (if String.eqb (rule_id rule) "waiting_period"
             then ["Policy may not have met minimum waiting period"]
             else if String.eqb (rule_id rule) "excluded_procedures"
             then ["Procedure may be excluded from coverage"]
             else []);
       ls_details :=
         PyList.oset String.eqb (rule_id rule) ("violated", explanation)
                     (ls_details st) |}.

Definition is_critical_id (rule_id : string) : bool :=
  String.eqb rule_id "excluded_procedures" || String.eqb rule_id "age_limit".

(** [next((r for r in self.rules if r.name == rule_name), None)] *)
Definition rule_named (rules : list PolicyRule) (rule_name : string)
  : option PolicyRule :=
  List.find (fun r => String.eqb (name r) rule_name) rules.

(** [rule_obj and rule_obj.rule_id in ['excluded_procedures', 'age_limit']] *)
Definition is_critical_name (rules : list PolicyRule) (rule_name : string)
  : bool :=
  match rule_named rules rule_name with
  | Some rule_obj => is_critical_id (rule_id rule_obj)
  | None => false
  end.

Definition critical_violations (rules : list PolicyRule)
    (violated : list string) : list string :=
  filter (fun rule_name => is_critical_name rules rule_name = true) violated.

Definition validate_claim (agent : ValidationAgent)
    (entities : gmap string Py.value) (source_clauses : list SourceClause)
  : ValidationResult :=
  let sorted_rules :=
    PyList.sort_asc (fun y x => (priority y <? priority x)%Z) (rules agent) in
  let st :=
    foldl (rule_step entities)
          {| ls_violated := []; ls_satisfied := []; ls_warnings := [];
             ls_details := [] |}
          sorted_rules in
  let clause_validation := _validate_against_clauses entities source_clauses in
  {| is_valid :=
       (length (critical_violations (rules agent) (ls_violated st)) =? 0)%nat;
     violated_rules := ls_violated st;
     satisfied_rules := ls_satisfied st;
     warnings := ls_warnings st;
     validation_details := update (ls_details st) clause_validation |}.

End Validation.

(** ** [src/agents/decision_agent.py] *)

Module Decision.
Import Schemas.
Local Open Scope Q_scope.

Record DecisionContext : Type := {
  entities : gmap string Py.value;
  source_clauses : list SourceClause;
  validation_result : Validation.ValidationResult;
  query_type : string;
  urgency_level : string
}.

(** The [details] entry of a factor. *)
Inductive factor_details : Type :=
| NoDetails
| ValidDetails (satisfied_rules violated_rules : nat)
| InvalidDetails (violated_rules critical_violations : list string)
| ClauseDetails (positive_clauses negative_clauses neutral_clauses : nat)
                (highest_relevance : Q)
| EntityDetails (required_entities_present optional_entities_present : nat)
                (missing_required : list string) (completeness_score : Q).

Record Factor : Type := {
  factor_name : string;
  status : string;
  confidence_impact : Q;
  supports_coverage : option bool;
  description : string;
  details : factor_details
}.

Record RiskFactor : Type := {
  risk_type : string;
  level : string;
  risk_description : string
}.

Record RiskAssessment : Type := {
  overall_risk : string;
  factors : list RiskFactor;
  risk_score : option Q
}.

Record DecisionResult : Type := {
  decision : string;
  confidence_score : Q;
  amount : option Q;
  justification : string;
  decision_factors : list Factor;
  risk_assessment : RiskAssessment
}.

Definition _evaluate_validation_factor (vr : Validation.ValidationResult)
  : Factor :=
  if Validation.is_valid vr then
    {| factor_name := "validation_compliance"; status := "positive";
       confidence_impact := 8 # 10; supports_coverage := None;
       description := "All validation rules satisfied";
       details := ValidDetails (length (Validation.satisfied_rules vr))
                               (length (Validation.violated_rules vr)) |}
  else
    let critical_violations :=
      filter (fun rule =>
                (PyStr.contains "age" (PyStr.lower rule)
                 || PyStr.contains "excluded" (PyStr.lower rule)) = true)
             (Validation.violated_rules vr) in
    let '(confidence_impact, status) :=
      match critical_violations with
      | [] => (5 # 10, "cautionary")
      | _ => (2 # 10, "negative")
      end in
    {| factor_name := "validation_compliance"; status := status;
       confidence_impact := confidence_impact; supports_coverage := None;
       description :=
         PyStr.of_nat (length (Validation.violated_rules vr))
           +:+ " validation rules violated";
       details := InvalidDetails (Validation.violated_rules vr)
                                 critical_violations |}.

Definition positive_terms : list string :=
  ["covered"; "eligible"; "benefits"; "included"; "reimburse"; "approved"].

Definition negative_terms : list string :=
  ["excluded"; "not covered"; "limitation"; "restricted"; "denied"].

Inductive sentiment : Type := Positive | Negative | Neutral.

#[global] Instance sentiment_eq_dec : EqDecision sentiment.
Proof. solve_decision. Defined.

(** [any(str(value).lower() in text for value in entities.values()
    if isinstance(value, str))] *)
Definition entity_mentioned (entities : gmap string Py.value) (text : string)
  : bool :=
  existsb (fun '(_, value) =>
             match value with
             | Py.VStr s => PyStr.contains (PyStr.lower s) text
             | _ => false
             end)
          (map_to_list entities).

(** The [sentiment] entry of [_analyze_clause_sentiment]. *)
Definition _analyze_clause_sentiment (clause : SourceClause)
    (entities : gmap string Py.value) : sentiment :=
  let text := PyStr.lower (clause_text clause) in
  let positive_score := PyStr.count_in positive_terms text in
  let negative_score := PyStr.count_in negative_terms text in
  if entity_mentioned entities text then
    if (negative_score <? positive_score)%nat then Positive
    else if (positive_score <? negative_score)%nat then Negative
    else Neutral
  else Neutral.

Definition count_sentiment (s : sentiment) (l : list sentiment) : nat :=
  length (filter (fun x => x = s) l).

(** [max(l)] of a non-empty list. *)
Definition max_list (x : Q) (l : list Q) : Q :=
  foldl (fun m y => if Qle_bool y m then m else y) x l.

Definition _evaluate_clause_support (clauses : list SourceClause)
    (entities : gmap string Py.value) : Factor :=
  match clauses with
  | [] =>
      {| factor_name := "clause_support"; status := "negative";
         confidence_impact := 3 # 10; supports_coverage := Some false;
         description := "No relevant policy clauses found";
         details := NoDetails |}
  | c0 :: cs =>
      let sentiments :=
        map (fun c => _analyze_clause_sentiment c entities) clauses in
      let positive := count_sentiment Positive sentiments in
      let negative := count_sentiment Negative sentiments in
      let neutral := count_sentiment Neutral sentiments in
      let '(supports, impact, status, description) :=
        if (negative <? positive)%nat then
          (true, (7 # 10) + inject_Z (Z.of_nat positive) * (1 # 10), "positive",
           PyStr.of_nat positive +:+ " clauses support coverage")
        else if (positive <? negative)%nat then
          (false, 3 # 10, "negative",
           PyStr.of_nat negative +:+ " clauses indicate exclusion")
        else (false, 5 # 10, "neutral", "Mixed or unclear clause support") in
      {| factor_name := "clause_support"; status := status;
         confidence_impact := PyNum.min_one impact;
         supports_coverage := Some supports;
         description := description;
         details :=
           ClauseDetails positive negative neutral
             (max_list (relevance_score c0) (map relevance_score cs)) |}
  end.

(** [entity in entities and entities[entity]] *)
Definition present (entities : gmap string Py.value) (entity : string) : bool :=
  match entities !! entity with
  | Some v => Py.truthy v
  | None => false
  end.

Definition required_entities : list string := ["age"; "procedure"].
Definition optional_entities : list string :=
  ["gender"; "location"; "policy_duration"].

Definition count_present (entities : gmap string Py.value) (l : list string)
  : nat :=
  length (filter (fun e => present entities e = true) l).

Definition _evaluate_entity_completeness (entities : gmap string Py.value)
  : Factor :=
  let present_required := count_present entities required_entities in
  let present_optional := count_present entities optional_entities in
  let completeness_score :=
    (inject_Z (Z.of_nat present_required) / 2) * (8 # 10)
    + (inject_Z (Z.of_nat present_optional) / 3) * (2 # 10) in
  let '(status, confidence_impact) :=
    if Qle_bool (8 # 10) completeness_score then ("complete", 9 # 10)
    else if Qle_bool (6 # 10) completeness_score then ("adequate", 7 # 10)
    else ("incomplete", 4 # 10) in
  {| factor_name := "entity_completeness"; status := status;
     confidence_impact := confidence_impact; supports_coverage := None;
     description :=
       "Entity completeness: " +:+ PyNum.format_percent1 completeness_score;
     details :=
       EntityDetails present_required present_optional
         (filter (fun e => present entities e = false) required_entities)
         completeness_score |}.

(** [int(str(v).split()[0]) if v else dflt] *)
Definition age_or (dflt : Z) (v : Py.value) : Py.except Z :=
  if Py.truthy v then Py.int_of_first_word v else Py.Ok dflt.

Definition _assess_risk (context : DecisionContext) : Py.except RiskAssessment :=
  age_risk ←
    match entities context !! "age" with
    | Some v =>
        age ← age_or 0 v;
        Py.Ok (if (70 <? age)%Z then
                 ([{| risk_type := "age_risk"; level := "high";
                      risk_description :=
                        "Advanced age increases claim probability" |}], true)
               else if (age <? 25)%Z then
                 ([{| risk_type := "age_risk"; level := "low";
                      risk_description :=
                        "Young age reduces claim probability" |}], false)
               else ([], false))
    | None => Py.Ok ([], false)
    end;
  let procedure_risk :=
    match entities context !! "procedure" with
    | Some v =>
        if PyStr.any_in ["surgery"; "cardiac"; "brain"; "cancer"; "transplant"]
                        (PyStr.lower (Py.str v))
        then ([{| risk_type := "procedure_risk"; level := "high";
                  risk_description := "High-risk medical procedure" |}], true)
        else ([], false)
    | None => ([], false)
    end in
  let duration_risk :=
    match entities context !! "policy_duration" with
    | Some v =>
        let duration_str := PyStr.lower (Py.str v) in
        if PyStr.contains "month" duration_str
           && (PyStr.digits_value
                 (PyStr.filter_chars PyStr.isdigit duration_str) 0 <? 6)%Z
        then [{| risk_type := "policy_duration_risk"; level := "medium";
                 risk_description := "New policy with limited duration" |}]
        else []
    | None => []
    end in
  let risk_factors := age_risk.1 ++ procedure_risk.1 ++ duration_risk in
  let overall_risk :=
    if age_risk.2 || procedure_risk.2 then "high"
    else match duration_risk with [] => "low" | _ => "medium" end in
  let count lvl :=
    inject_Z (Z.of_nat (length (filter (fun f => String.eqb (level f) lvl = true)
                                       risk_factors))) in
  Py.Ok {| overall_risk := overall_risk; factors := risk_factors;
           risk_score := Some (count "high" * (3 # 10) + count "medium" * (2 # 10)) |}.

Definition procedure_amounts : list (string * Q) :=
  [("knee", 150000); ("hip", 200000); ("cardiac", 500000);
   ("surgery", 100000); ("dental", 25000); ("eye", 50000)].

Definition _calculate_coverage_amount (context : DecisionContext)
  : Py.except (option Q) :=
  match entities context !! "procedure" with
  | None => Py.Ok None
  | Some p =>
      let procedure := PyStr.lower (Py.str p) in
      let base_amount :=
        match List.find (fun '(proc_type, _) => PyStr.contains proc_type procedure)
                        procedure_amounts with
        | Some (_, amount) => amount
        | None => 75000
        end in
      base_amount ←
        match entities context !! "age" with
        | Some v =>
            age ← age_or 40 v;
            Py.Ok (if (60 <? age)%Z then base_amount * (12 # 10)
                   else if (age <? 30)%Z then base_amount * (9 # 10)
                   else base_amount)
        | None => Py.Ok base_amount
        end;
      Py.Ok (Some (PyNum.round_to 2 base_amount))
  end.

Definition decision_summary (decision : string) : string :=
  if String.eqb decision "approved"
  then "The claim has been APPROVED based on policy analysis."
  else if String.eqb decision "rejected"
  then "The claim has been REJECTED due to policy violations."
  else if String.eqb decision "requires_review"
  then "The claim REQUIRES MANUAL REVIEW due to policy ambiguities."
  else if String.eqb decision "pending"
  then "The claim is PENDING additional information or clarification."
  else "Decision status unclear.".

(** The marks of the factor lines, in UTF-8. *)
Definition check_mark : string := "✓".
Definition cross_mark : string := "✗".
Definition bullet_mark : string := "•".

Definition clause_gt (y x : SourceClause) : bool :=
  negb (Qle_bool (relevance_score y) (relevance_score x)).

Fixpoint clause_lines (i : nat) (clauses : list SourceClause) : list string :=
  match clauses with
  | [] => []
  | clause :: rest =>
      (PyStr.of_nat i +:+ ". " +:+ document_name clause +:+ " (Relevance: "
         +:+ PyNum.format_fixed 2 (relevance_score clause) +:+ "): "
         +:+ PyStr.take 100 (clause_text clause) +:+ "...")
        :: clause_lines (S i) rest
  end.

Definition newline : string := String (ascii_of_nat 10) "".

Definition _generate_justification (decision : string) (factors : list Factor)
    (validation : Validation.ValidationResult) (clauses : list SourceClause)
  : string :=
  let parts :=
    [decision_summary decision; newline +:+ "Key Decision Factors:"]
    ++ map (fun factor =>
              if String.eqb (status factor) "positive"
              then check_mark +:+ " " +:+ description factor
              else if String.eqb (status factor) "negative"
              then cross_mark +:+ " " +:+ description factor
              else bullet_mark +:+ " " +:+ description factor)
           factors
    ++ match Validation.violated_rules validation with
       | [] => []
       | l => [newline +:+ "Policy Violations: " +:+ PyStr.join ", " l]
       end
    ++ match Validation.satisfied_rules validation with
       | [] => []
       | l => ["Satisfied Requirements: " +:+ PyStr.join ", " (take 3 l)]
       end
    ++ match clauses with
       | [] => []
       | _ =>
           (newline +:+ "Supporting Policy Clauses:")
             :: clause_lines 1 (take 2 (PyList.sort_desc clause_gt clauses))
       end
    ++ match Validation.warnings validation with
       | [] => []
       | l => [newline +:+ "Warnings: " +:+ PyStr.join ", " l]
       end in
  PyStr.join newline parts.

Definition supports (f : Factor) : bool :=
  match supports_coverage f with Some b => b | None => false end.

(** The decision branch and its confidence modifier. *)
Definition decide_branch (vr : Validation.ValidationResult)
    (clause_factor : Factor) : string * Q :=
  if Validation.is_valid vr && supports clause_factor
  then ("approved", 1 # 10)
  else if negb (Validation.is_valid vr)
          && (2 <? length (Validation.violated_rules vr))%nat
  then ("rejected", 1 # 10)
  else if (0 <? length (Validation.warnings vr))%nat
  then ("requires_review", - (2 # 10))
  else ("pending", - (15 # 100)).

Definition evaluate_coverage_decision (context : DecisionContext)
  : Py.except DecisionResult :=
  let validation_factor :=
    _evaluate_validation_factor (validation_result context) in
  let clause_factor :=
    _evaluate_clause_support (source_clauses context) (entities context) in
  let entity_factor := _evaluate_entity_completeness (entities context) in
  let decision_factors := [validation_factor; clause_factor; entity_factor] in
  let confidence_components := map confidence_impact decision_factors in
  risk_assessment ← _assess_risk context;
  let overall_confidence :=
    PyNum.sum confidence_components
    / inject_Z (Z.of_nat (length confidence_components)) in
  let '(decision, confidence_modifier) :=
    decide_branch (validation_result context) clause_factor in
  let final_confidence :=
    PyNum.max_zero (PyNum.min_one (overall_confidence + confidence_modifier)) in
  amount ←
    (if String.eqb decision "approved"
     then _calculate_coverage_amount context else Py.Ok None);
  let justification :=
    _generate_justification decision decision_factors
      (validation_result context) (source_clauses context) in
  Py.Ok {| decision := decision; confidence_score := final_confidence;
           amount := amount; justification := justification;
           decision_factors := decision_factors;
           risk_assessment := risk_assessment |}.

(** One record of [decision_history]. *)
Record HistoryRecord : Type := {
  h_timestamp : string;
  h_entities : gmap string Py.value;
  h_decision : string;
  h_confidence : Q;
  h_query_type : string;
  h_amount : option Q
}.

Record DecisionAgent : Type := { decision_history : list HistoryRecord }.

Definition new_agent : DecisionAgent := {| decision_history := [] |}.

(** [_record_decision]; [now] is [datetime.now().isoformat()]. *)
Definition _record_decision (agent : DecisionAgent) (now : string)
    (entities : gmap string Py.value) (decision : DecisionResult)
    (query_type : string) : DecisionAgent :=
  let history :=
    decision_history agent
    ++ [{| h_timestamp := now; h_entities := entities;
           h_decision := Decision.decision decision;
           h_confidence := confidence_score decision;
           h_query_type := query_type; h_amount := amount decision |}] in
  {| decision_history :=
       if (1000 <? Z.of_nat (length history))%Z then PyList.last_n 1000 history
       else history |}.

(** The result of the [except Exception] branch of [make_decision]. *)
Definition error_result (msg : string) : DecisionResult :=
  {| decision := "rejected"; confidence_score := 0; amount := None;
     justification := "Error in decision processing: " +:+ msg;
     decision_factors := [];
     risk_assessment :=
       {| overall_risk := "unknown"; factors := []; risk_score := None |} |}.

(** [DecisionAgent.make_decision], with its [try/except Exception]. *)
Definition make_decision (agent : DecisionAgent) (now : string)
    (entities : gmap string Py.value) (source_clauses : list SourceClause)
    (validation_result : Validation.ValidationResult) (query_type : string)
  : DecisionAgent * DecisionResult :=
  let context :=
    {| Decision.entities := entities; Decision.source_clauses := source_clauses;
       Decision.validation_result := validation_result;
       Decision.query_type := query_type; urgency_level := "normal" |} in
  match evaluate_coverage_decision context with
  | Py.Ok decision_result =>
      (_record_decision agent now entities decision_result query_type,
       decision_result)
  | Py.Raise msg => (agent, error_result msg)
  end.

End Decision.

(** ** [src/agents/mapping_agent.py] *)

Module Mapping.
Import Schemas.
Local Open Scope Q_scope.

(** [str(uuid.uuid4())]: identifiers are drawn from a supply of fresh
    values; that two random identifiers coincide is not modelled. *)
Abbreviation uuid := nat (only parsing).

Record TraceabilityLink : Type := {
  link_id : uuid;
  decision_id : uuid;
  source_clause_id : string;
  relationship_type : string;
  strength : Q;
  explanation : string;
  timestamp : nat
}.

Record TraceMetadata : Type := {
  md_decision_id : uuid;
  md_amount : option Q;
  md_risk_assessment : Decision.RiskAssessment;
  md_processing_timestamp : nat
}.

Record DecisionTrace : Type := {
  trace_id : uuid;
  query : string;
  decision : string;
  entities : gmap string Py.value;
  confidence_score : Q;
  source_links : list TraceabilityLink;
  decision_path : list string;
  metadata : TraceMetadata;
  trace_timestamp : nat
}.

(** What [get_source_clauses_for_decision] writes under the key
    ['traceability_links'] of a clause entry. *)
Record LinkInfo : Type := {
  li_relationship_type : string;
  li_strength : Q;
  li_explanation : string
}.

(** An entry of [clause_index]. *)
Record ClauseData : Type := {
  cd_document_name : string;
  cd_clause_text : string;
  cd_relevance_score : Q;
  cd_page_number : option nat;
  cd_indexed_at : nat;
  cd_word_count : nat;
  cd_char_count : nat;
  cd_traceability_links : option (list LinkInfo)
}.

Record DocumentIndex : Type := {
  clause_index : gmap string ClauseData;
  document_index : gmap string (list string);
  decision_index : gmap uuid (list string)
}.

Record AuditEntry : Type := {
  ae_timestamp : nat;
  ae_event_type : string;
  ae_trace_id : uuid;
  ae_decision_id : uuid;
  ae_decision : string;
  ae_source_clauses_count : nat
}.

Record MappingAgent : Type := {
  index : DocumentIndex;
  decision_traces : PyList.odict uuid DecisionTrace;
  traceability_links : PyList.odict uuid TraceabilityLink;
  audit_log : list AuditEntry;
  next_uuid : uuid
}.

(** [MappingAgent()] *)
Definition new_agent : MappingAgent :=
  {| index := {| clause_index := ∅; document_index := ∅; decision_index := ∅ |};
     decision_traces := []; traceability_links := []; audit_log := [];
     next_uuid := 0%nat |}.

Definition in_list (s : string) (l : list string) : bool :=
  existsb (String.eqb s) l.

(** [DocumentIndex.add_clause] *)
Definition add_clause (now : nat) (idx : DocumentIndex) (clause : SourceClause)
  : DocumentIndex :=
  let ids := default [] (document_index idx !! document_name clause) in
  {| clause_index :=
       <[clause_id clause :=
           {| cd_document_name := document_name clause;
              cd_clause_text := clause_text clause;
              cd_relevance_score := relevance_score clause;
              cd_page_number := page_number clause;
              cd_indexed_at := now;
              cd_word_count := length (PyStr.split (clause_text clause));
              cd_char_count := String.length (clause_text clause);
              cd_traceability_links := None |}]> (clause_index idx);
     document_index :=
       <[document_name clause :=
           if in_list (clause_id clause) ids then ids
           else ids ++ [clause_id clause]]> (document_index idx);
     decision_index := decision_index idx |}.

(** [DocumentIndex.link_decision_to_clauses] *)
Definition link_decision_to_clauses (idx : DocumentIndex) (decision_id : uuid)
    (clause_ids : list string) : DocumentIndex :=
  {| clause_index := clause_index idx;
     document_index := document_index idx;
     decision_index := <[decision_id := clause_ids]> (decision_index idx) |}.

Definition supports_keywords : list string :=
  ["covered"; "eligible"; "benefits"; "approved"; "included"].
Definition contradicts_keywords : list string :=
  ["excluded"; "not covered"; "denied"; "prohibited"; "limitation"].
Definition validates_keywords : list string :=
  ["must"; "required"; "shall"; "conditions"; "criteria"].

Definition _analyze_clause_relationship (clause : SourceClause)
    (decision : Decision.DecisionResult) : string * Q * string :=
  let clause_text := PyStr.lower (Schemas.clause_text clause) in
  let decision_outcome := PyStr.lower (Decision.decision decision) in
  let supports_count := PyStr.count_in supports_keywords clause_text in
  let contradicts_count := PyStr.count_in contradicts_keywords clause_text in
  let validates_count := PyStr.count_in validates_keywords clause_text in
  let score := relevance_score clause in
  if String.eqb decision_outcome "approved" then
    if (contradicts_count <? supports_count)%nat then
      ("supports", PyNum.min_one (score + (2 # 10)),
       "Clause contains " +:+ PyStr.of_nat supports_count
         +:+ " supportive terms for approved decision")
    else if (supports_count <? contradicts_count)%nat then
      ("contradicts", score,
       "Clause contains " +:+ PyStr.of_nat contradicts_count
         +:+ " contradictory terms despite approval")
    else ("validates", score, "Clause provides validation criteria for decision")
  else if String.eqb decision_outcome "rejected" then
    if (supports_count <? contradicts_count)%nat then
      ("supports", PyNum.min_one (score + (2 # 10)),
       "Clause contains " +:+ PyStr.of_nat contradicts_count
         +:+ " exclusionary terms supporting rejection")
    else if (contradicts_count <? supports_count)%nat then
      ("contradicts", score,
       "Clause contains " +:+ PyStr.of_nat supports_count
         +:+ " supportive terms despite rejection")
    else ("validates", score, "Clause provides validation criteria for decision")
  else
    if (0 <? validates_count)%nat then
      ("validates", score,
       "Clause contains " +:+ PyStr.of_nat validates_count
         +:+ " validation requirements")
    else ("references", score * (8 # 10),
          "Clause provides reference information for decision").

Definition _create_traceability_link (now : nat) (link_id decision_id : uuid)
    (clause : SourceClause) (decision_result : Decision.DecisionResult)
  : TraceabilityLink :=
  let '(relationship_type, strength, explanation) :=
    _analyze_clause_relationship clause decision_result in
  {| link_id := link_id; decision_id := decision_id;
     source_clause_id := clause_id clause;
     relationship_type := relationship_type; strength := strength;
     explanation := explanation; timestamp := now |}.

(** The second loop of [create_decision_trace]: one link per clause, each
    stored under a fresh [link_id]. *)
Fixpoint create_links (now : nat) (decision_id : uuid)
    (decision_result : Decision.DecisionResult)
    (clauses : list SourceClause)
    (links : PyList.odict uuid TraceabilityLink) (next : uuid)
  : list TraceabilityLink * PyList.odict uuid TraceabilityLink * uuid :=
  match clauses with
  | [] => ([], links, next)
  | clause :: rest =>
      let link :=
        _create_traceability_link now next decision_id clause decision_result in
      let '(source_links, links', next') :=
        create_links now decision_id decision_result rest
          (PyList.oset Nat.eqb next link links) (S next) in
      (link :: source_links, links', next')
  end.

(** [_log_audit_event] *)
Definition _log_audit_event (log : list AuditEntry) (entry : AuditEntry)
  : list AuditEntry :=
  let log := log ++ [entry] in
  if (10000 <? Z.of_nat (length log))%Z then PyList.last_n 10000 log else log.

(** [create_decision_trace]; [now] is the reading of the clock. It returns
    the agent after the call and the [trace_id]. *)
Definition create_decision_trace (agent : MappingAgent) (now : nat)
    (query : string) (entities : gmap string Py.value)
    (decision_result : Decision.DecisionResult)
    (source_clauses : list SourceClause) (decision_path : list string)
  : MappingAgent * uuid :=
  let trace_id := next_uuid agent in
  let decision_id := S (next_uuid agent) in
  let idx := foldl (add_clause now) (index agent) source_clauses in
  let created :=
    create_links now decision_id decision_result source_clauses
      (traceability_links agent) (S (S (next_uuid agent))) in
  let source_links := created.1.1 in
  let clause_ids := map clause_id source_clauses in
  let idx := link_decision_to_clauses idx decision_id clause_ids in
  let decision_trace :=
    {| trace_id := trace_id; query := query;
       decision := Decision.decision decision_result;
       entities := entities;
       confidence_score := Decision.confidence_score decision_result;
       source_links := source_links; decision_path := decision_path;
       metadata :=
         {| md_decision_id := decision_id;
            md_amount := Decision.amount decision_result;
            md_risk_assessment := Decision.risk_assessment decision_result;
            md_processing_timestamp := now |};
       trace_timestamp := now |} in
  ({| index := idx;
      decision_traces :=
        PyList.oset Nat.eqb trace_id decision_trace (decision_traces agent);
      traceability_links := created.1.2;
      audit_log :=
        _log_audit_event (audit_log agent)
          {| ae_timestamp := now; ae_event_type := "decision_trace_created";
             ae_trace_id := trace_id; ae_decision_id := decision_id;
             ae_decision := Decision.decision decision_result;
             ae_source_clauses_count := length source_clauses |};
      next_uuid := created.2 |},
   trace_id).

(** [get_decision_trace] *)
Definition get_decision_trace (agent : MappingAgent) (trace_id : uuid)
  : option DecisionTrace :=
  PyList.oget Nat.eqb trace_id (decision_traces agent).

Definition link_info (link : TraceabilityLink) : LinkInfo :=
  {| li_relationship_type := relationship_type link;
     li_strength := strength link;
     li_explanation := explanation link |}.

Definition with_links (cd : ClauseData) (l : list LinkInfo) : ClauseData :=
  {| cd_document_name := cd_document_name cd;
     cd_clause_text := cd_clause_text cd;
     cd_relevance_score := cd_relevance_score cd;
     cd_page_number := cd_page_number cd;
     cd_indexed_at := cd_indexed_at cd;
     cd_word_count := cd_word_count cd;
     cd_char_count := cd_char_count cd;
     cd_traceability_links := Some l |}.

(** The links of one clause for one decision. *)
Definition links_of (agent : MappingAgent) (decision_id : uuid)
    (clause_id : string) : list TraceabilityLink :=
  filter (fun link =>
            (String.eqb (source_clause_id link) clause_id
             && Nat.eqb (Mapping.decision_id link) decision_id) = true)
         (PyList.ovalues (traceability_links agent)).

(** The loop of [get_source_clauses_for_decision] over [clause_ids]: the
    state is the clause index and the list [clauses]. *)
Definition annotate_step (agent : MappingAgent) (decision_id : uuid)
    (st : gmap string ClauseData * list ClauseData) (clause_id : string)
  : gmap string ClauseData * list ClauseData :=
  match st.1 !! clause_id with
  | Some clause_data =>
      let clause_data :=
        with_links clause_data
          (map link_info (links_of agent decision_id clause_id)) in
      (<[clause_id := clause_data]> st.1, st.2 ++ [clause_data])
  | None => st
  end.

(** [get_source_clauses_for_decision]. The entries it returns are the
    dicts stored in [clause_index], to which it has written the key
    ['traceability_links']: the index of the agent changes with the call. *)
Definition get_source_clauses_for_decision (agent : MappingAgent)
    (decision_id : uuid) : MappingAgent * list ClauseData :=
  let clause_ids := default [] (decision_index (index agent) !! decision_id) in
  let annotated :=
    foldl (annotate_step agent decision_id)
          (clause_index (index agent), []) clause_ids in
  ({| index :=
        {| clause_index := annotated.1;
           document_index := document_index (index agent);
           decision_index := decision_index (index agent) |};
      decision_traces := decision_traces agent;
      traceability_links := traceability_links agent;
      audit_log := audit_log agent;
      next_uuid := next_uuid agent |},
   annotated.2).

(** One entry of the result of [get_decisions_using_clause]. *)
Record DecisionUse : Type := {
  du_trace_id : uuid;
  du_decision : string;
  du_query : string;
  du_confidence_score : Q;
  du_relationship_type : string;
  du_relationship_strength : Q;
  du_timestamp : nat
}.

(** [next((trace for trace in self.decision_traces.values()
    if trace.metadata.get('decision_id') == d), None)] *)
Definition trace_of_decision (agent : MappingAgent) (d : uuid)
  : option DecisionTrace :=
  List.find (fun trace => Nat.eqb (md_decision_id (metadata trace)) d)
            (PyList.ovalues (decision_traces agent)).

Definition get_decisions_using_clause (agent : MappingAgent)
    (clause_id : string) : list DecisionUse :=
  let related_links :=
    filter (fun link => String.eqb (source_clause_id link) clause_id = true)
           (PyList.ovalues (traceability_links agent)) in
  omap (fun link =>
          trace ← trace_of_decision agent (decision_id link);
          Some {| du_trace_id := trace_id trace;
                  du_decision := decision trace;
                  du_query := query trace;
                  du_confidence_score := confidence_score trace;
                  du_relationship_type := relationship_type link;
                  du_relationship_strength := strength link;
                  du_timestamp := trace_timestamp trace |})
       related_links.

End Mapping.

(** ** Reports, statistics and the orchestrator *)

(** Counting into a dict: [d[k] = d.get(k, 0) + 1]. *)
Module PyCount.

Definition incr (d : PyList.odict string nat) (k : string)
  : PyList.odict string nat :=
  PyList.oset String.eqb k (default 0 (PyList.oget String.eqb k d) + 1) d.

Definition count_by {A : Type} (key : A -> string) (l : list A)
  : PyList.odict string nat :=
  foldl (fun d x => incr d (key x)) [] l.

(** [sum(d.values())] *)
Definition total (d : PyList.odict string nat) : nat :=
  foldr Nat.add 0 (PyList.ovalues d).

(** [s.replace(old, new)] for a non-empty [old]: occurrences are replaced
    from the left and do not overlap; [skip] counts the characters of a
    replaced occurrence that are still to be passed over. *)
Fixpoint replace_aux (old new s : string) (skip : nat) : string :=
  match s with
  | EmptyString => EmptyString
  | String c s' =>
      match skip with
      | S skip' => replace_aux old new s' skip'
      | O =>
          if PyStr.prefix old s
          then new +:+ replace_aux old new s' (String.length old - 1)
          else String c (replace_aux old new s' 0)
      end
  end.

Definition replace (old new s : string) : string := replace_aux old new s 0.

End PyCount.

(** *** [decision_agent.py]: statistics *)

Module DecisionReports.
Import Decision.
Local Open Scope Q_scope.

(** [a > b] on floats. *)
Definition gtb (a b : Q) : bool := negb (Qle_bool a b).

(** The dict of [get_decision_statistics]: with an empty history it has the
    key [total_decisions] only. *)
Inductive statistics : Type :=
| NoDecisions
| Statistics (total_decisions approved rejected pending requires_review : nat)
             (average_confidence : Q) (high_confidence_decisions : nat).

(** [decisions.count(d)] *)
Definition count_decision (d : string) (decisions : list string) : nat :=
  length (List.filter (String.eqb d) decisions).

Definition get_decision_statistics (agent : DecisionAgent) : statistics :=
  match decision_history agent with
  | [] => NoDecisions
  | history =>
      let decisions := map h_decision history in
      let confidences := map h_confidence history in
      Statistics (length history)
        (count_decision "approved" decisions)
        (count_decision "rejected" decisions)
        (count_decision "pending" decisions)
        (count_decision "requires_review" decisions)
        (PyNum.sum confidences / inject_Z (Z.of_nat (length confidences)))
        (length (List.filter (fun c => gtb c (7 # 10)) confidences))
  end.

End DecisionReports.

(** *** [validation_agent.py]: applicable rules and statistics *)

Module ValidationReports.
Import Validation.
Local Open Scope Q_scope.

(** One entry of [get_applicable_rules]. *)
Record ApplicableRule : Type := {
  ar_rule_id : string;
  ar_name : string;
  ar_conditions : list (string * cond_value);
  ar_priority : Z
}.

(** [condition.replace('min_', '').replace('max_', '')] *)
Definition condition_entity (condition : string) : string :=
  PyCount.replace "max_" "" (PyCount.replace "min_" "" condition).

Definition get_applicable_rules (agent : ValidationAgent)
    (entities : gmap string Py.value) : list ApplicableRule :=
  map (fun rule =>
         {| ar_rule_id := rule_id rule; ar_name := name rule;
            ar_conditions := conditions rule; ar_priority := priority rule |})
      (List.filter
         (fun rule =>
            existsb (fun condition =>
                       bool_decide (is_Some (entities
                                               !! condition_entity condition)))
                    (map fst (conditions rule)))
         (rules agent)).

Record RuleStatistics : Type := {
  total_rules : nat;
  rule_types : PyList.odict string nat;
  average_priority : Q
}.

Definition get_rule_statistics (agent : ValidationAgent) : RuleStatistics :=
  {| total_rules := length (rules agent);
     rule_types :=
       foldl (fun rule_types rule =>
                foldl PyCount.incr rule_types (map fst (conditions rule)))
             [] (rules agent);
     average_priority :=
       match rules agent with
       | [] => 0
       | _ =>
           inject_Z (foldl Z.add 0%Z (map priority (rules agent)))
           / inject_Z (Z.of_nat (length (rules agent)))
       end |}.

End ValidationReports.

(** *** [mapping_agent.py]: statistics, coverage and export *)

Module MappingReports.
Import Schemas Mapping.
Local Open Scope Q_scope.

Definition _get_link_type_distribution (agent : MappingAgent)
  : PyList.odict string nat :=
  PyCount.count_by relationship_type
    (PyList.ovalues (traceability_links agent)).

Record MappingStatistics : Type := {
  total_traces : nat;
  total_links : nat;
  indexed_clauses : nat;
  indexed_documents : nat;
  audit_events : nat;
  link_type_distribution : PyList.odict string nat
}.

Definition get_mapping_statistics (agent : MappingAgent) : MappingStatistics :=
  {| total_traces := length (decision_traces agent);
     total_links := length (traceability_links agent);
     indexed_clauses := size (clause_index (index agent));
     indexed_documents := size (document_index (index agent));
     audit_events := length (audit_log agent);
     link_type_distribution := _get_link_type_distribution agent |}.

(** [a / b if b > 0 else 0] on counts. *)
Definition ratio (a b : nat) : Q :=
  if (0 <? b)%nat then inject_Z (Z.of_nat a) / inject_Z (Z.of_nat b) else 0.

Record Coverage : Type := {
  decision_coverage : Q;
  clause_coverage : Q
}.

Definition _calculate_traceability_coverage (agent : MappingAgent) : Coverage :=
  let total_decisions := length (decision_traces agent) in
  let decisions_with_traces :=
    length (List.filter (fun trace => (0 <? length (source_links trace))%nat)
                        (PyList.ovalues (decision_traces agent))) in
  let total_clauses := size (clause_index (index agent)) in
  let clauses_with_decisions :=
    size (list_to_set (map source_clause_id
                           (PyList.ovalues (traceability_links agent)))
          : gset string) in
  {| decision_coverage := ratio decisions_with_traces total_decisions;
     clause_coverage := ratio clauses_with_decisions total_clauses |}.

(** One entry of [linked_clauses]: the clause entry with its
    [link_details]. *)
Record LinkedClause : Type := {
  lc_clause : ClauseData;
  lc_link_details : LinkInfo
}.

Record TraceExport : Type := {
  te_trace : DecisionTrace;
  te_linked_clauses : list LinkedClause;
  te_export_timestamp : nat
}.

(** [export_trace_data]; [None] is the empty dict of an unknown trace. *)
Definition export_trace_data (agent : MappingAgent) (now : nat)
    (trace_id : nat) : option TraceExport :=
  match PyList.oget Nat.eqb trace_id (decision_traces agent) with
  | None => None
  | Some trace =>
      Some {| te_trace := trace;
              te_linked_clauses :=
                omap (fun link =>
                        clause_data ← clause_index (index agent)
                                        !! source_clause_id link;
                        Some {| lc_clause := clause_data;
                                lc_link_details := link_info link |})
                     (source_links trace);
              te_export_timestamp := now |}
  end.

End MappingReports.

(** *** [retrieval_agent.py]: the sparse embedding *)

Module SparseEmbedding.
Local Open Scope Q_scope.

(** [_generate_sparse_embedding]: the frequency of every word longer than
    2 characters, divided by the number of all words. *)
Definition _generate_sparse_embedding (text : string)
  : PyList.odict string Q :=
  let words := PyStr.split (PyStr.lower text) in
  let word_freq :=
    PyCount.count_by id
      (List.filter (fun word => (2 <? String.length word)%nat) words) in
  let total_words := length words in
  map (fun '(word, freq) =>
         (word, inject_Z (Z.of_nat freq) / inject_Z (Z.of_nat total_words)))
      word_freq.

End SparseEmbedding.

(** *** [orchestrator.py] *)

Module Orchestrator.
Import Schemas.
Local Open Scope Q_scope.

Record ProcessingStats : Type := {
  documents_processed : nat;
  queries_processed : nat;
  decisions_made : nat;
  total_processing_time : Q
}.

Definition zero_stats : ProcessingStats :=
  {| documents_processed := 0; queries_processed := 0; decisions_made := 0;
     total_processing_time := 0 |}.

(** The orchestrator with the state of its agents: the configuration of the
    chunker, the configuration and the store of the retrieval agent, and
    the validation, decision and mapping agents. *)
Record AgentOrchestrator : Type := {
  chunking_config : Chunker.ChunkingConfig;
  retrieval_config : Retrieval.RetrievalConfig;
  vector_store : Retrieval.VectorStore;
  validation_agent : Validation.ValidationAgent;
  decision_agent : Decision.DecisionAgent;
  mapping_agent : Mapping.MappingAgent;
  initialized : bool;
  processing_stats : ProcessingStats
}.

(** [AgentOrchestrator()]: the chunker is created without a configuration,
    the retrieval configuration is taken from the settings. *)
Definition new_orchestrator (settings : Config.Settings) : AgentOrchestrator :=
  {| chunking_config := Chunker.default_config;
     retrieval_config :=
       {| Retrieval.dense_weight := Config.dense_weight settings;
          Retrieval.sparse_weight := Config.sparse_weight settings;
          Retrieval.max_results := Config.max_results settings;
          Retrieval.similarity_threshold := Config.similarity_threshold settings;
          Retrieval.rerank_results := true |};
     vector_store := Retrieval.empty_store;
     validation_agent := Validation.new_agent;
     decision_agent := Decision.new_agent;
     mapping_agent := Mapping.new_agent;
     initialized := false;
     processing_stats := zero_stats |}.

Definition set_initialized (o : AgentOrchestrator) (b : bool)
  : AgentOrchestrator :=
  {| chunking_config := chunking_config o;
     retrieval_config := retrieval_config o;
     vector_store := vector_store o;
     validation_agent := validation_agent o;
     decision_agent := decision_agent o;
     mapping_agent := mapping_agent o;
     initialized := b;
     processing_stats := processing_stats o |}.

(** [initialize] *)
Definition initialize (o : AgentOrchestrator) : AgentOrchestrator :=
  set_initialized o true.

(** What [parse_document] hands over: the text and the flag [success]
    (reading the file is outside the model). *)
Record ParsedDocument : Type := {
  pd_content : string;
  pd_success : bool
}.

(** The dict that [process_document] returns. *)
Inductive DocumentResult : Type :=
| DocumentFailed (error : string)
| DocumentProcessed (chunks : nat) (processing_time : Q) (file_path : string).

(** [process_document]; [parsed_result] is the result of the parser and
    [t_start], [t_end] are the two readings of [time.time()]. *)
Definition process_document (o : AgentOrchestrator) (file_path : string)
    (parsed_result : ParsedDocument) (t_start t_end : Q)
  : AgentOrchestrator * DocumentResult :=
  let o := if initialized o then o else initialize o in
  if negb (pd_success parsed_result)
  then (o, DocumentFailed "Document parsing failed")
  else
    let chunks :=
      Chunker.create_chunks (chunking_config o) (pd_content parsed_result)
                            file_path in
    match chunks with
    | [] => (o, DocumentFailed "Semantic chunking failed")
    | _ =>
        let added := Retrieval.add_documents (vector_store o) chunks in
        let processing_time := t_end - t_start in
        ({| chunking_config := chunking_config o;
            retrieval_config := retrieval_config o;
            vector_store := added.1;
            validation_agent := validation_agent o;
            decision_agent := decision_agent o;
            mapping_agent := mapping_agent o;
            initialized := initialized o;
            processing_stats :=
              {| documents_processed :=
                   S (documents_processed (processing_stats o));
                 queries_processed := queries_processed (processing_stats o);
                 decisions_made := decisions_made (processing_stats o);
                 total_processing_time :=
                   total_processing_time (processing_stats o)
                   + processing_time |} |},
         DocumentProcessed (length chunks) processing_time file_path)
    end.

Record ValidationSummary : Type := {
  vs_is_valid : bool;
  vs_satisfied_rules : list string;
  vs_violated_rules : list string;
  vs_warnings : list string
}.

(** The response of [process_query]. *)
Record QueryResponse : Type := {
  qr_decision : string;
  qr_amount : option Q;
  qr_justification : string;
  qr_confidence_score : Q;
  qr_source_clauses : list SourceClause;
  qr_processing_time : Q;
  qr_trace_id : option nat;
  qr_entities : gmap string Py.value;
  qr_validation_summary : ValidationSummary
}.

(** The steps that [process_query] appends to [decision_path]. A step is
    modelled by its name; its other keys (timestamp, status, counts), which
    [process_query] writes in place, are left out. *)
Definition decision_path_steps : list string :=
  ["query_parsing"; "document_retrieval"; "policy_validation";
   "decision_making"; "traceability_mapping"].

Section Similarity.

Variable dense_similarity : string -> string -> Q.
Variable sparse_similarity : string -> string -> Q.

(** [process_query]; [now] and [tick] are the readings of [datetime.now()]
    in the decision and the mapping agent, [t_start] and [t_end] those of
    [time.time()]. No step of the model raises, so the [except] branch of
    the method, which answers the decision "error", is not reached. *)
Definition process_query (o : AgentOrchestrator) (query : string)
    (now : string) (tick : nat) (t_start t_end : Q)
  : AgentOrchestrator * QueryResponse :=
  let o := if initialized o then o else initialize o in
  let parsed_query := QueryParser.parse_query query in
  let entities := QueryParser.entities parsed_query in
  let source_clauses :=
    Retrieval.retrieve_relevant_documents dense_similarity sparse_similarity
      (retrieval_config o) (vector_store o) query in
  let validation_result :=
    Validation.validate_claim (validation_agent o) entities source_clauses in
  let decided :=
    Decision.make_decision (decision_agent o) now entities source_clauses
      validation_result
      (QueryParser.question_type (QueryParser.context parsed_query)) in
  let decision_result := decided.2 in
  let traced :=
    Mapping.create_decision_trace (mapping_agent o) tick query entities
      decision_result source_clauses decision_path_steps in
  let processing_time := t_end - t_start in
  ({| chunking_config := chunking_config o;
      retrieval_config := retrieval_config o;
      vector_store := vector_store o;
      validation_agent := validation_agent o;
      decision_agent := decided.1;
      mapping_agent := traced.1;
      initialized := initialized o;
      processing_stats :=
        {| documents_processed := documents_processed (processing_stats o);
           queries_processed := S (queries_processed (processing_stats o));
           decisions_made := S (decisions_made (processing_stats o));
           total_processing_time :=
             total_processing_time (processing_stats o) + processing_time |} |},
   {| qr_decision := Decision.decision decision_result;
      qr_amount := Decision.amount decision_result;
      qr_justification := Decision.justification decision_result;
      qr_confidence_score := Decision.confidence_score decision_result;
      qr_source_clauses := source_clauses;
      qr_processing_time := processing_time;
      qr_trace_id := Some traced.2;
      qr_entities := entities;
      qr_validation_summary :=
        {| vs_is_valid := Validation.is_valid validation_result;
           vs_satisfied_rules := Validation.satisfied_rules validation_result;
           vs_violated_rules := Validation.violated_rules validation_result;
           vs_warnings := Validation.warnings validation_result |} |}).

End Similarity.

(** [reset_system] *)
Definition reset_system (o : AgentOrchestrator) : AgentOrchestrator :=
  initialize
    {| chunking_config := chunking_config o;
       retrieval_config := retrieval_config o;
       vector_store := vector_store o;
       validation_agent := validation_agent o;
       decision_agent := decision_agent o;
       mapping_agent := mapping_agent o;
       initialized := false;
       processing_stats := zero_stats |}.

(** [shutdown] *)
Definition shutdown (o : AgentOrchestrator) : AgentOrchestrator :=
  set_initialized o false.

End Orchestrator.

(** * Vocabulary of the properties *)

Section Vocabulary.
Import Schemas.

(** The [DecisionContext] that [make_decision] builds from its arguments. *)
Definition mk_context (entities : gmap string Py.value)
    (source_clauses : list SourceClause)
    (validation_result : Validation.ValidationResult) (query_type : string)
  : Decision.DecisionContext :=
  {| Decision.entities := entities; Decision.source_clauses := source_clauses;
     Decision.validation_result := validation_result;
     Decision.query_type := query_type; Decision.urgency_level := "normal" |}.

(** A configuration that preserves sentences. *)
Definition sentence_config (max_size min_size overlap : Z) (paragraphs : bool)
  : Chunker.ChunkingConfig :=
  {| Chunker.max_chunk_size := max_size; Chunker.min_chunk_size := min_size;
     Chunker.overlap_size := overlap; Chunker.semantic_threshold := (7 # 10)%Q;
     Chunker.preserve_sentences := true;
     Chunker.preserve_paragraphs := paragraphs |}.

(** A small configuration and a text of four sentences: "Hi there" has 8
    characters, and "Bye now friend" is the trailing group, shorter than
    [min_chunk_size]. *)
Definition small_config : Chunker.ChunkingConfig :=
  sentence_config 40 20 0 true.

Definition four_sentences : string :=
  "The policy covers knee surgery. Hi there. Claims need approval first. Bye now friend.".

(** A store to which one chunk has been added. *)
Definition one_chunk_store : Retrieval.VectorStore :=
  (Retrieval.add_document Retrieval.empty_store
     (Chunker._create_chunk "Knee surgery is covered." "policy.pdf" 0 0)).1.

(** A store to which two chunks have been added. *)
Definition two_chunk_store : Retrieval.VectorStore :=
  (Retrieval.add_document one_chunk_store
     (Chunker._create_chunk "Hip surgery is covered." "policy.pdf" 0 1)).1.

(** The pattern that [entity_patterns] has for a field name. *)
Definition pattern_of (field : string) : option (Re.regex * nat) :=
  snd <$> List.find (fun p => String.eqb (fst p) field) QueryParser.entity_patterns.

(** A decision over one clause, recorded by a new agent. *)
Definition knee_clause : Schemas.SourceClause :=
  {| Schemas.document_name := "policy.pdf";
     Schemas.clause_id := "policy.pdf_p0_c0";
     Schemas.clause_text := "Knee surgery is covered in Pune.";
     Schemas.relevance_score := (7 # 10)%Q;
     Schemas.page_number := Some 0 |}.

Definition knee_entities : gmap string Py.value :=
  <["age" := Py.VStr "46"]> (<["procedure" := Py.VStr "knee surgery"]> ∅).

Definition knee_decision : Decision.DecisionResult :=
  (Decision.make_decision Decision.new_agent "t" knee_entities [knee_clause]
     (Validation.validate_claim Validation.new_agent knee_entities [knee_clause])
     "eligibility").2.

Definition one_trace_agent : Mapping.MappingAgent :=
  (Mapping.create_decision_trace Mapping.new_agent 0 "knee surgery, 46"
     knee_entities knee_decision [knee_clause] []).1.

End Vocabulary.

Section RuleVocabulary.
Import Validation.

(** A rule is violated when [evaluate] answers [False]; an exception inside
    the rule counts as a violation. *)
Definition rule_violated (rule : PolicyRule) (entities : gmap string Py.value)
  : bool :=
  negb (evaluate rule entities).1.

(** The age of the entities is missing: there is no "age" key, or its value
    is a string or a list whose rendering has no digit. *)
Definition no_digits (v : Py.value) : bool :=
  match v with
  | Py.VInt _ => false
  | _ => (String.length (PyStr.filter_chars PyStr.isdigit (Py.str v)) =? 0)%nat
  end.

Definition age_missing (entities : gmap string Py.value) : bool :=
  match entities !! "age" with
  | None => true
  | Some v => no_digits v
  end.

(** The rule [age_limit] of the default rules. *)
Definition age_limit_rule : PolicyRule :=
  {| rule_id := "age_limit"; name := "Age Eligibility";
     conditions := [("min_age", CInt 18); ("max_age", CInt 80)];
     action := "check_age_eligibility"; priority := 1 |}.

End RuleVocabulary.

Section OrderVocabulary.
Local Open Scope Q_scope.
Context {A : Type} (key : A -> Q).

(** Non-increasing order of the keys. *)
Definition key_geq (a b : A) : Prop := key b <= key a.

Definition key_gt (y x : A) : bool := negb (Qle_bool (key y) (key x)).

End OrderVocabulary.

Section TraceVocabulary.
Import Schemas Mapping.

(** The states of the agent: the new agent and what the calls of
    [create_decision_trace] and [get_source_clauses_for_decision] make of
    it ([get_decisions_using_clause] and [get_decision_trace] only read). *)
Inductive reachable : MappingAgent -> Prop :=
| reach_new : reachable new_agent
| reach_create agent now query entities decision_result clauses path :
    reachable agent ->
    reachable (create_decision_trace agent now query entities decision_result
                 clauses path).1
| reach_get agent decision_id :
    reachable agent ->
    reachable (get_source_clauses_for_decision agent decision_id).1.

(** The invariant of the reachable states. *)
Definition trace_ok (agent : MappingAgent) (t : DecisionTrace) : Prop :=
  trace_of_decision agent (md_decision_id (metadata t)) = Some t
  /\ decision_index (index agent) !! md_decision_id (metadata t)
     = Some (map source_clause_id (source_links t))
  /\ Forall (fun l =>
               decision_id l = md_decision_id (metadata t)
               /\ In l (PyList.ovalues (traceability_links agent))
               /\ is_Some (clause_index (index agent) !! source_clause_id l))
            (source_links t).

Definition wf (agent : MappingAgent) : Prop :=
  Forall (fun p => p.1 < next_uuid agent) (traceability_links agent)
  /\ Forall (fun p => p.1 < next_uuid agent
                      /\ md_decision_id (metadata p.2) < next_uuid agent
                      /\ trace_id p.2 = p.1)
            (decision_traces agent)
  /\ Forall (fun p => trace_ok agent p.2) (decision_traces agent).

End TraceVocabulary.

Section ReportVocabulary.

(** The states of the decision agent: the new agent and what
    [make_decision] makes of it. *)
Inductive reachable_decision_agent : Decision.DecisionAgent -> Prop :=
| dreach_new : reachable_decision_agent Decision.new_agent
| dreach_make agent now entities clauses vr qt :
    reachable_decision_agent agent ->
    reachable_decision_agent
      (Decision.make_decision agent now entities clauses vr qt).1.

(** The record that [_record_decision] appends for a decision. *)
Definition history_record (now : string) (entities : gmap string Py.value)
    (r : Decision.DecisionResult) (qt : string) : Decision.HistoryRecord :=
  {| Decision.h_timestamp := now; Decision.h_entities := entities;
     Decision.h_decision := Decision.decision r;
     Decision.h_confidence := Decision.confidence_score r;
     Decision.h_query_type := qt; Decision.h_amount := Decision.amount r |}.

(** A record of the history is well formed: its decision is one of the
    four outcomes and its confidence lies between 0 and 1. *)
Definition record_ok (h : Decision.HistoryRecord) : Prop :=
  In (Decision.h_decision h)
     ["approved"; "rejected"; "requires_review"; "pending"]
  /\ (0 <= Decision.h_confidence h <= 1)%Q.

(** The states of the orchestrator: a new orchestrator and what its
    methods make of it, for given similarities of the embedding. *)
Inductive reachable_orchestrator (dense sparse : string -> string -> Q)
  : Orchestrator.AgentOrchestrator -> Prop :=
| oreach_new settings :
    reachable_orchestrator dense sparse (Orchestrator.new_orchestrator settings)
| oreach_initialize o :
    reachable_orchestrator dense sparse o ->
    reachable_orchestrator dense sparse (Orchestrator.initialize o)
| oreach_document o file_path parsed t_start t_end :
    reachable_orchestrator dense sparse o ->
    reachable_orchestrator dense sparse
      (Orchestrator.process_document o file_path parsed t_start t_end).1
| oreach_query o query now tick t_start t_end :
    reachable_orchestrator dense sparse o ->
    reachable_orchestrator dense sparse
      (Orchestrator.process_query dense sparse o query now tick t_start t_end).1
| oreach_reset o :
    reachable_orchestrator dense sparse o ->
    reachable_orchestrator dense sparse (Orchestrator.reset_system o)
| oreach_shutdown o :
    reachable_orchestrator dense sparse o ->
    reachable_orchestrator dense sparse (Orchestrator.shutdown o).

End ReportVocabulary.

Section RuleReportVocabulary.
Import Validation.

(** The warning that a violated rule adds, by its id. *)
Definition rule_warning (rule : PolicyRule) : list string :=
  if String.eqb (rule_id rule) "waiting_period"
  then ["Policy may not have met minimum waiting period"]
  else if String.eqb (rule_id rule) "excluded_procedures"
  then ["Procedure may be excluded from coverage"]
  else [].

(** The condition kinds that [_check_condition] knows. *)
Definition known_condition_kinds : list string :=
  ["min_age"; "max_age"; "gender"; "waiting_period_days";
   "covered_procedures"; "excluded_procedures"; "covered_locations";
   "max_claim_amount"; "requires_pre_authorization"].

Definition unknown_kind (condition_type : string) : bool :=
  forallb (fun k => negb (String.eqb condition_type k)) known_condition_kinds.

(** A custom rule with one condition of a kind the code does not know. *)
Definition bmi_rule : PolicyRule :=
  {| rule_id := "bmi_limit"; name := "Body Mass Index";
     conditions := [("max_bmi", CInt 30)];
     action := "check_bmi"; priority := 4 |}.

End RuleReportVocabulary.

Section MappingVocabulary.
Import Schemas Mapping.

(** The relation types that [_analyze_clause_relationship] gives. *)
Definition relation_types : list string :=
  ["supports"; "contradicts"; "validates"; "references"].

(** The links of the stored traces, trace by trace. *)
Definition links_of_traces (agent : MappingAgent) : list TraceabilityLink :=
  concat (map source_links (PyList.ovalues (decision_traces agent))).

(** The audit entry that [create_decision_trace] logs. *)
Definition trace_created_entry (now trace_id decision_id : nat)
    (decision_result : Decision.DecisionResult) (clauses : list SourceClause)
  : AuditEntry :=
  {| ae_timestamp := now; ae_event_type := "decision_trace_created";
     ae_trace_id := trace_id; ae_decision_id := decision_id;
     ae_decision := Decision.decision decision_result;
     ae_source_clauses_count := length clauses |}.

(** The links of the store are the links of the traces, and the audit log
    has one entry for each trace, up to its bound. *)
Definition stores_agree (agent : MappingAgent) : Prop :=
  PyList.ovalues (traceability_links agent) = links_of_traces agent
  /\ Z.of_nat (length (audit_log agent))
     = Z.min 10000 (Z.of_nat (length (decision_traces agent))).

End MappingVocabulary.

Section RetrievalVocabulary.
Import Schemas Retrieval.

(** The stores of the retrieval agent: the empty store and what
    [add_document] makes of it. *)
Inductive reachable_store : VectorStore -> Prop :=
| sreach_empty : reachable_store empty_store
| sreach_add store chunk :
    reachable_store store -> reachable_store (add_document store chunk).1.

(** Every chunk of the store is kept under its own id, and no id twice. *)
Definition store_ok (store : VectorStore) : Prop :=
  NoDup (map fst (documents store))
  /\ Forall (fun p => p.1 = chunk_id p.2) (documents store).

(** A clause of the evidence is the rendering of a stored chunk. *)
Definition clause_of_store (store : VectorStore) (c : SourceClause) : Prop :=
  exists chunk,
    PyList.oget String.eqb (clause_id c) (documents store) = Some chunk
    /\ clause_id c = chunk_id chunk
    /\ clause_text c = content chunk
    /\ document_name c = document_source chunk
    /\ page_number c = Some (Schemas.paragraph_index (metadata chunk)).

(** [words.count(w)] *)
Definition count_word (w : string) (words : list string) : nat :=
  length (List.filter (fun x => String.eqb x w) words).

End RetrievalVocabulary.

Section ChunkVocabulary.
Import Schemas.

(** The metadata of a chunk agree with its content, and the chunk names
    its document. *)
Definition chunk_consistent (source : string) (c : DocumentChunk) : Prop :=
  document_source c = source
  /\ character_count (metadata c) = String.length (content c)
  /\ word_count (metadata c) = length (PyStr.split (content c)).

(** The chunk is no longer than [max_chunk_size]. *)
Definition within_max (cfg : Chunker.ChunkingConfig) (c : DocumentChunk)
  : Prop :=
  (Chunker.len (content c) <= Chunker.max_chunk_size cfg)%Z.

(** The paragraph is short enough to be one chunk, or none of its
    sentences is longer than [max_chunk_size]. *)
Definition sentences_fit (cfg : Chunker.ChunkingConfig) (paragraph : string)
  : Prop :=
  (Chunker.len paragraph <= Chunker.max_chunk_size cfg)%Z
  \/ Forall (fun s => (Chunker.len s <= Chunker.max_chunk_size cfg)%Z)
            (Chunker._extract_sentences cfg paragraph).

(** The keys that [_build_structured_query] reads. *)
Definition structured_keys : list string :=
  ["age"; "gender"; "procedure"; "location"; "policy_duration"].

End ChunkVocabulary.

Section OrchestratorVocabulary.
Import Orchestrator.

(** The four outcomes of a decision. *)
Definition outcomes : list string :=
  ["approved"; "rejected"; "requires_review"; "pending"].

(** What holds of every state of the orchestrator: its agents are in
    states of their own that their calls reach, the validation agent has
    the default rules, the chunker has the default configuration, and the
    counters of queries and decisions agree and do not exceed the number
    of traces. *)
Definition orchestrator_ok (o : AgentOrchestrator) : Prop :=
  reachable (mapping_agent o)
  /\ reachable_decision_agent (decision_agent o)
  /\ reachable_store (vector_store o)
  /\ validation_agent o = Validation.new_agent
  /\ chunking_config o = Chunker.default_config
  /\ queries_processed (processing_stats o)
     = decisions_made (processing_stats o)
  /\ decisions_made (processing_stats o)
     <= length (Mapping.decision_traces (mapping_agent o)).

(** A parsed policy text, the orchestrator that has processed it, and a
    query about a treatment. *)
Definition policy_document : ParsedDocument :=
  {| pd_content :=
       "Knee surgery is covered in Pune. The treatment is eligible for benefits.";
     pd_success := true |}.

Definition one_document_orchestrator : AgentOrchestrator :=
  (process_document (new_orchestrator Config.default_settings) "policy.pdf"
     policy_document 0 1).1.

Definition treatment_query : string :=
  "46 year old male needs treatment, is it covered".

(** Similarities that are 1 everywhere. *)
Definition ones (query content : string) : Q := 1%Q.

End OrchestratorVocabulary.

Section SettingsVocabulary.

(** The condition kinds of all rules of an agent, rule by rule. *)
Definition condition_kinds (agent : Validation.ValidationAgent) : list string :=
  concat (map (fun rule => map fst (Validation.conditions rule))
              (Validation.rules agent)).

(** The four checks of [validate_configuration] on the settings. *)
Definition settings_ok (settings : Config.Settings) : Prop :=
  (Config.dense_weight settings + Config.sparse_weight settings == 1)%Q
  /\ (Config.min_chunk_size settings < Config.max_chunk_size settings)%Z
  /\ (0 <= Config.similarity_threshold settings <= 1)%Q
  /\ (Config.default_age_min settings < Config.default_age_max settings)%Z.

End SettingsVocabulary.

(** * Properties *)

(** ** The decision boundary *)

Section DecisionBoundary.
Import Schemas.

Lemma make_decision_ok agent now entities clauses vr qt r :
  Decision.evaluate_coverage_decision (mk_context entities clauses vr qt) = Py.Ok r ->
  (Decision.make_decision agent now entities clauses vr qt).2 = r.
Proof.
  intros H. unfold Decision.make_decision. fold (mk_context entities clauses vr qt).
  by rewrite H.
Qed.

Lemma make_decision_raise agent now entities clauses vr qt msg :
  Decision.evaluate_coverage_decision (mk_context entities clauses vr qt) = Py.Raise msg ->
  Decision.make_decision agent now entities clauses vr qt
  = (agent, Decision.error_result msg).
Proof.
  intros H. unfold Decision.make_decision. fold (mk_context entities clauses vr qt).
  by rewrite H.
Qed.

End DecisionBoundary.

(** C1. [make_decision] is total: whatever the entities, clauses, validation
    result and query type, it returns a [DecisionResult]. When the rules
    engine returns, that result is handed on; when it raises, the result is
    the rejection with confidence 0, no amount, and a justification that
    carries the text of the error, and the history of the agent is left as
    it was. *)
Theorem C1_make_decision_never_raises :
  forall agent now entities clauses vr qt,
    match Decision.evaluate_coverage_decision (mk_context entities clauses vr qt) with
    | Py.Ok r => (Decision.make_decision agent now entities clauses vr qt).2 = r
    | Py.Raise msg =>
        let '(agent', r) := Decision.make_decision agent now entities clauses vr qt in
        agent' = agent
        /\ Decision.decision r = "rejected"
        /\ (Decision.confidence_score r == 0)%Q
        /\ Decision.amount r = None
        /\ Decision.justification r = "Error in decision processing: " +:+ msg
    end.
Proof.
  intros agent now entities clauses vr qt.
  destruct (Decision.evaluate_coverage_decision _) as [r|msg] eqn:E.
  - by apply make_decision_ok.
  - rewrite (make_decision_raise _ _ _ _ _ _ _ E). simpl. repeat split; reflexivity.
Qed.

(** The error branch is taken by inputs that the parser produces: an age with
    two matches is a list, and [int] fails on its rendering. *)
Example make_decision_error_branch :
  let entities : gmap string Py.value :=
    <["age" := Py.VList ["46"; "50"]]> ∅ in
  let vr := Validation.validate_claim Validation.new_agent entities [] in
  (exists msg,
      Decision.evaluate_coverage_decision (mk_context entities [] vr "general")
      = Py.Raise msg)
  /\ Decision.decision
       (Decision.make_decision Decision.new_agent "t" entities [] vr "general").2
     = "rejected".
Proof. vm_compute. split; [eexists|]; reflexivity. Qed.

(** ** The amount of a decision *)

Lemma decide_branch_cases vr f :
  (Decision.decide_branch vr f).1 = "approved"
  /\ Validation.is_valid vr = true /\ Decision.supports f = true
  \/ (Decision.decide_branch vr f).1 <> "approved"
     /\ (Validation.is_valid vr && Decision.supports f) = false.
Proof.
  unfold Decision.decide_branch.
  destruct (Validation.is_valid vr), (Decision.supports f); simpl;
    try (left; done);
    right; split; try done;
    repeat (match goal with |- context [if ?b then _ else _] => destruct b end);
    simpl; discriminate.
Qed.

(** What [evaluate_coverage_decision] returns when it returns. *)
Lemma evaluate_coverage_decision_ok ctx r :
  Decision.evaluate_coverage_decision ctx = Py.Ok r ->
  let branch :=
    Decision.decide_branch (Decision.validation_result ctx)
      (Decision._evaluate_clause_support (Decision.source_clauses ctx)
                                         (Decision.entities ctx)) in
  Decision.decision r = branch.1
  /\ (if String.eqb branch.1 "approved"
      then Decision._calculate_coverage_amount ctx
      else Py.Ok None) = Py.Ok (Decision.amount r).
Proof.
  unfold Decision.evaluate_coverage_decision. intros H.
  destruct (Decision._assess_risk ctx) as [risk|msg]; simpl in H; [|discriminate].
  destruct (Decision.decide_branch _ _) as [d m] eqn:Eb. simpl.
  destruct (if String.eqb d "approved" then _ else _) as [a|msg] eqn:Ea;
    simpl in H; [|discriminate].
  injection H as <-. simpl. split; reflexivity.
Qed.

Lemma calculate_coverage_amount_some ctx a :
  Decision._calculate_coverage_amount ctx = Py.Ok a ->
  is_Some a <-> is_Some (Decision.entities ctx !! "procedure").
Proof.
  unfold Decision._calculate_coverage_amount.
  destruct (Decision.entities ctx !! "procedure") as [p|].
  - intros H. split; intros _; [by eexists|].
    destruct (match Decision.entities ctx !! "age" with Some _ => _ | None => _ end)
      as [b|msg]; simpl in H; [|discriminate].
    injection H as <-. by eexists.
  - intros [= <-]. split; intros [? ?]; discriminate.
Qed.

(** C2 (as amended). A decision carries an amount exactly when it is
    "approved" and the entities have a "procedure" key: a decision that is
    not approved never carries an amount, and an approved decision whose
    entities name no procedure carries none either. *)
Theorem C2_amount_iff_approved_with_procedure :
  forall agent now entities clauses vr qt,
    let r := (Decision.make_decision agent now entities clauses vr qt).2 in
    is_Some (Decision.amount r)
    <-> Decision.decision r = "approved" /\ is_Some (entities !! "procedure").
Proof.
  intros agent now entities clauses vr qt r. subst r.
  destruct (Decision.evaluate_coverage_decision (mk_context entities clauses vr qt))
    as [r|msg] eqn:E.
  - rewrite (make_decision_ok _ _ _ _ _ _ _ E).
    destruct (evaluate_coverage_decision_ok _ _ E) as [Hd Ha]. simpl in Hd, Ha.
    rewrite Hd.
    destruct (decide_branch_cases vr
                (Decision._evaluate_clause_support clauses entities))
      as [(Hb & _ & _)|(Hb & _)].
    + rewrite Hb in Ha |- *. simpl in Ha.
      apply calculate_coverage_amount_some in Ha. simpl in Ha.
      rewrite Ha. tauto.
    + destruct (String.eqb _ "approved") eqn:Eq.
      { apply String.eqb_eq in Eq. contradiction. }
      injection Ha as <-. split; [intros [? ?]; discriminate|tauto].
  - rewrite (make_decision_raise _ _ _ _ _ _ _ E). simpl.
    split; [intros [? ?]; discriminate|intros [? _]; discriminate].
Qed.

(** C2, the claim as stated fails: the query "46 year old male, Pune
    hospital claim" names no procedure; its entities are valid under the
    default rules, the clause that mentions "male" supports coverage, the
    decision is "approved", and it carries no amount. *)
Lemma C2_approved_without_amount :
  let entities :=
    QueryParser.entities
      (QueryParser.parse_query "46 year old male, Pune hospital claim") in
  let clauses :=
    [ {| Schemas.document_name := "policy.pdf";
         Schemas.clause_id := "policy.pdf_p0_c0";
         Schemas.clause_text := "Male patients in Pune are covered.";
         Schemas.relevance_score := (7 # 10)%Q;
         Schemas.page_number := Some 0%nat |} ] in
  let vr := Validation.validate_claim Validation.new_agent entities clauses in
  let r :=
    (Decision.make_decision Decision.new_agent "t" entities clauses vr
                            "general").2 in
  entities !! "procedure" = None
  /\ Decision.decision r = "approved" /\ Decision.amount r = None.
Proof. vm_compute. repeat split; reflexivity. Qed.

(** ** The chunker *)

(** C5, the code at a failing input: with the default configuration
    ([max_chunk_size] 512), a text of 600 letters without sentence
    punctuation comes back as one chunk of 600 characters. *)
Theorem C5_chunk_longer_than_max_chunk_size :
  Chunker.max_chunk_size Chunker.default_config = 512%Z
  /\ map (fun c => Chunker.len (Schemas.content c))
         (Chunker.create_chunks Chunker.default_config
            (PyStr.replicate_char 600 "a") "doc")
     = [600%Z].
Proof. vm_compute. split; reflexivity. Qed.

Lemma length_append (s1 s2 : string) :
  String.length (s1 +:+ s2) = String.length s1 + String.length s2.
Proof. induction s1 as [|c s1 IH]; simpl; [done|by rewrite IH]. Qed.

Lemma Forall_removelast {A : Type} (P : A -> Prop) (l : list A) :
  Forall P l -> Forall P (removelast l).
Proof.
  induction 1 as [|x l Hx Hl IH]; simpl; [constructor|].
  destruct l; [constructor|by constructor].
Qed.

(** The merge pass keeps the bound: from chunks of at most
    [max_chunk_size] characters it makes chunks of at most [max_chunk_size]
    characters: a chunk that is too long is so when it leaves
    [_chunk_paragraph]. *)
Lemma optimize_chunks_keeps_max cfg chunks :
  Forall (fun c => (Chunker.len (Schemas.content c)
                    <= Chunker.max_chunk_size cfg)%Z) chunks ->
  Forall (fun c => (Chunker.len (Schemas.content c)
                    <= Chunker.max_chunk_size cfg)%Z)
         (Chunker._optimize_chunks cfg chunks).
Proof.
  unfold Chunker._optimize_chunks.
  assert (Forall (fun c => (Chunker.len (Schemas.content c)
                            <= Chunker.max_chunk_size cfg)%Z) []) as Hacc
    by constructor.
  revert Hacc. generalize (@nil Schemas.DocumentChunk) as acc.
  induction chunks as [|c chunks IH]; intros acc Hacc Hc; [done|].
  apply Forall_cons in Hc as [Hc Hcs]. simpl. apply IH; [|done].
  unfold Chunker.optimize_step.
  assert (Forall (fun c => (Chunker.len (Schemas.content c)
                            <= Chunker.max_chunk_size cfg)%Z) (acc ++ [c]))
    as Happ by (apply Forall_app; split; [done|by constructor]).
  destruct (Chunker.len (Schemas.content c) <? Chunker.min_chunk_size cfg)%Z;
    [|done].
  destruct (last acc) as [prev|]; [|done].
  destruct (_ <? Chunker.max_chunk_size cfg)%Z eqn:E; [|done].
  apply Z.ltb_lt in E. apply Forall_app. split.
  - by apply Forall_removelast.
  - constructor; [|constructor]. simpl. unfold Chunker.len in *.
    rewrite !length_append. simpl. lia.
Qed.

(** The sentences that [_extract_sentences] keeps when it splits at
    sentence endings are longer than 10 characters. *)
Lemma extract_sentences_longer_than_10 cfg text :
  Chunker.preserve_sentences cfg = true ->
  Forall (fun s => (10 < Chunker.len s)%Z) (Chunker._extract_sentences cfg text).
Proof.
  unfold Chunker._extract_sentences. intros ->. simpl.
  apply Forall_forall. intros s.
  rewrite list_elem_of_filter.
  intros [H _]. apply andb_prop in H as [_ H]. by apply Z.ltb_lt.
Qed.

(** C10. Chunking loses text. The sentences kept for chunk assembly are all
    longer than 10 characters; and on [four_sentences] with [small_config]
    the chunks are the first and the third sentence: the short sentence
    "Hi there" and the trailing sentence "Bye now friend", both present in
    the input, are in no chunk. *)
Theorem C10_chunking_drops_text :
  (forall max_size min_size overlap paragraphs text,
      Forall (fun s => (10 < Chunker.len s)%Z)
             (Chunker._extract_sentences
                (sentence_config max_size min_size overlap paragraphs) text))
  /\ (let chunks := Chunker.create_chunks small_config four_sentences "doc" in
      map Schemas.content chunks
      = ["The policy covers knee surgery"; "Claims need approval first"]
      /\ PyStr.contains "Hi there" four_sentences = true
      /\ PyStr.contains "Bye now friend" four_sentences = true
      /\ Forall (fun c =>
                   PyStr.contains "Hi there" (Schemas.content c) = false
                   /\ PyStr.contains "Bye now friend" (Schemas.content c) = false)
                chunks).
Proof.
  split.
  - intros. by apply extract_sentences_longer_than_10.
  - vm_compute. repeat split; try reflexivity.
    repeat constructor.
Qed.

(** ** The retrieval configuration *)

Section ConfigurationChecks.
Local Open Scope Q_scope.

Lemma validate_configuration_weights dir_issues settings :
  In Config.weights_issue (Config.validate_configuration dir_issues settings)
  <-> In Config.weights_issue dir_issues
      \/ ~ Config.dense_weight settings + Config.sparse_weight settings == 1.
Proof.
  unfold Config.validate_configuration, Config.weights_issue.
  rewrite !in_app_iff.
  assert (Qeq_bool (Config.dense_weight settings + Config.sparse_weight settings) 1
          = true
          <-> Config.dense_weight settings + Config.sparse_weight settings == 1)
    as Hq by apply Qeq_bool_iff.
  destruct (Qeq_bool _ 1);
    destruct (Config.max_chunk_size settings <=? Config.min_chunk_size settings)%Z;
    destruct (negb _ || negb _);
    destruct (Config.default_age_max settings <=? Config.default_age_min settings)%Z;
    simpl; split; intros H;
    repeat (match goal with
            | H : _ \/ _ |- _ => destruct H as [H|H]
            | H : False |- _ => destruct H
            | H : _ = _ :> string |- _ => discriminate H
            end);
    try (left; assumption);
    try (right; intros Hs; apply Hq in Hs; discriminate Hs);
    try (exfalso; apply H, Hq; reflexivity);
    try (right; left; left; reflexivity).
Qed.

End ConfigurationChecks.

(** C6 (as amended). The sum of the weights is checked by
    [validate_configuration], not by the construction of a configuration:
    when the weights of the settings do not sum to 1.0 the issue "Dense
    weight + Sparse weight must equal 1.0" is reported and [main.py] exits
    with status 1; when they do, the check adds no such issue; and the
    [RetrievalConfig] of the orchestrator is constructed from the weights
    of the settings, whatever they are. *)
Theorem C6_weights_checked_by_validate_configuration :
  forall dir_issues settings,
    let sum_is_one :=
      (Config.dense_weight settings + Config.sparse_weight settings == 1)%Q in
    (In Config.weights_issue (Config.validate_configuration dir_issues settings)
     <-> In Config.weights_issue dir_issues \/ ~ sum_is_one)
    /\ (sum_is_one \/ Config.main_startup dir_issues settings = Some 1%Z)
    /\ (exists config,
          Config.orchestrator_retrieval_config settings = Py.Ok config
          /\ Retrieval.dense_weight config = Config.dense_weight settings
          /\ Retrieval.sparse_weight config = Config.sparse_weight settings).
Proof.
  intros dir_issues settings sum_is_one. subst sum_is_one.
  split; [apply validate_configuration_weights|]. split.
  - destruct (Qeq_dec (Config.dense_weight settings + Config.sparse_weight settings) 1)
      as [Hs|Hs]; [by left|right].
    assert (In Config.weights_issue
              (Config.validate_configuration dir_issues settings)) as Hin
      by (apply validate_configuration_weights; by right).
    unfold Config.main_startup.
    destruct (Config.validate_configuration dir_issues settings);
      [destruct Hin|reflexivity].
  - eexists. split; [reflexivity|]. split; reflexivity.
Qed.

(** C6, the claim as stated fails: a configuration whose weights are 0.9
    and 0.9 is constructed without an error, and a similarity search runs
    with it and returns a score of 1.8. *)
Lemma C6_unchecked_weights_are_used :
  exists config,
    Retrieval.RetrievalConfig_init (9 # 10) (9 # 10) 10 (6 # 10) false
    = Py.Ok config
    /\ ~ (Retrieval.dense_weight config + Retrieval.sparse_weight config == 1)%Q
    /\ Retrieval.similarity_search (fun _ _ => 1%Q) (fun _ _ => 1%Q)
         one_chunk_store "knee surgery" config
       = [("policy.pdf_p0_c0", (9 # 10) * 1 + (9 # 10) * 1)%Q].
Proof.
  eexists. split; [reflexivity|]. split.
  - vm_compute. discriminate.
  - reflexivity.
Qed.

(** ** The entity extractor *)

Lemma extract_entities_fold (query : string) (field : string)
    (ps : list (string * (Re.regex * nat))) (acc : gmap string Py.value) :
  NoDup (map fst ps) ->
  foldl (fun entities '(entity_type, pattern) =>
           match QueryParser.entity_value
                   (QueryParser.match_values pattern query) with
           | Some v => <[entity_type := v]> entities
           | None => entities
           end) acc ps !! field
  = match List.find (fun p => String.eqb (fst p) field) ps with
    | Some p =>
        match QueryParser.entity_value (QueryParser.match_values (snd p) query) with
        | Some v => Some v
        | None => acc !! field
        end
    | None => acc !! field
    end.
Proof.
  revert acc. induction ps as [|[k pat] ps IH]; intros acc Hnd; [reflexivity|].
  cbn [map fst] in Hnd. apply NoDup_cons in Hnd as [Hk Hnd].
  cbn [foldl List.find fst snd].
  rewrite (IH _ Hnd).
  destruct (String.eqb k field) eqn:E.
  - apply String.eqb_eq in E. subst k.
    assert (List.find (fun p => String.eqb (fst p) field) ps = None) as ->.
    { destruct (List.find _ ps) as [p|] eqn:F; [|done]. exfalso.
      apply find_some in F as [Hin Heq]. apply String.eqb_eq in Heq.
      apply Hk. rewrite list_elem_of_In, in_map_iff. by exists p. }
    destruct (QueryParser.entity_value _); [by rewrite lookup_insert_eq|done].
  - apply String.eqb_neq in E.
    destruct (QueryParser.entity_value (QueryParser.match_values pat query));
      [|done].
    rewrite lookup_insert_ne by done. reflexivity.
Qed.

(** C7 (as amended). For every query and every field name, the value that
    [parse_query] stores is decided by the list of the matches of the
    field's pattern: no match, or no pattern of that name, leaves the field
    absent; exactly one match is stored as that string; two or more matches
    are stored as the list of all of them, in order of occurrence. *)
Theorem C7_entity_value_of_matches :
  forall query field,
    QueryParser.entities (QueryParser.parse_query query) !! field
    = match pattern_of field with
      | None => None
      | Some pattern =>
          match QueryParser.match_values pattern query with
          | [] => None
          | [v] => Some (Py.VStr v)
          | values => Some (Py.VList values)
          end
      end.
Proof.
  intros query field. simpl. unfold QueryParser.extract_entities.
  rewrite extract_entities_fold.
  - unfold pattern_of. destruct (List.find _ _) as [p|]; simpl; [|done].
    unfold QueryParser.entity_value.
    destruct (QueryParser.match_values _ _) as [|v [|w l]]; done.
  - cbn [map fst QueryParser.entity_patterns].
    apply (bool_decide_unpack _). vm_compute. exact I.
Qed.

(** C7, the claim as stated fails: "knee surgery" has two matches of the
    procedure pattern, and the field holds the list of both. *)
Lemma C7_two_matches_give_a_list :
  QueryParser.entities (QueryParser.parse_query "knee surgery") !! "procedure"
  = Some (Py.VList ["knee"; "surgery"]).
Proof. vm_compute. reflexivity. Qed.

(** ** Stable sorting *)

Section Sorting.
Context {A : Type} (gt : A -> A -> bool).

Lemma insert_desc_perm x l : PyList.insert_desc gt x l ≡ₚ x :: l.
Proof.
  induction l as [|y l IH]; simpl; [done|].
  destruct (gt y x); [|done].
  rewrite IH. apply Permutation_swap.
Qed.

Lemma sort_desc_perm l : PyList.sort_desc gt l ≡ₚ l.
Proof.
  induction l as [|x l IH]; simpl; [done|].
  unfold PyList.sort_desc in *. simpl.
  by rewrite insert_desc_perm, IH.
Qed.

Lemma sort_desc_In x l : In x (PyList.sort_desc gt l) <-> In x l.
Proof.
  rewrite <- !list_elem_of_In. by rewrite sort_desc_perm.
Qed.

Lemma sort_desc_length l : length (PyList.sort_desc gt l) = length l.
Proof. by rewrite sort_desc_perm. Qed.

Lemma sort_desc_Forall (P : A -> Prop) l :
  Forall P l -> Forall P (PyList.sort_desc gt l).
Proof. intros H. by rewrite sort_desc_perm. Qed.

End Sorting.

(** ** The rule validator *)

Section RuleValidator.
Import Validation.

Lemma rule_step_violated entities st rule :
  ls_violated (rule_step entities st rule)
  = ls_violated st ++ (if rule_violated rule entities then [name rule] else []).
Proof.
  unfold rule_step, rule_violated.
  destruct (evaluate rule entities) as [[] ?]; simpl; [by rewrite app_nil_r|done].
Qed.

Lemma fold_rule_step_violated entities rules st :
  ls_violated (foldl (rule_step entities) st rules)
  = ls_violated st
    ++ map name (List.filter (fun r => rule_violated r entities) rules).
Proof.
  revert st. induction rules as [|r rules IH]; intros st; simpl.
  - by rewrite app_nil_r.
  - rewrite IH, rule_step_violated.
    destruct (rule_violated r entities); simpl; by rewrite <- app_assoc.
Qed.

(** The names in [violated_rules] are those of the violated rules. *)
Lemma validate_claim_violated agent entities clauses n :
  In n (violated_rules (validate_claim agent entities clauses))
  <-> exists r, In r (rules agent) /\ rule_violated r entities = true /\ name r = n.
Proof.
  unfold validate_claim. cbn [violated_rules].
  rewrite fold_rule_step_violated. cbn [ls_violated app].
  rewrite in_map_iff. split.
  - intros (r & Hn & Hr). apply filter_In in Hr as [Hr Hv].
    unfold PyList.sort_asc in Hr. apply sort_desc_In in Hr. by exists r.
  - intros (r & Hr & Hv & Hn). exists r. split; [done|].
    apply filter_In. split; [|done].
    unfold PyList.sort_asc. by apply sort_desc_In.
Qed.

Lemma rule_named_In rules n r :
  rule_named rules n = Some r -> In r rules /\ name r = n.
Proof.
  unfold rule_named. intros H. apply find_some in H as [H1 H2].
  by apply String.eqb_eq in H2.
Qed.

(** When the names of the rules are pairwise distinct, the lookup by name
    finds the rule itself. *)
Lemma rule_named_unique rules r :
  NoDup (map name rules) -> In r rules -> rule_named rules (name r) = Some r.
Proof.
  unfold rule_named. induction rules as [|r' rules IH]; intros Hnd Hin; [done|].
  cbn [map] in Hnd. apply NoDup_cons in Hnd as [Hr' Hnd]. simpl.
  destruct (String.eqb (name r') (name r)) eqn:E.
  - apply String.eqb_eq in E. destruct Hin as [->|Hin]; [done|].
    exfalso. apply Hr'. rewrite E, list_elem_of_In. by apply in_map.
  - destruct Hin as [->|Hin]; [by rewrite String.eqb_refl in E|by apply IH].
Qed.

Lemma is_valid_false agent entities clauses :
  is_valid (validate_claim agent entities clauses) = false
  <-> exists n,
        In n (violated_rules (validate_claim agent entities clauses))
        /\ is_critical_name (rules agent) n = true.
Proof.
  unfold validate_claim. cbn [is_valid violated_rules].
  set (violated := ls_violated _).
  unfold critical_violations. split.
  - intros H. apply Nat.eqb_neq in H.
    destruct (filter _ violated) as [|n l] eqn:E; [done|].
    assert (n ∈ filter (fun rule_name => is_critical_name (rules agent) rule_name = true)
                  violated) as Hn by (rewrite E; left).
    apply list_elem_of_filter in Hn as [Hc Hn]. exists n.
    by rewrite <- list_elem_of_In.
  - intros (n & Hn & Hc). apply Nat.eqb_neq.
    assert (n ∈ filter (fun rule_name => is_critical_name (rules agent) rule_name = true)
                  violated) as Hin.
    { apply list_elem_of_filter. by rewrite list_elem_of_In. }
    destruct (filter _ violated); [by apply elem_of_nil in Hin|done].
Qed.

(** For rules with pairwise distinct names: the claim is invalid exactly
    when a violated rule has a critical id. *)
Lemma validate_claim_invalid_iff agent entities clauses :
  NoDup (map name (rules agent)) ->
  is_valid (validate_claim agent entities clauses) = false
  <-> exists r, In r (rules agent) /\ rule_violated r entities = true
                /\ is_critical_id (rule_id r) = true.
Proof.
  intros Hnd. rewrite is_valid_false. split.
  - intros (n & Hn & Hc). apply validate_claim_violated in Hn as (r & Hr & Hv & <-).
    exists r. unfold is_critical_name in Hc.
    by rewrite (rule_named_unique _ _ Hnd Hr) in Hc.
  - intros (r & Hr & Hv & Hc). exists (name r). split.
    + apply validate_claim_violated. by exists r.
    + unfold is_critical_name. by rewrite (rule_named_unique _ _ Hnd Hr).
Qed.

Lemma default_rules_names_distinct : NoDup (map name (rules new_agent)).
Proof. apply (bool_decide_unpack _). vm_compute. exact I. Qed.

End RuleValidator.

(** With the rules the agent is created with, whose names are pairwise
    distinct, the agent answers [is_valid = False] exactly when some
    violated rule has its id in the critical set (excluded_procedures,
    age_limit); and the names listed in [violated_rules] are exactly those
    of the violated rules, critical or not. *)
Lemma default_rules_invalid_iff :
  forall entities clauses,
    let vr := Validation.validate_claim Validation.new_agent entities clauses in
    (Validation.is_valid vr = false
     <-> exists r, In r Validation.default_rules
                   /\ rule_violated r entities = true
                   /\ Validation.is_critical_id (Validation.rule_id r) = true)
    /\ (forall n,
          In n (Validation.violated_rules vr)
          <-> exists r, In r Validation.default_rules
                        /\ rule_violated r entities = true
                        /\ Validation.name r = n).
Proof.
  intros entities clauses vr. subst vr. split.
  - apply validate_claim_invalid_iff, default_rules_names_distinct.
  - intros n. apply validate_claim_violated.
Qed.

(** C3. [validate_claim] looks for "the actual rule object" of a violated
    rule by its name and takes the first rule of that name, so an agent
    with a custom rule that shares the name of a default rule misjudges a
    claim for a dental procedure at the age of 46, both ways. With a
    custom rule senior_plan named "Age Eligibility" (minimum age 60) the
    only violated rule is the custom one, whose id is not critical, and
    the answer is [is_valid = False]. With a custom rule of the critical
    id excluded_procedures named "Procedure Coverage" (it excludes dental)
    that rule is violated, and the answer is [is_valid = True]. *)
Theorem C3_name_clash_misjudges_validity :
  let entities : gmap string Py.value :=
    <["age" := Py.VStr "46"]> (<["procedure" := Py.VStr "dental"]>
    (<["location" := Py.VStr "Pune"]>
    (<["policy_duration" := Py.VStr "4 months"]> ∅))) in
  let senior :=
    (Validation.add_custom_rule Validation.new_agent "senior_plan"
       "Age Eligibility" (Some [("min_age", Validation.CInt 60)])
       "check_senior" 5).1 in
  let strict :=
    (Validation.add_custom_rule Validation.new_agent "excluded_procedures"
       "Procedure Coverage"
       (Some [("excluded_procedures", Validation.CList ["dental"])])
       "reject_dental" 5).1 in
  (Validation.violated_rules (Validation.validate_claim senior entities [])
   = ["Age Eligibility"]
   /\ Validation.is_valid (Validation.validate_claim senior entities [])
      = false
   /\ ~ exists r, In r (Validation.rules senior)
                  /\ rule_violated r entities = true
                  /\ Validation.is_critical_id (Validation.rule_id r) = true)
  /\ (Validation.violated_rules (Validation.validate_claim strict entities [])
      = ["Procedure Coverage"]
      /\ Validation.is_valid (Validation.validate_claim strict entities [])
         = true
      /\ exists r, In r (Validation.rules strict)
                   /\ rule_violated r entities = true
                   /\ Validation.is_critical_id (Validation.rule_id r) = true).
Proof.
  intros entities senior strict. split; (split; [|split]).
  - vm_compute. reflexivity.
  - vm_compute. reflexivity.
  - intros (r & Hr & Hv & Hc).
    assert (forallb (fun r => implb (rule_violated r entities)
                                    (negb (Validation.is_critical_id
                                             (Validation.rule_id r))))
                    (Validation.rules senior) = true) as H
      by (vm_compute; reflexivity).
    rewrite forallb_forall in H. specialize (H r Hr).
    rewrite Hv, Hc in H. discriminate H.
  - vm_compute. reflexivity.
  - vm_compute. reflexivity.
  - assert (existsb (fun r => rule_violated r entities
                              && Validation.is_critical_id (Validation.rule_id r))
                    (Validation.rules strict) = true) as H
      by (vm_compute; reflexivity).
    apply existsb_exists in H as (r & Hr & H).
    apply andb_prop in H as [Hv Hc]. by exists r.
Qed.

(** A violated rule that is not critical leaves the claim valid: a knee
    surgery violates only the pre-authorization rule. *)
Example non_critical_violation_keeps_valid :
  let entities : gmap string Py.value :=
    <["age" := Py.VStr "46"]> (<["procedure" := Py.VStr "knee surgery"]>
    (<["location" := Py.VStr "Pune"]>
    (<["policy_duration" := Py.VStr "4 months"]> ∅))) in
  let vr := Validation.validate_claim Validation.new_agent entities [] in
  Validation.violated_rules vr = ["Pre-authorization Required"]
  /\ Validation.is_valid vr = true.
Proof. vm_compute. split; reflexivity. Qed.

(** ** A query without an age *)

Section MissingAge.
Import Validation.

Lemma filter_digits_of_numeric s :
  PyStr.filter_chars PyStr.isdigit
    (PyStr.filter_chars (fun c => PyStr.isdigit c || Ascii.eqb c ".") s)
  = PyStr.filter_chars PyStr.isdigit s.
Proof.
  induction s as [|c s IH]; [done|]. simpl.
  destruct (PyStr.isdigit c) eqn:D; simpl.
  - by rewrite D, IH.
  - destruct (Ascii.eqb c "."); simpl; [by rewrite D|done].
Qed.

Lemma parse_float_no_digits s :
  PyStr.filter_chars PyStr.isdigit s = EmptyString -> parse_float s = None.
Proof.
  unfold parse_float. intros ->. simpl. by rewrite andb_false_r.
Qed.

(** Without digits the numeric value is the default 0.0. *)
Lemma extract_numeric_value_no_digits v :
  no_digits v = true -> _extract_numeric_value v = 0%Q.
Proof.
  destruct v as [s|l|z]; [| |discriminate]; simpl; intros H;
    apply Nat.eqb_eq in H;
    match goal with
    | |- context [PyStr.filter_chars ?f ?t] =>
        match f with
        | PyStr.isdigit => fail 1
        | _ => pose proof (filter_digits_of_numeric t) as Hd;
               destruct (PyStr.filter_chars f t) as [|c r] eqn:E; [done|]
        end
    end;
    rewrite parse_float_no_digits; [done| |done|];
    rewrite Hd;
    match type of H with
    | String.length ?x = 0%nat => by destruct x
    end.
Qed.

Lemma numeric_age_is_zero entities :
  age_missing entities = true ->
  _extract_numeric_value (get entities "age" "0") = 0%Q.
Proof.
  unfold age_missing, get. destruct (entities !! "age") as [v|]; simpl.
  - apply extract_numeric_value_no_digits.
  - intros _. vm_compute. reflexivity.
Qed.

Lemma age_limit_rule_violated entities :
  age_missing entities = true -> rule_violated age_limit_rule entities = true.
Proof.
  intros H. unfold rule_violated, evaluate, age_limit_rule.
  cbn [name conditions check_all].
  assert (_check_condition "min_age" (CInt 18) entities = Py.Ok false) as ->.
  { unfold _check_condition. cbn [String.eqb Ascii.eqb Bool.eqb].
    rewrite (numeric_age_is_zero _ H). reflexivity. }
  reflexivity.
Qed.

Lemma invalid_when_age_missing entities clauses :
  age_missing entities = true ->
  is_valid (validate_claim new_agent entities clauses) = false
  /\ In "Age Eligibility"
        (violated_rules (validate_claim new_agent entities clauses)).
Proof.
  intros H. split.
  - apply validate_claim_invalid_iff; [apply default_rules_names_distinct|].
    exists age_limit_rule. split; [by left|]. split; [|reflexivity].
    by apply age_limit_rule_violated.
  - apply validate_claim_violated. exists age_limit_rule.
    split; [by left|]. split; [|reflexivity]. by apply age_limit_rule_violated.
Qed.

(** An invalid claim is never approved. *)
Lemma invalid_never_approved agent now entities clauses vr qt :
  is_valid vr = false ->
  Decision.decision (Decision.make_decision agent now entities clauses vr qt).2
  <> "approved".
Proof.
  intros Hv.
  destruct (Decision.evaluate_coverage_decision (mk_context entities clauses vr qt))
    as [r|msg] eqn:E.
  - rewrite (make_decision_ok _ _ _ _ _ _ _ E).
    destruct (evaluate_coverage_decision_ok _ _ E) as [Hd _]. simpl in Hd.
    rewrite Hd.
    destruct (decide_branch_cases vr
                (Decision._evaluate_clause_support clauses entities))
      as [(_ & Hb & _)|(Hb & _)]; [congruence|done].
  - rewrite (make_decision_raise _ _ _ _ _ _ _ E). simpl. discriminate.
Qed.

End MissingAge.

(** C9. When the entities have no "age" key, or an age whose text has no
    digit, the numeric age is 0, the rule "Age Eligibility" (age_limit,
    min_age 18) is violated, validation with the default rules answers
    [is_valid = False], and the decision made from that validation result is
    not "approved". *)
Theorem C9_missing_age_is_never_approved :
  forall agent now entities clauses qt,
    age_missing entities = true ->
    let vr := Validation.validate_claim Validation.new_agent entities clauses in
    (Validation._extract_numeric_value (Validation.get entities "age" "0") == 0)%Q
    /\ In "Age Eligibility" (Validation.violated_rules vr)
    /\ Validation.is_valid vr = false
    /\ Decision.decision
         (Decision.make_decision agent now entities clauses vr qt).2
       <> "approved".
Proof.
  intros agent now entities clauses qt H vr. subst vr.
  destruct (invalid_when_age_missing entities clauses H) as [Hv Hin].
  split; [by rewrite (numeric_age_is_zero _ H)|].
  split; [done|]. split; [done|].
  by apply invalid_never_approved.
Qed.

(** C9 at the entities of the query "knee surgery in Pune, is it covered":
    a procedure and no age. *)
Lemma C9_missing_age_witness :
  let entities : gmap string Py.value :=
    <["procedure" := Py.VList ["knee"; "surgery"]]> ∅ in
  let vr := Validation.validate_claim Validation.new_agent entities [] in
  age_missing entities = true
  /\ (Validation._extract_numeric_value (Validation.get entities "age" "0") == 0)%Q
  /\ In "Age Eligibility" (Validation.violated_rules vr)
  /\ Validation.is_valid vr = false
  /\ Decision.decision
       (Decision.make_decision Decision.new_agent "t" entities [] vr "general").2
     <> "approved".
Proof.
  split; [reflexivity|].
  apply (C9_missing_age_is_never_approved Decision.new_agent "t"
           (<["procedure" := Py.VList ["knee"; "surgery"]]> ∅) [] "general").
  reflexivity.
Defined.

(** ** The hybrid search *)

Section SortedByKey.
Local Open Scope Q_scope.
Context {A : Type} (key : A -> Q).

Lemma insert_desc_sorted x l :
  StronglySorted (key_geq key) l ->
  StronglySorted (key_geq key) (PyList.insert_desc (key_gt key) x l).
Proof.
  induction 1 as [|y l Hs IH Hy]; simpl.
  - repeat constructor.
  - unfold key_gt at 1. destruct (Qle_bool (key y) (key x)) eqn:E; simpl.
    + apply Qle_bool_iff in E. constructor; [by constructor|].
      constructor; [exact E|].
      eapply Forall_impl; [exact Hy|]. unfold key_geq. intros z Hz.
      by apply Qle_trans with (key y).
    + constructor; [exact IH|].
      rewrite (insert_desc_perm (key_gt key) x l). constructor; [|exact Hy].
      unfold key_geq. apply Qlt_le_weak, Qnot_le_lt. intros Hle.
      apply Qle_bool_iff in Hle. congruence.
Qed.

Lemma sort_desc_sorted l :
  StronglySorted (key_geq key) (PyList.sort_desc (key_gt key) l).
Proof.
  induction l as [|x l IH]; [constructor|].
  unfold PyList.sort_desc in *. simpl. by apply insert_desc_sorted.
Qed.

Lemma take_sorted n l :
  StronglySorted (key_geq key) l -> StronglySorted (key_geq key) (take n l).
Proof.
  intros Hs. revert n. induction Hs as [|x l Hs IH Hx]; intros [|n]; simpl;
    try constructor; [apply IH|by apply Forall_take].
Qed.

End SortedByKey.

Section HybridSearch.
Local Open Scope Q_scope.
Import Schemas Retrieval.

Variable dense_similarity : string -> string -> Q.
Variable sparse_similarity : string -> string -> Q.

Lemma slice_to_take {A : Type} (n : Z) (l : list A) :
  (0 <= n)%Z -> PyList.slice_to n l = take (Z.to_nat n) l.
Proof.
  intros H. unfold PyList.slice_to.
  destruct (0 <=? n)%Z eqn:E; [done|]. apply Z.leb_gt in E. lia.
Qed.

(** The pairs that [similarity_search] returns. *)
Lemma similarity_search_spec store query config :
  (0 <= max_results config)%Z ->
  let found :=
    similarity_search dense_similarity sparse_similarity store query config in
  Forall (fun p => similarity_threshold config <= snd p
                   /\ exists chunk,
                        snd p = hybrid_score dense_similarity sparse_similarity
                                  config query chunk) found
  /\ StronglySorted (key_geq snd) found
  /\ (Z.of_nat (length found) <= max_results config)%Z.
Proof.
  intros Hm found. subst found. unfold similarity_search.
  rewrite (slice_to_take _ _ Hm).
  split; [|split].
  - apply Forall_take. apply (sort_desc_Forall pair_gt).
    apply Forall_forall. intros [doc_id score] Hin.
    apply list_elem_of_omap in Hin as ([doc chunk] & _ & Hs).
    destruct (Qle_bool _ _) eqn:E; [|discriminate].
    injection Hs as <- <-. apply Qle_bool_iff in E. split; [exact E|by exists chunk].
  - apply take_sorted. apply (sort_desc_sorted snd).
  - rewrite length_take. lia.
Qed.

Lemma to_source_clauses_scores store pairs clauses :
  to_source_clauses store pairs = Some clauses ->
  map relevance_score clauses = map snd pairs.
Proof.
  unfold to_source_clauses. intros H. apply mapM_Some in H.
  induction H as [|[doc_id score] c pairs clauses Hc _ IH]; [done|].
  simpl. rewrite IH. f_equal.
  destruct (PyList.oget String.eqb doc_id (documents store)); [|discriminate].
  simpl in Hc. by injection Hc as <-.
Qed.

Lemma sorted_map_key {A : Type} (key : A -> Q) (l : list A) :
  StronglySorted (key_geq key) l
  <-> StronglySorted (fun a b : Q => b <= a) (map key l).
Proof.
  induction l as [|x l IH]; simpl; [split; constructor|].
  split; intros H; apply StronglySorted_inv in H as [Hs Hx];
    (constructor; [by apply IH|]).
  - apply (List.Forall_map key (fun b => b <= key x)). exact Hx.
  - apply (List.Forall_map key (fun b => b <= key x)) in Hx. exact Hx.
Qed.

Lemma entity_weight_nonneg entity_type : 0 <= entity_weight entity_type.
Proof.
  unfold entity_weight.
  repeat (match goal with |- context [if ?b then _ else _] => destruct b end);
    discriminate.
Qed.

Lemma bonus_score_nonneg entities clause_text :
  0 <= bonus_score entities clause_text.
Proof.
  unfold bonus_score.
  match goal with |- 0 <= foldl ?f 0 ?l => set (step := f) end.
  assert (forall l acc, 0 <= acc -> 0 <= foldl step acc l) as H.
  { induction l as [|[k v] l IH]; intros acc Hacc; [exact Hacc|].
    simpl. apply IH. unfold step.
    destruct v; try exact Hacc.
    destruct (PyStr.contains _ _); [|exact Hacc].
    assert (0 <= entity_weight k * (1 # 10)) as Hw
      by (apply Qmult_le_0_compat; [apply entity_weight_nonneg|discriminate]).
    pose proof (Qplus_le_compat _ _ _ _ Hacc Hw) as H.
    by rewrite Qplus_0_l in H. }
  apply H, Qle_refl.
Qed.

Lemma min_one_le x : PyNum.min_one x <= 1.
Proof.
  unfold PyNum.min_one. destruct (Qle_bool 1 x) eqn:E; [apply Qle_refl|].
  apply Qlt_le_weak, Qnot_le_lt. intros H. apply Qle_bool_iff in H. congruence.
Qed.

Lemma min_one_ge t x : t <= 1 -> t <= x -> t <= PyNum.min_one x.
Proof. unfold PyNum.min_one. by destruct (Qle_bool 1 x). Qed.

(** The re-ranked list: sorted, as long as the input, and every score is
    capped at 1 and not below a threshold (at most 1) that the scores met
    before. *)
Lemma rerank_results_spec results parsed_query t :
  t <= 1 ->
  Forall (fun c => t <= relevance_score c) results ->
  let ranked := _rerank_results results parsed_query in
  Forall (fun c => t <= relevance_score c <= 1) ranked
  /\ StronglySorted (key_geq relevance_score) ranked
  /\ length ranked = length results.
Proof.
  intros Ht Hr ranked. subst ranked. unfold _rerank_results.
  split; [|split].
  - apply (sort_desc_Forall score_gt).
    apply (List.Forall_map _ (fun c => t <= relevance_score c <= 1)).
    eapply Forall_impl; [exact Hr|]. intros c Hc. simpl. split.
    + apply min_one_ge; [done|].
      pose proof (bonus_score_nonneg (QueryParser.entities parsed_query)
                    (clause_text c)) as Hb.
      pose proof (Qplus_le_compat _ _ _ _ Hc Hb) as H.
      by rewrite Qplus_0_r in H.
    + apply min_one_le.
  - apply (sort_desc_sorted relevance_score).
  - by rewrite sort_desc_length, length_map.
Qed.

(** The evidence list of [retrieve_relevant_documents]. *)
Lemma retrieve_relevant_documents_spec config store query :
  0 <= similarity_threshold config <= 1 ->
  (0 <= max_results config)%Z ->
  let evidence :=
    retrieve_relevant_documents dense_similarity sparse_similarity
      config store query in
  Forall (fun c => 0 <= relevance_score c) evidence
  /\ (rerank_results config = false
      \/ Forall (fun c => relevance_score c <= 1) evidence)
  /\ StronglySorted (key_geq relevance_score) evidence
  /\ Forall (fun c => similarity_threshold config <= relevance_score c) evidence
  /\ (Z.of_nat (length evidence) <= max_results config)%Z.
Proof.
  intros [Ht0 Ht1] Hm evidence. subst evidence.
  unfold retrieve_relevant_documents.
  set (q := query +:+ " " +:+ _).
  destruct (similarity_search_spec store q config Hm) as (Hf & Hs & Hl).
  destruct (to_source_clauses store _) as [clauses|] eqn:E.
  2:{ split; [constructor|]. split; [right; constructor|].
      split; [constructor|]. split; [constructor|]. simpl. lia. }
  pose proof (to_source_clauses_scores _ _ _ E) as Hsc.
  assert (length clauses = length
            (similarity_search dense_similarity sparse_similarity store q config))
    as Hlen by (rewrite <- (length_map relevance_score), Hsc; apply length_map).
  assert (Forall (fun c => similarity_threshold config <= relevance_score c)
                 clauses) as Hfc.
  { apply (List.Forall_map relevance_score
             (fun s => similarity_threshold config <= s)).
    rewrite Hsc.
    apply (List.Forall_map snd (fun s => similarity_threshold config <= s)).
    eapply Forall_impl; [exact Hf|]. by intros p [H _]. }
  assert (StronglySorted (key_geq relevance_score) clauses) as Hsorted.
  { apply (proj2 (sorted_map_key relevance_score clauses)). rewrite Hsc.
    apply (proj1 (sorted_map_key snd _)). exact Hs. }
  destruct (rerank_results config) eqn:Er.
  - destruct (rerank_results_spec clauses (QueryParser.parse_query query)
                (similarity_threshold config) Ht1 Hfc) as (Hr1 & Hr2 & Hr3).
    split; [|split; [|split; [done|split]]].
    + eapply Forall_impl; [exact Hr1|]. intros c [H1 H2].
      by apply Qle_trans with (similarity_threshold config).
    + right. eapply Forall_impl; [exact Hr1|]. by intros c [_ H2].
    + eapply Forall_impl; [exact Hr1|]. by intros c [H1 _].
    + rewrite Hr3, Hlen. exact Hl.
  - split; [|split; [by left|split; [done|split; [done|]]]].
    + eapply Forall_impl; [exact Hfc|]. intros c H1.
      by apply Qle_trans with (similarity_threshold config).
    + rewrite Hlen. exact Hl.
Qed.

End HybridSearch.

(** C4 (as amended). For a configuration whose threshold lies in [0,1]
    and whose [max_results] is not negative, and for every query, every
    store of indexed chunks and every embedding, the evidence list is in
    non-increasing order of score, has no score below the threshold (so
    none below 0) and has at most [max_results] items; and when the
    re-rank pass is on, which caps every score with [min(1.0, ...)], no
    score is above 1. *)
Theorem C4_evidence_bounded_sorted_thresholded_truncated :
  forall dense_similarity sparse_similarity config store query,
    (0 <= Retrieval.similarity_threshold config <= 1)%Q ->
    (0 <= Retrieval.max_results config)%Z ->
    let evidence :=
      Retrieval.retrieve_relevant_documents dense_similarity sparse_similarity
        config store query in
    Forall (fun c => (0 <= Schemas.relevance_score c)%Q) evidence
    /\ (Retrieval.rerank_results config = false
        \/ Forall (fun c => (Schemas.relevance_score c <= 1)%Q) evidence)
    /\ StronglySorted
         (fun a b => (Schemas.relevance_score b <= Schemas.relevance_score a)%Q)
         evidence
    /\ Forall (fun c => (Retrieval.similarity_threshold config
                         <= Schemas.relevance_score c)%Q) evidence
    /\ (Z.of_nat (length evidence) <= Retrieval.max_results config)%Z.
Proof.
  intros dense_similarity sparse_similarity config store query Ht Hm.
  exact (retrieve_relevant_documents_spec dense_similarity sparse_similarity
           config store query Ht Hm).
Qed.

(** C4 at the default configuration, a store with one chunk and
    similarities that are 1 everywhere. *)
Lemma C4_default_configuration_witness :
  let evidence :=
    Retrieval.retrieve_relevant_documents (fun _ _ => 1%Q) (fun _ _ => 1%Q)
      Retrieval.default_config one_chunk_store "knee surgery" in
  Forall (fun c => (0 <= Schemas.relevance_score c)%Q) evidence
  /\ (Retrieval.rerank_results Retrieval.default_config = false
      \/ Forall (fun c => (Schemas.relevance_score c <= 1)%Q) evidence)
  /\ StronglySorted
       (fun a b => (Schemas.relevance_score b <= Schemas.relevance_score a)%Q)
       evidence
  /\ Forall (fun c => (Retrieval.similarity_threshold Retrieval.default_config
                       <= Schemas.relevance_score c)%Q) evidence
  /\ (Z.of_nat (length evidence)
      <= Retrieval.max_results Retrieval.default_config)%Z.
Proof.
  apply (C4_evidence_bounded_sorted_thresholded_truncated
           (fun _ _ => 1%Q) (fun _ _ => 1%Q) Retrieval.default_config
           one_chunk_store "knee surgery").
  - split; unfold Qle; simpl; lia.
  - simpl. lia.
Defined.

(** C4, the claim as stated fails, for [RetrievalConfig] takes any
    numbers. Each line is a search for "knee surgery" with similarities
    that are 1 everywhere. With [max_results = -1] and two stored chunks
    the slice keeps all results but the last: one item, more than
    [max_results]. Without the re-rank pass and with the weights 0.9 and
    0.9 the score is 1.8. With the threshold 2 and the weights 10 and 10
    the hybrid score 20 passes the threshold and the re-rank pass caps it
    at 1, below the threshold. With the threshold -1 and the weights -1
    and 0 the score is -1. *)
Lemma C4_ill_formed_configurations :
  (map Schemas.clause_id
     (Retrieval.retrieve_relevant_documents (fun _ _ => 1%Q) (fun _ _ => 1%Q)
        {| Retrieval.dense_weight := 7 # 10; Retrieval.sparse_weight := 3 # 10;
           Retrieval.max_results := -1;
           Retrieval.similarity_threshold := 6 # 10;
           Retrieval.rerank_results := true |}
        two_chunk_store "knee surgery")
   = ["policy.pdf_p0_c0"])
  /\ (map Schemas.relevance_score
        (Retrieval.retrieve_relevant_documents (fun _ _ => 1%Q) (fun _ _ => 1%Q)
           {| Retrieval.dense_weight := 9 # 10; Retrieval.sparse_weight := 9 # 10;
              Retrieval.max_results := 10;
              Retrieval.similarity_threshold := 6 # 10;
              Retrieval.rerank_results := false |}
           one_chunk_store "knee surgery")
      = [(9 # 10) * 1 + (9 # 10) * 1]%Q)
  /\ (map Schemas.relevance_score
        (Retrieval.retrieve_relevant_documents (fun _ _ => 1%Q) (fun _ _ => 1%Q)
           {| Retrieval.dense_weight := 10; Retrieval.sparse_weight := 10;
              Retrieval.max_results := 10;
              Retrieval.similarity_threshold := 2;
              Retrieval.rerank_results := true |}
           one_chunk_store "knee surgery")
      = [1%Q])
  /\ (map Schemas.relevance_score
        (Retrieval.retrieve_relevant_documents (fun _ _ => 1%Q) (fun _ _ => 1%Q)
           {| Retrieval.dense_weight := -1; Retrieval.sparse_weight := 0;
              Retrieval.max_results := 10;
              Retrieval.similarity_threshold := -1;
              Retrieval.rerank_results := true |}
           one_chunk_store "knee surgery")
      = [(-1) * 1 + 0 * 1]%Q).
Proof. repeat split; reflexivity. Qed.

Example retrieval_reranks_to_one :
  map Schemas.relevance_score
    (Retrieval.retrieve_relevant_documents (fun _ _ => 1%Q) (fun _ _ => 1%Q)
       Retrieval.default_config one_chunk_store "knee surgery")
  = [1%Q].
Proof. vm_compute. reflexivity. Qed.

(** ** Traceability *)

Section Traceability.
Import Schemas Mapping.

Lemma oset_fresh {V : Type} (k : nat) (v : V) (d : PyList.odict nat V) :
  Forall (fun p => p.1 < k) d -> PyList.oset Nat.eqb k v d = d ++ [(k, v)].
Proof.
  induction 1 as [|[k' v'] d Hk _ IH]; [done|]. simpl in *.
  destruct (Nat.eqb k k') eqn:E; [apply Nat.eqb_eq in E; lia|].
  by rewrite IH.
Qed.

Lemma oget_In {V : Type} (k : nat) (v : V) (d : PyList.odict nat V) :
  PyList.oget Nat.eqb k d = Some v -> In (k, v) d.
Proof.
  induction d as [|[k' v'] d IH]; [done|]. simpl.
  destruct (Nat.eqb k k') eqn:E.
  - apply Nat.eqb_eq in E. intros [= ->]. left. by subst.
  - intros H. right. by apply IH.
Qed.

Lemma oget_app_fresh {V : Type} (k : nat) (v : V) (d : PyList.odict nat V) :
  Forall (fun p => p.1 < k) d ->
  PyList.oget Nat.eqb k (d ++ [(k, v)]) = Some v.
Proof.
  induction 1 as [|[k' v'] d Hk _ IH]; simpl.
  - by rewrite Nat.eqb_refl.
  - destruct (Nat.eqb k k') eqn:E; [|exact IH].
    apply Nat.eqb_eq in E. simpl in Hk. lia.
Qed.

Lemma link_fields now k did clause dr :
  let link := _create_traceability_link now k did clause dr in
  link_id link = k /\ decision_id link = did
  /\ source_clause_id link = clause_id clause.
Proof.
  unfold _create_traceability_link.
  by destruct (_analyze_clause_relationship clause dr) as [[? ?] ?].
Qed.

(** The loop that creates the links: one link per clause, in order, each
    under a fresh identifier and appended to the stored links. *)
Lemma create_links_spec now did dr cs links next :
  Forall (fun p => p.1 < next) links ->
  let created := create_links now did dr cs links next in
  created.1.2 = links ++ map (fun l => (link_id l, l)) created.1.1
  /\ created.2 = next + length cs
  /\ Forall (fun l => decision_id l = did /\ next <= link_id l < created.2)
            created.1.1
  /\ map source_clause_id created.1.1 = map clause_id cs.
Proof.
  revert links next. induction cs as [|c cs IH]; intros links next Hl; simpl.
  - rewrite app_nil_r. repeat split; [lia|constructor].
  - set (link := _create_traceability_link now next did c dr).
    destruct (link_fields now next did c dr) as (Hid & Hd & Hc). fold link in Hid, Hd, Hc.
    rewrite (oset_fresh _ _ _ Hl).
    specialize (IH (links ++ [(next, link)]) (S next)).
    destruct (create_links now did dr cs (links ++ [(next, link)]) (S next))
      as [[sl links'] next'] eqn:E. simpl in *.
    destruct IH as (H1 & H2 & H3 & H4).
    { apply Forall_app. split.
      - eapply Forall_impl; [exact Hl|]. simpl. intros; lia.
      - repeat constructor. }
    repeat split.
    + by rewrite H1, Hid, <- app_assoc.
    + lia.
    + constructor; [split; [done|lia]|].
      eapply Forall_impl; [exact H3|]. simpl. intros l [? ?]. split; [done|lia].
    + by rewrite Hc, H4.
Qed.

Lemma fold_add_clause_decision_index now idx cs :
  decision_index (foldl (add_clause now) idx cs) = decision_index idx.
Proof.
  revert idx. induction cs as [|c cs IH]; intros idx; [done|].
  simpl. by rewrite IH.
Qed.

Lemma fold_add_clause_indexed now idx cs cid :
  is_Some (clause_index idx !! cid) \/ In cid (map clause_id cs) ->
  is_Some (clause_index (foldl (add_clause now) idx cs) !! cid).
Proof.
  revert idx. induction cs as [|c cs IH]; intros idx; simpl.
  - by intros [H|[]].
  - intros H. apply IH. unfold add_clause at 1. cbn [clause_index].
    destruct (decide (clause_id c = cid)) as [Heq|Hne].
    + left. rewrite Heq, lookup_insert_eq. by eexists.
    + destruct H as [H|[H|H]]; [|done|by right].
      left. by rewrite lookup_insert_ne.
Qed.

Lemma wf_new : wf new_agent.
Proof. repeat split; constructor. Qed.

Lemma find_app_l {A : Type} (f : A -> bool) (l1 l2 : list A) x :
  List.find f l1 = Some x -> List.find f (l1 ++ l2) = Some x.
Proof.
  induction l1 as [|y l1 IH]; [done|]. simpl. destruct (f y); [done|exact IH].
Qed.

Lemma find_app_r {A : Type} (f : A -> bool) (l1 l2 : list A) :
  Forall (fun y => f y = false) l1 ->
  List.find f (l1 ++ l2) = List.find f l2.
Proof.
  induction 1 as [|y l1 Hy _ IH]; [done|]. simpl. by rewrite Hy.
Qed.

Lemma wf_create agent now query entities dr cs path :
  wf agent ->
  wf (create_decision_trace agent now query entities dr cs path).1.
Proof.
  intros (Hl & Ht & Hok).
  assert (Forall (fun p : uuid * TraceabilityLink => p.1 < S (S (next_uuid agent)))
                 (traceability_links agent)) as Hl'.
  { eapply Forall_impl; [exact Hl|]. simpl. intros; lia. }
  destruct (create_links_spec now (S (next_uuid agent)) dr cs
              (traceability_links agent) (S (S (next_uuid agent))) Hl')
    as (H1 & H2 & H3 & H4).
  unfold create_decision_trace.
  set (created := create_links _ _ _ _ _ _) in *.
  set (t := {| trace_id := next_uuid agent |}).
  assert (Forall (fun p : uuid * DecisionTrace => p.1 < next_uuid agent)
                 (decision_traces agent)) as Hk.
  { eapply Forall_impl; [exact Ht|]. by intros p (? & _). }
  unfold wf. cbn [fst index decision_traces traceability_links next_uuid].
  rewrite (oset_fresh _ _ _ Hk).
  split; [|split].
  - rewrite H1. apply Forall_app. split.
    + eapply Forall_impl; [exact Hl|]. simpl. intros; lia.
    + apply (List.Forall_map (fun l => (link_id l, l))
               (fun p : uuid * TraceabilityLink => p.1 < created.2)).
      eapply Forall_impl; [exact H3|]. simpl. intros l [_ ?]. lia.
  - apply Forall_app. split.
    + eapply Forall_impl; [exact Ht|]. simpl. intros p (? & ? & ?).
      repeat split; [lia|lia|done].
    + repeat constructor; simpl; lia.
  - assert (forall l, In l (PyList.ovalues (traceability_links agent)) ->
                      In l (PyList.ovalues created.1.2)) as Hin.
    { intros l Hl0. rewrite H1. unfold PyList.ovalues. rewrite map_app.
      apply in_app_iff. by left. }
    apply Forall_app. split.
    + apply Forall_forall. intros [k t0] Hin0.
      pose proof (proj1 (Forall_forall _ _) Hok _ Hin0) as (Ha & Hb & Hc).
      pose proof (proj1 (Forall_forall _ _) Ht _ Hin0) as (Hk0 & Hd0 & _).
      simpl in *. unfold trace_ok. cbn [index decision_index clause_index
        link_decision_to_clauses traceability_links].
      split; [|split].
      * unfold trace_of_decision in *. cbn [decision_traces].
        unfold PyList.ovalues in *. rewrite map_app. by apply find_app_l.
      * rewrite lookup_insert_ne by lia.
        by rewrite fold_add_clause_decision_index.
      * eapply Forall_impl; [exact Hc|]. simpl. intros l (? & ? & ?).
        split; [done|]. split; [by apply Hin|].
        apply fold_add_clause_indexed. by left.
    + constructor; [|constructor]. unfold trace_ok.
      cbn [snd index decision_index clause_index link_decision_to_clauses
           traceability_links metadata md_decision_id source_links t].
      split; [|split].
      * unfold trace_of_decision. cbn [decision_traces].
        unfold PyList.ovalues. rewrite map_app. rewrite find_app_r.
        { simpl. by rewrite Nat.eqb_refl. }
        apply (List.Forall_map snd
                 (fun y => Nat.eqb (md_decision_id (metadata y))
                                   (S (next_uuid agent)) = false)).
        eapply Forall_impl; [exact Ht|]. simpl. intros p (_ & ? & _).
        apply Nat.eqb_neq. lia.
      * rewrite lookup_insert_eq. by rewrite H4.
      * apply Forall_forall. intros l Hl0.
        pose proof (proj1 (Forall_forall _ _) H3 _ Hl0)
          as [Hd _].
        split; [done|]. split.
        -- rewrite H1. unfold PyList.ovalues. rewrite map_app, map_map. simpl.
           apply in_app_iff. right. rewrite map_id. by apply list_elem_of_In.
        -- apply fold_add_clause_indexed. right. rewrite <- H4.
           apply in_map. by apply list_elem_of_In.
Qed.

(** The loop of [get_source_clauses_for_decision] keeps the indexed clause
    ids indexed, keeps what it has collected, and collects, for every id of
    its list that is indexed, the entry of that id with its links. *)
Lemma annotate_fold agent did ids st :
  let r := foldl (annotate_step agent did) st ids in
  (forall cid, is_Some (st.1 !! cid) -> is_Some (r.1 !! cid))
  /\ (forall x, In x st.2 -> In x r.2)
  /\ (forall cid cd0,
        In cid ids -> st.1 !! cid = Some cd0 ->
        In (with_links cd0 (map link_info (links_of agent did cid))) r.2).
Proof.
  revert st. induction ids as [|i ids IH]; intros st; simpl.
  - repeat split; [done..|intros ? ? []].
  - destruct (IH (annotate_step agent did st i)) as (IH1 & IH2 & IH3).
    assert (forall cid, is_Some (st.1 !! cid) ->
                        is_Some ((annotate_step agent did st i).1 !! cid)) as Hs.
    { intros cid H. unfold annotate_step. destruct (st.1 !! i) eqn:E; [|done].
      simpl. destruct (decide (i = cid)) as [->|Hne].
      - rewrite lookup_insert_eq. by eexists.
      - by rewrite lookup_insert_ne. }
    assert (forall x, In x st.2 -> In x (annotate_step agent did st i).2) as Ha.
    { intros x H. unfold annotate_step. destruct (st.1 !! i); [|done].
      simpl. apply in_app_iff. by left. }
    split; [|split].
    + intros cid H. by apply IH1, Hs.
    + intros x H. by apply IH2, Ha.
    + intros cid cd0 [->|Hin] Hcd.
      * apply IH2. unfold annotate_step. rewrite Hcd. simpl.
        apply in_app_iff. right. by left.
      * destruct (decide (i = cid)) as [->|Hne].
        -- apply IH2. unfold annotate_step. rewrite Hcd. simpl.
           apply in_app_iff. right. by left.
        -- apply IH3; [done|]. unfold annotate_step.
           destruct (st.1 !! i); [|done]. simpl. by rewrite lookup_insert_ne.
Qed.

Lemma wf_get agent did :
  wf agent -> wf (get_source_clauses_for_decision agent did).1.
Proof.
  intros (Hl & Ht & Hok). unfold wf, get_source_clauses_for_decision.
  cbn [fst index decision_traces traceability_links next_uuid].
  split; [done|]. split; [done|].
  eapply Forall_impl; [exact Hok|]. intros [k t] (Ha & Hb & Hc).
  unfold trace_ok in *. cbn [snd index decision_index clause_index
    traceability_links] in *.
  split; [exact Ha|]. split; [exact Hb|].
  eapply Forall_impl; [exact Hc|]. simpl. intros l (? & ? & Hs).
  split; [done|]. split; [done|].
  by apply (annotate_fold agent did).
Qed.

Lemma reachable_wf agent : reachable agent -> wf agent.
Proof.
  induction 1; [apply wf_new|by apply wf_create|by apply wf_get].
Qed.

(** What a call of [create_decision_trace] records. *)
Lemma create_records_trace agent now query entities dr cs path :
  wf agent ->
  let created := create_decision_trace agent now query entities dr cs path in
  exists t,
    get_decision_trace created.1 created.2 = Some t
    /\ decision t = Decision.decision dr
    /\ map source_clause_id (source_links t) = map clause_id cs
    /\ Forall (fun l => decision_id l = md_decision_id (metadata t))
              (source_links t).
Proof.
  intros (Hl & Ht & Hok).
  assert (Forall (fun p : nat * TraceabilityLink => p.1 < S (S (next_uuid agent)))
                 (traceability_links agent)) as Hl'.
  { eapply Forall_impl; [exact Hl|]. simpl. intros; lia. }
  destruct (create_links_spec now (S (next_uuid agent)) dr cs
              (traceability_links agent) (S (S (next_uuid agent))) Hl')
    as (H1 & H2 & H3 & H4).
  assert (Forall (fun p : nat * DecisionTrace => p.1 < next_uuid agent)
                 (decision_traces agent)) as Hk.
  { eapply Forall_impl; [exact Ht|]. by intros p (? & _). }
  unfold create_decision_trace, get_decision_trace.
  cbn [fst snd decision_traces].
  set (t := {| trace_id := next_uuid agent |}).
  exists t. split; [|split; [done|split; [exact H4|]]].
  - rewrite (oset_fresh _ _ _ Hk). by apply oget_app_fresh.
  - eapply Forall_impl; [exact H3|]. by intros l [? _].
Qed.

(** Both directions of retrieval, for a link of a stored trace. *)
Lemma links_retrievable agent k t l :
  wf agent ->
  get_decision_trace agent k = Some t -> In l (source_links t) ->
  (exists cd0,
      clause_index (index agent) !! source_clause_id l = Some cd0
      /\ In (with_links cd0
               (map link_info
                  (links_of agent (decision_id l) (source_clause_id l))))
            (get_source_clauses_for_decision agent (decision_id l)).2
      /\ In (link_info l)
            (map link_info
               (links_of agent (decision_id l) (source_clause_id l))))
  /\ (exists du,
        In du (get_decisions_using_clause agent (source_clause_id l))
        /\ du_trace_id du = k
        /\ du_decision du = decision t
        /\ du_relationship_type du = relationship_type l
        /\ du_relationship_strength du = strength l).
Proof.
  intros (Hl & Ht & Hok) Hget Hin.
  apply oget_In in Hget. apply list_elem_of_In in Hget.
  pose proof (proj1 (Forall_forall _ _) Hok _ Hget) as (Ha & Hb & Hc).
  pose proof (proj1 (Forall_forall _ _) Ht _ Hget) as (_ & _ & Hid).
  simpl in Ha, Hb, Hc, Hid.
  pose proof (proj1 (Forall_forall _ _) Hc _ (proj2 (list_elem_of_In _ _) Hin))
    as (Hd & Hlink & [cd0 Hcd]).
  split.
  - exists cd0. split; [exact Hcd|]. split.
    + unfold get_source_clauses_for_decision. cbn [snd].
      rewrite Hd, Hb. simpl.
      apply (annotate_fold agent (md_decision_id (metadata t))
               (map source_clause_id (source_links t))
               (clause_index (index agent), [])); [|exact Hcd].
      by apply in_map.
    + apply in_map. unfold links_of. apply list_elem_of_In.
      apply list_elem_of_filter. split; [|by apply list_elem_of_In].
      by rewrite String.eqb_refl, Nat.eqb_refl.
  - unfold get_decisions_using_clause.
    eexists. split.
    + apply list_elem_of_In, list_elem_of_omap. exists l. split.
      * apply list_elem_of_filter. split; [apply String.eqb_refl|].
        by apply list_elem_of_In.
      * rewrite Hd, Ha. simpl. reflexivity.
    + simpl. by rewrite Hid.
Qed.

End Traceability.

(** C8. In every state that the agent reaches, a call of
    [create_decision_trace] stores a trace with one link per source clause,
    all for the decision id of the trace; and for every stored trace and
    every link [(decision_id, clause_id)] of it,
    [get_source_clauses_for_decision decision_id] returns the indexed entry
    of [clause_id], annotated with that link, and
    [get_decisions_using_clause clause_id] returns the decision of that
    trace, under its trace id and with the relation of the link. *)
Theorem C8_links_retrievable_in_both_directions :
  forall agent,
    reachable agent ->
    (forall now query entities decision_result clauses path,
        let created :=
          Mapping.create_decision_trace agent now query entities
            decision_result clauses path in
        reachable created.1
        /\ exists t,
             Mapping.get_decision_trace created.1 created.2 = Some t
             /\ Mapping.decision t = Decision.decision decision_result
             /\ map Mapping.source_clause_id (Mapping.source_links t)
                = map Schemas.clause_id clauses
             /\ Forall (fun l => Mapping.decision_id l
                                 = Mapping.md_decision_id (Mapping.metadata t))
                       (Mapping.source_links t))
    /\ (forall k t l,
          Mapping.get_decision_trace agent k = Some t ->
          In l (Mapping.source_links t) ->
          (exists cd0,
              Mapping.clause_index (Mapping.index agent)
                !! Mapping.source_clause_id l = Some cd0
              /\ In (Mapping.with_links cd0
                       (map Mapping.link_info
                          (Mapping.links_of agent (Mapping.decision_id l)
                             (Mapping.source_clause_id l))))
                    (Mapping.get_source_clauses_for_decision agent
                       (Mapping.decision_id l)).2
              /\ In (Mapping.link_info l)
                    (map Mapping.link_info
                       (Mapping.links_of agent (Mapping.decision_id l)
                          (Mapping.source_clause_id l))))
          /\ (exists du,
                In du (Mapping.get_decisions_using_clause agent
                         (Mapping.source_clause_id l))
                /\ Mapping.du_trace_id du = k
                /\ Mapping.du_decision du = Mapping.decision t
                /\ Mapping.du_relationship_type du = Mapping.relationship_type l
                /\ Mapping.du_relationship_strength du = Mapping.strength l)).
Proof.
  intros agent Hr. pose proof (reachable_wf agent Hr) as Hwf. split.
  - intros now query entities dr cs path created. subst created. split.
    + by apply reach_create.
    + by apply create_records_trace.
  - intros k t l. by apply links_retrievable.
Qed.

(** C8 at the agent that has recorded one trace: the trace has id 0, its
    decision id 1, and its link to the clause is found in both directions. *)
Lemma C8_one_trace_witness :
  reachable one_trace_agent
  /\ (exists cd, In cd (Mapping.get_source_clauses_for_decision
                         one_trace_agent 1).2
                 /\ Mapping.cd_clause_text cd = "Knee surgery is covered in Pune.")
  /\ (exists du, In du (Mapping.get_decisions_using_clause one_trace_agent
                          "policy.pdf_p0_c0")
                 /\ Mapping.du_trace_id du = 0
                 /\ Mapping.du_decision du = "approved").
Proof.
  assert (reachable one_trace_agent) as Hr by (apply reach_create, reach_new).
  split; [exact Hr|].
  destruct (C8_links_retrievable_in_both_directions one_trace_agent Hr)
    as [_ H].
  edestruct (H 0) as [(cd0 & Hcd & Hin & _) (du & Hdu & Hk & Hd & _)].
  - vm_compute. reflexivity.
  - left. reflexivity.
  - split.
    + eexists. split; [exact Hin|].
      vm_compute in Hcd. injection Hcd as <-. reflexivity.
    + exists du. split; [exact Hdu|]. split; [exact Hk|].
      rewrite Hd. vm_compute. reflexivity.
Defined.

(** * Further properties of the code *)

(** ** The decision engine *)

Section DecisionEngine.
Local Open Scope Q_scope.
Import Schemas.

Lemma max_zero_min_one_bounds x :
  0 <= PyNum.max_zero (PyNum.min_one x) <= 1.
Proof.
  unfold PyNum.max_zero.
  destruct (Qle_bool (PyNum.min_one x) 0) eqn:E.
  - split; discriminate.
  - split; [|apply min_one_le].
    apply Qlt_le_weak, Qnot_le_lt. intros H. apply Qle_bool_iff in H. congruence.
Qed.

Lemma evaluate_coverage_decision_confidence ctx r :
  Decision.evaluate_coverage_decision ctx = Py.Ok r ->
  0 <= Decision.confidence_score r <= 1.
Proof.
  unfold Decision.evaluate_coverage_decision. intros H.
  destruct (Decision._assess_risk ctx) as [risk|msg]; simpl in H; [|discriminate].
  destruct (Decision.decide_branch _ _) as [d m].
  destruct (if String.eqb d "approved" then _ else _) as [a|msg];
    simpl in H; [|discriminate].
  injection H as <-. simpl. apply max_zero_min_one_bounds.
Qed.

Lemma decide_branch_outcomes vr f :
  In (Decision.decide_branch vr f).1
     ["approved"; "rejected"; "requires_review"; "pending"].
Proof.
  unfold Decision.decide_branch.
  repeat (match goal with |- context [if ?b then _ else _] => destruct b end);
    simpl; tauto.
Qed.

Lemma count_sentiment_pos s l :
  (0 < Decision.count_sentiment s l)%nat -> In s l.
Proof.
  unfold Decision.count_sentiment. intros H.
  destruct (filter (fun x => x = s) l) as [|x l'] eqn:E; [simpl in H; lia|].
  assert (x ∈ filter (fun x => x = s) l) as Hx by (rewrite E; left).
  apply list_elem_of_filter in Hx as [-> Hx]. by apply list_elem_of_In.
Qed.

(** A clause factor that supports coverage has a positive clause behind
    it. *)
Lemma clause_support_positive clauses entities :
  Decision.supports (Decision._evaluate_clause_support clauses entities) = true ->
  exists c, In c clauses
            /\ Decision._analyze_clause_sentiment c entities = Decision.Positive.
Proof.
  unfold Decision._evaluate_clause_support.
  destruct clauses as [|c0 cs]; [discriminate|].
  set (sentiments := map _ (c0 :: cs)).
  destruct (Decision.count_sentiment Decision.Negative sentiments
            <? Decision.count_sentiment Decision.Positive sentiments)%nat eqn:E.
  - intros _. apply Nat.ltb_lt in E.
    assert (In Decision.Positive sentiments) as Hin
      by (apply count_sentiment_pos; lia).
    apply in_map_iff in Hin as (c & Hc & Hin). by exists c.
  - destruct (Decision.count_sentiment Decision.Positive sentiments
              <? Decision.count_sentiment Decision.Negative sentiments)%nat;
      simpl; discriminate.
Qed.

Lemma base_amount_cases (procedure : string) :
  In (match List.find (fun '(proc_type, _) => PyStr.contains proc_type procedure)
                      Decision.procedure_amounts with
      | Some (_, amount) => amount
      | None => 75000
      end)
     [150000; 200000; 500000; 100000; 25000; 50000; 75000].
Proof.
  cbv [List.find Decision.procedure_amounts].
  destruct (PyStr.contains "knee" procedure); [simpl; tauto|].
  destruct (PyStr.contains "hip" procedure); [simpl; tauto|].
  destruct (PyStr.contains "cardiac" procedure); [simpl; tauto|].
  destruct (PyStr.contains "surgery" procedure); [simpl; tauto|].
  destruct (PyStr.contains "dental" procedure); [simpl; tauto|].
  destruct (PyStr.contains "eye" procedure); simpl; tauto.
Qed.

Lemma coverage_amount_bounds ctx a :
  Decision._calculate_coverage_amount ctx = Py.Ok (Some a) ->
  22500 <= a <= 600000.
Proof.
  unfold Decision._calculate_coverage_amount.
  destruct (Decision.entities ctx !! "procedure") as [p|]; [|discriminate].
  pose proof (base_amount_cases (PyStr.lower (Py.str p))) as Hb.
  set (base := match List.find _ _ with Some _ => _ | None => _ end) in *.
  clearbody base.
  assert (forall x, In x [150000; 200000; 500000; 100000; 25000; 50000; 75000] ->
                    22500 <= PyNum.round_to 2 x <= 600000
                    /\ 22500 <= PyNum.round_to 2 (x * (12 # 10)) <= 600000
                    /\ 22500 <= PyNum.round_to 2 (x * (9 # 10)) <= 600000) as Hr.
  { intros x Hx. simpl in Hx.
    repeat (destruct Hx as [<-|Hx]; [vm_compute; repeat split; discriminate|]).
    destruct Hx. }
  destruct (Hr base Hb) as (H1 & H2 & H3).
  destruct (Decision.entities ctx !! "age") as [v|].
  - destruct (Decision.age_or 40 v) as [age|msg]; simpl; [|discriminate].
    destruct (60 <? age)%Z; [by intros [= <-]|].
    destruct (age <? 30)%Z; by intros [= <-].
  - simpl. by intros [= <-].
Qed.

End DecisionEngine.

(** X1. Whatever its inputs, [make_decision] returns a confidence score
    between 0 and 1 and one of the four outcomes "approved", "rejected",
    "requires_review", "pending". *)
Theorem X1_confidence_and_outcome_ranges :
  forall agent now entities clauses vr qt,
    let r := (Decision.make_decision agent now entities clauses vr qt).2 in
    (0 <= Decision.confidence_score r <= 1)%Q
    /\ In (Decision.decision r)
          ["approved"; "rejected"; "requires_review"; "pending"].
Proof.
  intros agent now entities clauses vr qt r. subst r.
  destruct (Decision.evaluate_coverage_decision (mk_context entities clauses vr qt))
    as [r|msg] eqn:E.
  - rewrite (make_decision_ok _ _ _ _ _ _ _ E). split.
    + by apply (evaluate_coverage_decision_confidence _ _ E).
    + destruct (evaluate_coverage_decision_ok _ _ E) as [-> _].
      apply decide_branch_outcomes.
  - rewrite (make_decision_raise _ _ _ _ _ _ _ E). simpl.
    split; [split; discriminate|tauto].
Qed.

(** X2. A decision is "approved" only when the validation result says
    valid and some source clause is positive for the entities; with no
    source clause at all the decision is never "approved". *)
Theorem X2_approved_needs_valid_and_positive_clause :
  forall agent now entities clauses vr qt,
    Decision.decision (Decision.make_decision agent now entities clauses vr qt).2
    = "approved" ->
    Validation.is_valid vr = true
    /\ clauses <> []
    /\ exists c, In c clauses
                 /\ Decision._analyze_clause_sentiment c entities
                    = Decision.Positive.
Proof.
  intros agent now entities clauses vr qt.
  destruct (Decision.evaluate_coverage_decision (mk_context entities clauses vr qt))
    as [r|msg] eqn:E.
  - rewrite (make_decision_ok _ _ _ _ _ _ _ E).
    destruct (evaluate_coverage_decision_ok _ _ E) as [-> _]. simpl.
    destruct (decide_branch_cases vr
                (Decision._evaluate_clause_support clauses entities))
      as [(_ & Hv & Hs)|(Hb & _)]; [|done].
    intros _. split; [done|].
    destruct (clause_support_positive _ _ Hs) as (c & Hc & Hp).
    split; [by destruct clauses|by exists c].
  - rewrite (make_decision_raise _ _ _ _ _ _ _ E). simpl. discriminate.
Qed.

(** X2 at the decision about a knee surgery with one covering clause. *)
Lemma X2_knee_witness :
  let vr := Validation.validate_claim Validation.new_agent knee_entities
              [knee_clause] in
  Validation.is_valid vr = true
  /\ [knee_clause] <> []
  /\ exists c, In c [knee_clause]
               /\ Decision._analyze_clause_sentiment c knee_entities
                  = Decision.Positive.
Proof.
  apply (X2_approved_needs_valid_and_positive_clause Decision.new_agent "t"
           knee_entities [knee_clause]
           (Validation.validate_claim Validation.new_agent knee_entities
              [knee_clause]) "eligibility").
  vm_compute. reflexivity.
Defined.

(** X3. An amount, when a decision carries one, lies between 22,500 (a
    dental procedure under 30) and 600,000 (a cardiac procedure over 60). *)
Theorem X3_amount_bounds :
  forall agent now entities clauses vr qt a,
    Decision.amount (Decision.make_decision agent now entities clauses vr qt).2
    = Some a ->
    (22500 <= a <= 600000)%Q.
Proof.
  intros agent now entities clauses vr qt a.
  destruct (Decision.evaluate_coverage_decision (mk_context entities clauses vr qt))
    as [r|msg] eqn:E.
  - rewrite (make_decision_ok _ _ _ _ _ _ _ E).
    destruct (evaluate_coverage_decision_ok _ _ E) as [_ Ha]. intros Hr.
    rewrite Hr in Ha.
    destruct (String.eqb _ "approved"); [|discriminate].
    by apply (coverage_amount_bounds _ _ Ha).
  - rewrite (make_decision_raise _ _ _ _ _ _ _ E). simpl. discriminate.
Qed.

(** X3 at the knee surgery: the amount is 150,000. *)
Lemma X3_knee_witness :
  Decision.amount knee_decision = Some (15000000 # 100)%Q
  /\ (22500 <= 15000000 # 100 <= 600000)%Q.
Proof.
  assert (Decision.amount knee_decision = Some (15000000 # 100)%Q) as H
    by (vm_compute; reflexivity).
  split; [exact H|].
  exact (X3_amount_bounds Decision.new_agent "t" knee_entities [knee_clause]
           (Validation.validate_claim Validation.new_agent knee_entities
              [knee_clause]) "eligibility" (15000000 # 100)%Q H).
Defined.

(** ** The decision history and its statistics *)

Section DecisionHistory.
Local Open Scope Q_scope.

Lemma last_n_length {A : Type} (l : list A) :
  (1000 < Z.of_nat (length l))%Z ->
  Z.of_nat (length (PyList.last_n 1000 l)) = 1000%Z.
Proof.
  intros H. unfold PyList.last_n.
  change (0 <? 1000)%Z with true. cbv iota.
  rewrite length_drop. lia.
Qed.

Lemma last_n_last {A : Type} (l : list A) (x : A) :
  last (PyList.last_n 1000 (l ++ [x])) = Some x.
Proof.
  unfold PyList.last_n. change (0 <? 1000)%Z with true. cbv iota.
  rewrite length_app. cbn [length].
  rewrite drop_app_le by lia. by rewrite last_snoc.
Qed.

Lemma record_decision_history agent now entities r qt :
  let history :=
    Decision.decision_history
      (Decision._record_decision agent now entities r qt) in
  last history = Some (history_record now entities r qt)
  /\ Z.of_nat (length history)
     = Z.min 1000 (Z.of_nat (length (Decision.decision_history agent)) + 1).
Proof.
  unfold Decision._record_decision. cbn [Decision.decision_history].
  fold (history_record now entities r qt).
  destruct (1000 <? Z.of_nat (length _))%Z eqn:E.
  - apply Z.ltb_lt in E. split; [apply last_n_last|].
    rewrite last_n_length by done. rewrite length_app in E. cbn [length] in E. lia.
  - apply Z.ltb_ge in E. split; [apply last_snoc|].
    rewrite length_app in *. cbn [length] in *. lia.
Qed.

Lemma Forall_last_n {A : Type} (P : A -> Prop) (l : list A) :
  Forall P l -> Forall P (PyList.last_n 1000 l).
Proof.
  intros H. unfold PyList.last_n. destruct (0 <? 1000)%Z; by apply Forall_drop.
Qed.

Lemma reachable_history agent :
  reachable_decision_agent agent ->
  (Z.of_nat (length (Decision.decision_history agent)) <= 1000)%Z
  /\ Forall record_ok (Decision.decision_history agent).
Proof.
  induction 1 as [|agent now entities clauses vr qt _ [IHl IHf]].
  - simpl. split; [lia|constructor].
  - destruct (Decision.evaluate_coverage_decision
                (mk_context entities clauses vr qt)) as [r|msg] eqn:E.
    + unfold Decision.make_decision. fold (mk_context entities clauses vr qt).
      rewrite E. cbn [fst].
      destruct (record_decision_history agent now entities r qt) as [_ Hlen].
      split; [cbv zeta in Hlen; lia|].
      unfold Decision._record_decision. cbn [Decision.decision_history].
      assert (Forall record_ok
                (Decision.decision_history agent
                 ++ [history_record now entities r qt])) as Hf.
      { apply Forall_app. split; [done|]. constructor; [|constructor].
        split; simpl.
        - destruct (evaluate_coverage_decision_ok _ _ E) as [-> _].
          apply decide_branch_outcomes.
        - by apply (evaluate_coverage_decision_confidence _ _ E). }
      destruct (1000 <? _)%Z; [by apply Forall_last_n|done].
    + by rewrite (make_decision_raise _ _ _ _ _ _ _ E).
Qed.

Lemma count_decisions_total (l : list string) :
  Forall (fun d => In d ["approved"; "rejected"; "requires_review"; "pending"]) l ->
  (DecisionReports.count_decision "approved" l
   + DecisionReports.count_decision "rejected" l
   + DecisionReports.count_decision "pending" l
   + DecisionReports.count_decision "requires_review" l = length l)%nat.
Proof.
  unfold DecisionReports.count_decision.
  induction 1 as [|d l Hd _ IH]; [done|].
  simpl in Hd. destruct Hd as [<-|[<-|[<-|[<-|[]]]]]; cbn [List.filter];
    repeat (match goal with
            | |- context [String.eqb ?a ?b] =>
                let v := eval vm_compute in (String.eqb a b) in
                change (String.eqb a b) with v
            end);
    cbv iota; cbn [length]; lia.
Qed.

Lemma sum_fold_bounds (l : list Q) (acc : Q) :
  Forall (fun c => 0 <= c <= 1) l ->
  acc <= foldl Qplus acc l
  /\ foldl Qplus acc l <= acc + inject_Z (Z.of_nat (length l)).
Proof.
  intros H. revert acc. induction H as [|c l [Hc0 Hc1] _ IH]; intros acc.
  - simpl. split; [apply Qle_refl|]. rewrite Qplus_0_r. apply Qle_refl.
  - cbn [foldl length]. destruct (IH (acc + c)) as [IH1 IH2]. split.
    + apply Qle_trans with (acc + c); [|done].
      rewrite <- (Qplus_0_r acc) at 1. by apply Qplus_le_compat; [apply Qle_refl|].
    + eapply Qle_trans; [exact IH2|].
      rewrite Nat2Z.inj_succ, <- Z.add_1_l, inject_Z_plus.
      rewrite Qplus_assoc. apply Qplus_le_compat; [|apply Qle_refl].
      by apply Qplus_le_compat; [apply Qle_refl|].
Qed.

Lemma average_bounds (l : list Q) :
  l <> [] -> Forall (fun c => 0 <= c <= 1) l ->
  0 <= PyNum.sum l / inject_Z (Z.of_nat (length l)) <= 1.
Proof.
  intros Hne H. destruct (sum_fold_bounds l 0 H) as [H0 H1].
  rewrite Qplus_0_l in H1.
  assert (0 < inject_Z (Z.of_nat (length l))) as Hpos.
  { destruct l; [done|]. unfold Qlt. simpl. lia. }
  unfold PyNum.sum. split.
  - apply Qle_shift_div_l; [done|]. by rewrite Qmult_0_l.
  - apply Qle_shift_div_r; [done|]. by rewrite Qmult_1_l.
Qed.

End DecisionHistory.

(** X4. [make_decision] records a decision it could make as the last entry
    of the history and never lets the history grow beyond 1000 entries; a
    decision that ended in the error branch is returned but not recorded. *)
Theorem X4_history_records_and_is_capped :
  forall agent now entities clauses vr qt,
    let made := Decision.make_decision agent now entities clauses vr qt in
    match Decision.evaluate_coverage_decision
            (mk_context entities clauses vr qt) with
    | Py.Ok _ =>
        last (Decision.decision_history made.1)
        = Some (history_record now entities made.2 qt)
        /\ Z.of_nat (length (Decision.decision_history made.1))
           = Z.min 1000
               (Z.of_nat (length (Decision.decision_history agent)) + 1)
    | Py.Raise _ =>
        Decision.decision_history made.1 = Decision.decision_history agent
    end.
Proof.
  intros agent now entities clauses vr qt made. subst made.
  destruct (Decision.evaluate_coverage_decision (mk_context entities clauses vr qt))
    as [r|msg] eqn:E.
  - unfold Decision.make_decision. fold (mk_context entities clauses vr qt).
    rewrite E. cbn [fst snd]. apply record_decision_history.
  - by rewrite (make_decision_raise _ _ _ _ _ _ _ E).
Qed.

(** X5. For an agent that has made decisions, [get_decision_statistics]
    reports the length of the history as the total, at most 1000; the
    counts of the four outcomes add up to the total; the average confidence
    lies between 0 and 1; and the high-confidence count is at most the
    total. Without decisions it reports the total 0 alone. *)
Theorem X5_decision_statistics_consistent :
  forall agent,
    reachable_decision_agent agent ->
    match DecisionReports.get_decision_statistics agent with
    | DecisionReports.NoDecisions => Decision.decision_history agent = []
    | DecisionReports.Statistics total approved rejected pending review
                                 average high =>
        total = length (Decision.decision_history agent)
        /\ (0 < Z.of_nat total <= 1000)%Z
        /\ (approved + rejected + pending + review = total)%nat
        /\ (0 <= average <= 1)%Q
        /\ (high <= total)%nat
    end.
Proof.
  intros agent Hr. destruct (reachable_history agent Hr) as [Hl Hf].
  unfold DecisionReports.get_decision_statistics.
  destruct (Decision.decision_history agent) as [|h history] eqn:E; [done|].
  rewrite <- E in *. split; [done|].
  split; [rewrite E in *; cbn [length] in *; lia|].
  split; [|split].
  - rewrite <- (length_map Decision.h_decision). apply count_decisions_total.
    apply List.Forall_map. eapply Forall_impl; [exact Hf|]. by intros ? [? _].
  - apply average_bounds.
    + rewrite E. discriminate.
    + apply List.Forall_map. eapply Forall_impl; [exact Hf|]. by intros ? [_ ?].
  - etransitivity; [apply List.filter_length_le|]. by rewrite length_map.
Qed.

(** X5 at the agent that has decided about the knee surgery. *)
Lemma X5_one_decision_witness :
  match DecisionReports.get_decision_statistics
          (Decision.make_decision Decision.new_agent "t" knee_entities
             [knee_clause]
             (Validation.validate_claim Validation.new_agent knee_entities
                [knee_clause]) "eligibility").1 with
  | DecisionReports.NoDecisions => False
  | DecisionReports.Statistics total approved rejected pending review
                               average high =>
      total = 1%nat /\ approved = 1%nat /\ (0 <= average <= 1)%Q
  end.
Proof.
  pose proof (X5_decision_statistics_consistent _
                (dreach_make Decision.new_agent "t" knee_entities [knee_clause]
                   (Validation.validate_claim Validation.new_agent knee_entities
                      [knee_clause]) "eligibility" dreach_new)) as H.
  remember (DecisionReports.get_decision_statistics _) as st eqn:E.
  vm_compute in E. subst st. cbv iota beta in H |- *.
  destruct H as (_ & _ & _ & Ha & _).
  split; [reflexivity|]. split; [reflexivity|exact Ha].
Defined.

(** ** More on the rule validator *)

Section RuleValidatorMore.
Import Validation.

Lemma rule_step_satisfied entities st rule :
  ls_satisfied (rule_step entities st rule)
  = ls_satisfied st ++ (if rule_violated rule entities then [] else [name rule]).
Proof.
  unfold rule_step, rule_violated.
  destruct (evaluate rule entities) as [[] ?]; simpl; [done|by rewrite app_nil_r].
Qed.

Lemma fold_rule_step_satisfied entities rules st :
  ls_satisfied (foldl (rule_step entities) st rules)
  = ls_satisfied st
    ++ map name (List.filter (fun r => negb (rule_violated r entities)) rules).
Proof.
  revert st. induction rules as [|r rules IH]; intros st; simpl.
  - by rewrite app_nil_r.
  - rewrite IH, rule_step_satisfied.
    destruct (rule_violated r entities); simpl; by rewrite <- app_assoc.
Qed.

Lemma rule_step_warnings entities st rule :
  ls_warnings (rule_step entities st rule)
  = ls_warnings st
    ++ (if rule_violated rule entities then rule_warning rule else []).
Proof.
  unfold rule_step, rule_violated, rule_warning.
  destruct (evaluate rule entities) as [[] ?]; simpl; [by rewrite app_nil_r|done].
Qed.

Lemma fold_rule_step_warnings entities rules st :
  ls_warnings (foldl (rule_step entities) st rules)
  = ls_warnings st
    ++ flat_map rule_warning
         (List.filter (fun r => rule_violated r entities) rules).
Proof.
  revert st. induction rules as [|r rules IH]; intros st; simpl.
  - by rewrite app_nil_r.
  - rewrite IH, rule_step_warnings.
    destruct (rule_violated r entities); simpl; by rewrite <- app_assoc.
Qed.

Lemma filter_split_perm {A B : Type} (f : A -> bool) (g : A -> B) (l : list A) :
  map g (List.filter (fun x => negb (f x)) l) ++ map g (List.filter f l)
  ≡ₚ map g l.
Proof.
  induction l as [|x l IH]; [done|]. simpl.
  destruct (f x); simpl.
  - rewrite <- IH. by rewrite Permutation_middle.
  - by rewrite IH.
Qed.

Lemma check_all_unknown rule_name conds context :
  forallb (fun c => unknown_kind c.1) conds = true ->
  exists explanation,
    check_all rule_name conds context = Py.Ok (true, explanation).
Proof.
  induction conds as [|[ct cv] conds IH]; simpl; intros H.
  - by eexists.
  - apply andb_prop in H as [Hk H].
    assert (_check_condition ct cv context = Py.Ok true) as ->.
    { unfold unknown_kind, known_condition_kinds in Hk. simpl in Hk.
      unfold _check_condition.
      repeat match type of Hk with
             | (negb _ && _ = true) =>
                 let Hn := fresh "Hn" in
                 apply andb_prop in Hk as [Hn Hk];
                 apply negb_true_iff in Hn; rewrite Hn; clear Hn
             end.
      reflexivity. }
    by apply IH.
Qed.

End RuleValidatorMore.

(** X6. Every rule of the agent is reported once: the names in
    [satisfied_rules] followed by those in [violated_rules] are a
    rearrangement of the names of the rules, so the two lists together have
    as many entries as the agent has rules. *)
Theorem X6_satisfied_and_violated_partition_the_rules :
  forall agent entities clauses,
    let vr := Validation.validate_claim agent entities clauses in
    Validation.satisfied_rules vr ++ Validation.violated_rules vr
    ≡ₚ map Validation.name (Validation.rules agent)
    /\ length (Validation.satisfied_rules vr)
       + length (Validation.violated_rules vr)
       = length (Validation.rules agent).
Proof.
  intros agent entities clauses vr. subst vr.
  assert (Validation.satisfied_rules
            (Validation.validate_claim agent entities clauses)
          ++ Validation.violated_rules
               (Validation.validate_claim agent entities clauses)
          ≡ₚ map Validation.name (Validation.rules agent)) as H.
  { unfold Validation.validate_claim.
    cbn [Validation.satisfied_rules Validation.violated_rules].
    rewrite fold_rule_step_satisfied, fold_rule_step_violated.
    cbn [Validation.ls_satisfied Validation.ls_violated app].
    rewrite filter_split_perm. unfold PyList.sort_asc.
    apply Permutation_map, sort_desc_perm. }
  split; [exact H|].
  rewrite <- length_app, H. apply length_map.
Qed.

(** X7. The warnings of a validation result come from violated rules with
    the id waiting_period or excluded_procedures and from nothing else: the
    list is empty exactly when no rule with one of these two ids is
    violated, and every warning is one of the two fixed messages. *)
Theorem X7_warnings_come_from_two_rule_ids :
  forall agent entities clauses,
    let vr := Validation.validate_claim agent entities clauses in
    (Validation.warnings vr = []
     <-> forall r, In r (Validation.rules agent) ->
                   rule_violated r entities = true ->
                   Validation.rule_id r <> "waiting_period"
                   /\ Validation.rule_id r <> "excluded_procedures")
    /\ Forall (fun w => In w ["Policy may not have met minimum waiting period";
                              "Procedure may be excluded from coverage"])
              (Validation.warnings vr).
Proof.
  intros agent entities clauses vr. subst vr.
  unfold Validation.validate_claim. cbn [Validation.warnings].
  rewrite fold_rule_step_warnings. cbn [Validation.ls_warnings app].
  set (sorted := PyList.sort_asc _ (Validation.rules agent)).
  assert (forall r, In r sorted <-> In r (Validation.rules agent)) as Hs
    by (intros r; apply sort_desc_In).
  split.
  - split.
    + intros H r Hr Hv.
      assert (In r (List.filter (fun r => rule_violated r entities) sorted)) as Hin
        by (apply filter_In; split; [by apply Hs|done]).
      assert (rule_warning r = []) as Hw.
      { destruct (rule_warning r) as [|w ws] eqn:E; [done|]. exfalso.
        assert (In w (flat_map rule_warning
                        (List.filter (fun r => rule_violated r entities) sorted)))
          as Hf by (apply in_flat_map; exists r; split; [done|rewrite E; by left]).
        rewrite H in Hf. destruct Hf. }
      unfold rule_warning in Hw.
      destruct (String.eqb (Validation.rule_id r) "waiting_period") eqn:E1;
        [discriminate|].
      destruct (String.eqb (Validation.rule_id r) "excluded_procedures") eqn:E2;
        [discriminate|].
      by apply String.eqb_neq in E1, E2.
    + intros H.
      destruct (flat_map _ _) as [|w ws] eqn:E; [done|]. exfalso.
      assert (In w (flat_map rule_warning
                      (List.filter (fun r => rule_violated r entities) sorted)))
        as Hf by (rewrite E; by left).
      apply in_flat_map in Hf as (r & Hr & Hw).
      apply filter_In in Hr as [Hr Hv]. apply Hs in Hr.
      destruct (H r Hr Hv) as [H1 H2]. unfold rule_warning in Hw.
      apply String.eqb_neq in H1, H2. by rewrite H1, H2 in Hw.
  - apply Forall_forall. intros w Hw. apply list_elem_of_In in Hw.
    apply in_flat_map in Hw as (r & _ & Hw). unfold rule_warning in Hw.
    repeat (match type of Hw with
            | In _ (if ?b then _ else _) => destruct b
            end); simpl in *; tauto.
Qed.

(** X8. A rule whose conditions are all of kinds that [_check_condition]
    does not know is satisfied by every set of entities. *)
Theorem X8_unknown_condition_kinds_are_satisfied :
  forall rule entities,
    forallb (fun c => unknown_kind c.1) (Validation.conditions rule) = true ->
    rule_violated rule entities = false.
Proof.
  intros rule entities H. unfold rule_violated, Validation.evaluate.
  destruct (check_all_unknown (Validation.name rule) _ entities H) as [e ->].
  reflexivity.
Qed.

(** X8 at a rule on the body mass index, a kind the code does not know. *)
Lemma X8_bmi_rule_witness :
  forallb (fun c => unknown_kind c.1) (Validation.conditions bmi_rule) = true
  /\ rule_violated bmi_rule knee_entities = false.
Proof.
  split; [reflexivity|].
  apply (X8_unknown_condition_kinds_are_satisfied bmi_rule knee_entities).
  reflexivity.
Defined.

(** X9. [add_custom_rule], for a condition text that decodes to an
    object, appends the rule and answers [True] (and leaves the agent as it
    is and answers [False] when the text does not decode). When the names of the rules were pairwise distinct and the new
    name is not among them, the agent with the new rule still answers
    [is_valid = False] exactly when a violated rule, old or new, has a
    critical id. *)
Theorem X9_custom_rule_keeps_the_validity_criterion :
  forall agent rule_id name conditions action priority entities clauses,
    NoDup (map Validation.name (Validation.rules agent)) ->
    ~ In name (map Validation.name (Validation.rules agent)) ->
    let rule :=
      {| Validation.rule_id := rule_id; Validation.name := name;
         Validation.conditions := conditions; Validation.action := action;
         Validation.priority := priority |} in
    let added :=
      Validation.add_custom_rule agent rule_id name (Some conditions) action
        priority in
    added.2 = true
    /\ Validation.rules added.1 = Validation.rules agent ++ [rule]
    /\ Validation.add_custom_rule agent rule_id name None action priority
       = (agent, false)
    /\ (Validation.is_valid (Validation.validate_claim added.1 entities clauses)
        = false
        <-> exists r, In r (Validation.rules agent ++ [rule])
                      /\ rule_violated r entities = true
                      /\ Validation.is_critical_id (Validation.rule_id r) = true).
Proof.
  intros agent rule_id name conditions action priority entities clauses
         Hnd Hfresh rule added. subst added rule. simpl.
  split; [done|]. split; [done|]. split; [done|].
  apply (validate_claim_invalid_iff
           {| Validation.rules := Validation.rules agent ++ [_] |}
           entities clauses).
  simpl. rewrite map_app. simpl. apply NoDup_app. split; [done|]. split.
  - intros x Hx [->|[]]%list_elem_of_In. apply Hfresh. by apply list_elem_of_In.
  - apply NoDup_singleton.
Qed.

(** X9 at the new agent and the rule on the body mass index. *)
Lemma X9_bmi_rule_witness :
  let added :=
    Validation.add_custom_rule Validation.new_agent "bmi_limit"
      "Body Mass Index" (Some [("max_bmi", Validation.CInt 30)]) "check_bmi" 4 in
  length (Validation.rules added.1) = 8
  /\ (Validation.is_valid (Validation.validate_claim added.1 knee_entities [])
      = false
      <-> exists r, In r (Validation.default_rules ++ [bmi_rule])
                    /\ rule_violated r knee_entities = true
                    /\ Validation.is_critical_id (Validation.rule_id r) = true).
Proof.
  split; [reflexivity|].
  apply (X9_custom_rule_keeps_the_validity_criterion Validation.new_agent
           "bmi_limit" "Body Mass Index" [("max_bmi", Validation.CInt 30)]
           "check_bmi" 4 knee_entities []).
  - apply default_rules_names_distinct.
  - vm_compute. intros H.
    repeat (destruct H as [H|H]; [discriminate H|]). exact H.
Defined.

(** ** Counting into a dict *)

Section Counting.
Import PyList PyCount.

Lemma oget_oset_eq {V : Type} (k : string) (v : V) (d : odict string V) :
  oget String.eqb k (oset String.eqb k v d) = Some v.
Proof.
  induction d as [|[k' v'] d IH]; simpl.
  - by rewrite String.eqb_refl.
  - destruct (String.eqb k k') eqn:E; simpl.
    + by rewrite String.eqb_refl.
    + by rewrite E.
Qed.

Lemma oget_oset_ne {V : Type} (k k' : string) (v : V) (d : odict string V) :
  k <> k' ->
  oget String.eqb k' (oset String.eqb k v d) = oget String.eqb k' d.
Proof.
  intros Hne. induction d as [|[k0 v0] d IH]; simpl.
  - apply String.eqb_neq in Hne. rewrite String.eqb_sym in Hne. by rewrite Hne.
  - destruct (String.eqb k k0) eqn:E; simpl.
    + apply String.eqb_eq in E as <-.
      apply String.eqb_neq in Hne. rewrite String.eqb_sym in Hne. by rewrite Hne.
    + by rewrite IH.
Qed.

Lemma oset_keys {V : Type} (k : string) (v : V) (d : odict string V) :
  map fst (oset String.eqb k v d)
  = if existsb (String.eqb k) (map fst d) then map fst d else map fst d ++ [k].
Proof.
  induction d as [|[k' v'] d IH]; simpl; [done|].
  destruct (String.eqb k k') eqn:E; simpl.
  - by apply String.eqb_eq in E as <-.
  - rewrite IH. by destruct (existsb _ _).
Qed.

Lemma oset_keys_NoDup {V : Type} (k : string) (v : V) (d : odict string V) :
  NoDup (map fst d) -> NoDup (map fst (oset String.eqb k v d)).
Proof.
  intros Hnd. rewrite oset_keys.
  destruct (existsb _ _) eqn:E; [done|].
  apply NoDup_app. split; [done|]. split; [|apply NoDup_singleton].
  intros x Hx ->%list_elem_of_singleton.
  assert (existsb (String.eqb k) (map fst d) = true) as Ht; [|congruence].
  apply existsb_exists. exists k. split; [by apply list_elem_of_In|].
  apply String.eqb_refl.
Qed.

Lemma incr_get (d : odict string nat) (k k' : string) :
  default 0 (oget String.eqb k' (incr d k))
  = default 0 (oget String.eqb k' d) + (if String.eqb k k' then 1 else 0).
Proof.
  unfold incr. destruct (String.eqb k k') eqn:E.
  - apply String.eqb_eq in E as <-. by rewrite oget_oset_eq.
  - apply String.eqb_neq in E. rewrite oget_oset_ne by done. simpl. lia.
Qed.

Lemma incr_total (d : odict string nat) (k : string) :
  total (incr d k) = S (total d).
Proof.
  unfold incr, total, ovalues.
  induction d as [|[k' v'] d IH]; simpl; [done|].
  destruct (String.eqb k k'); simpl; [lia|]. rewrite IH. lia.
Qed.

Lemma incr_positive (d : odict string nat) (k : string) :
  Forall (fun p => 0 < p.2) d -> Forall (fun p => 0 < p.2) (incr d k).
Proof.
  unfold incr. induction d as [|[k' v'] d IH]; simpl; intros H.
  - constructor; [simpl; lia|done].
  - apply Forall_cons in H as [H1 H2].
    destruct (String.eqb k k'); constructor; simpl in *; try lia; try done.
    by apply IH.
Qed.

Lemma fold_incr_spec (keys : list string) (d : odict string nat) :
  let r := foldl incr d keys in
  (forall k, default 0 (oget String.eqb k r)
             = default 0 (oget String.eqb k d)
               + length (List.filter (fun x => String.eqb x k) keys))
  /\ total r = total d + length keys
  /\ (NoDup (map fst d) -> NoDup (map fst r))
  /\ (Forall (fun p => 0 < p.2) d -> Forall (fun p => 0 < p.2) r).
Proof.
  revert d. induction keys as [|x keys IH]; intros d; simpl.
  - repeat split; intros; try done; lia.
  - destruct (IH (incr d x)) as (H1 & H2 & H3 & H4).
    split; [|split; [|split]].
    + intros k. rewrite H1, incr_get. destruct (String.eqb x k); simpl; lia.
    + rewrite H2, incr_total. lia.
    + intros Hnd. apply H3. by apply oset_keys_NoDup.
    + intros Hp. by apply H4, incr_positive.
Qed.

Lemma count_by_fold {A : Type} (key : A -> string) (l : list A)
    (d : odict string nat) :
  foldl (fun d x => incr d (key x)) d l = foldl incr d (map key l).
Proof. revert d. induction l as [|x l IH]; intros d; simpl; [done|apply IH]. Qed.

Lemma filter_map_length {A B : Type} (f : A -> B) (p : B -> bool) (l : list A) :
  length (List.filter p (map f l)) = length (List.filter (fun x => p (f x)) l).
Proof.
  induction l as [|x l IH]; simpl; [done|].
  destruct (p (f x)); simpl; by rewrite IH.
Qed.

Lemma count_by_spec {A : Type} (key : A -> string) (l : list A) :
  (forall k, default 0 (oget String.eqb k (count_by key l))
             = length (List.filter (fun x => String.eqb (key x) k) l))
  /\ total (count_by key l) = length l
  /\ NoDup (map fst (count_by key l))
  /\ Forall (fun p => 0 < p.2) (count_by key l).
Proof.
  unfold count_by. rewrite count_by_fold.
  destruct (fold_incr_spec (map key l) []) as (H1 & H2 & H3 & H4).
  split; [|split; [|split]].
  - intros k. rewrite H1. simpl. apply filter_map_length.
  - rewrite H2. simpl. apply length_map.
  - apply H3. constructor.
  - apply H4. constructor.
Qed.

End Counting.

(** ** The mapping agent: links, audit log and reports *)

Section MappingReportsProofs.
Import Schemas Mapping MappingReports.
Local Open Scope Q_scope.

Lemma analyze_relationship_spec clause dr :
  let r := _analyze_clause_relationship clause dr in
  In r.1.1 relation_types
  /\ (0 <= relevance_score clause <= 1 -> 0 <= r.1.2 <= 1)
  /\ (In (PyStr.lower (Decision.decision dr)) ["approved"; "rejected"]
      -> r.1.1 <> "references")
  /\ (~ In (PyStr.lower (Decision.decision dr)) ["approved"; "rejected"]
      -> r.1.1 <> "supports" /\ r.1.1 <> "contradicts").
Proof.
  unfold _analyze_clause_relationship, relation_types.
  set (sc := PyStr.count_in supports_keywords _).
  set (cc := PyStr.count_in contradicts_keywords _).
  set (vc := PyStr.count_in validates_keywords _).
  assert (0 <= relevance_score clause <= 1 ->
          0 <= PyNum.min_one (relevance_score clause + (2 # 10)) <= 1) as Hm.
  { intros [H0 H1]. split; [|apply min_one_le].
    unfold PyNum.min_one. destruct (Qle_bool 1 _); [done|].
    apply Qle_trans with (relevance_score clause); [done|].
    rewrite <- (Qplus_0_r (relevance_score clause)) at 1.
    apply Qplus_le_r. done. }
  assert (0 <= relevance_score clause <= 1 ->
          0 <= relevance_score clause * (8 # 10) <= 1) as Hr.
  { intros [H0 H1]. split.
    - apply Qmult_le_0_compat; done.
    - apply Qle_trans with (1 * (8 # 10)); [|done].
      apply Qmult_le_compat_r; done. }
  destruct (String.eqb (PyStr.lower (Decision.decision dr)) "approved") eqn:Ea;
    [|destruct (String.eqb (PyStr.lower (Decision.decision dr)) "rejected") eqn:Er].
  - apply String.eqb_eq in Ea.
    destruct (cc <? sc)%nat; [|destruct (sc <? cc)%nat]; simpl;
      (split; [tauto|]); (split; [tauto|]);
      (split; [discriminate|]); rewrite Ea; intros H; exfalso; apply H; tauto.
  - apply String.eqb_eq in Er.
    destruct (sc <? cc)%nat; [|destruct (cc <? sc)%nat]; simpl;
      (split; [tauto|]); (split; [tauto|]);
      (split; [discriminate|]); rewrite Er; intros H; exfalso; apply H; tauto.
  - apply String.eqb_neq in Ea, Er.
    destruct (0 <? vc)%nat; simpl;
      (split; [tauto|]); (split; [tauto|]);
      (split; [intros [H|[H|[]]]; congruence|]); intros _; split; discriminate.
Qed.

Lemma create_links_from_clauses now did dr cs links next :
  Forall (fun l => exists k c,
            In c cs /\ l = _create_traceability_link now k did c dr)
         (create_links now did dr cs links next).1.1.
Proof.
  revert links next. induction cs as [|c cs IH]; intros links next; simpl.
  - constructor.
  - specialize (IH (PyList.oset Nat.eqb next
                      (_create_traceability_link now next did c dr) links)
                   (S next)).
    destruct (create_links now did dr cs _ (S next)) as [[sl links'] next'].
    simpl in *. constructor.
    + exists next, c. split; [by left|done].
    + eapply Forall_impl; [exact IH|].
      intros l (k & c' & Hc & ->). exists k, c'. split; [by right|done].
Qed.

Lemma oget_oset_nat {V : Type} (k : nat) (v : V) (d : PyList.odict nat V) :
  PyList.oget Nat.eqb k (PyList.oset Nat.eqb k v d) = Some v.
Proof.
  induction d as [|[k' v'] d IH]; simpl.
  - by rewrite Nat.eqb_refl.
  - destruct (Nat.eqb k k') eqn:E; simpl.
    + by rewrite Nat.eqb_refl.
    + by rewrite E.
Qed.

Lemma last_n_length_gen {A : Type} (n : Z) (l : list A) :
  (0 < n < Z.of_nat (length l))%Z ->
  Z.of_nat (length (PyList.last_n n l)) = n.
Proof.
  intros H. unfold PyList.last_n.
  destruct (0 <? n)%Z eqn:E; [|apply Z.ltb_ge in E; lia].
  rewrite length_drop. lia.
Qed.

Lemma log_audit_event_length log entry :
  Z.of_nat (length (_log_audit_event log entry))
  = Z.min 10000 (Z.of_nat (length log) + 1).
Proof.
  unfold _log_audit_event.
  destruct (10000 <? Z.of_nat (length (log ++ [entry])))%Z eqn:E.
  - apply Z.ltb_lt in E. rewrite last_n_length_gen by lia.
    rewrite length_app in E. simpl in E. lia.
  - apply Z.ltb_ge in E. rewrite length_app in *. simpl in *. lia.
Qed.

Lemma log_audit_event_last log entry :
  last (_log_audit_event log entry) = Some entry.
Proof.
  unfold _log_audit_event.
  destruct (10000 <? Z.of_nat (length (log ++ [entry])))%Z eqn:E.
  - apply Z.ltb_lt in E. unfold PyList.last_n.
    change (0 <? 10000)%Z with true. cbv iota.
    rewrite drop_app_le by (rewrite length_app in *; simpl in *; lia).
    rewrite last_app. simpl. done.
  - by rewrite last_snoc.
Qed.

Lemma stores_agree_create agent now query entities dr cs path :
  wf agent -> stores_agree agent ->
  stores_agree (create_decision_trace agent now query entities dr cs path).1.
Proof.
  intros (Hl & Ht & _) [Hs Ha]. unfold stores_agree, links_of_traces in *.
  unfold create_decision_trace. cbn [fst traceability_links decision_traces audit_log].
  assert (Forall (fun p : nat * TraceabilityLink => (p.1 < S (S (next_uuid agent)))%nat)
                 (traceability_links agent)) as Hl'
    by (eapply Forall_impl; [exact Hl|]; simpl; intros; lia).
  destruct (create_links_spec now (S (next_uuid agent)) dr cs _ _ Hl')
    as (Hc & _ & _ & _).
  rewrite Hc.
  rewrite oset_fresh
    by (eapply Forall_impl; [exact Ht|]; simpl; intros ? (? & _); done).
  split.
  - unfold PyList.ovalues in *. rewrite !map_app, concat_app, <- Hs. simpl.
    rewrite app_nil_r. f_equal. rewrite map_map. simpl. apply map_id.
  - rewrite log_audit_event_length, length_app. simpl. lia.
Qed.

Lemma reachable_stores_agree agent : reachable agent -> stores_agree agent.
Proof.
  induction 1 as [|agent now query entities dr cs path Hr IH|agent did Hr IH].
  - split; reflexivity.
  - apply stores_agree_create; [by apply reachable_wf|done].
  - exact IH.
Qed.

Lemma ratio_bounds (a b : nat) : (a <= b)%nat -> 0 <= ratio a b <= 1.
Proof.
  intros H. unfold ratio. destruct (0 <? b)%nat eqn:E; [|done].
  apply Nat.ltb_lt in E.
  assert (0 < inject_Z (Z.of_nat b)) as Hb
    by (change 0 with (inject_Z 0); rewrite <- Zlt_Qlt; lia).
  split.
  - apply Qle_shift_div_l; [done|]. rewrite Qmult_0_l.
    change 0 with (inject_Z 0). rewrite <- Zle_Qle. lia.
  - apply Qle_shift_div_r; [done|]. rewrite Qmult_1_l.
    rewrite <- Zle_Qle. lia.
Qed.

Lemma links_indexed agent :
  reachable agent ->
  Forall (fun l => is_Some (clause_index (index agent) !! source_clause_id l))
         (PyList.ovalues (traceability_links agent)).
Proof.
  intros Hr. destruct (reachable_stores_agree _ Hr) as [-> _].
  destruct (reachable_wf _ Hr) as (_ & _ & Hok).
  unfold links_of_traces, PyList.ovalues.
  apply Forall_forall. intros l Hl. apply list_elem_of_In in Hl.
  apply in_concat in Hl as (ls & Hls & Hl).
  apply in_map_iff in Hls as (t & <- & Ht).
  apply in_map_iff in Ht as (p & <- & Hp).
  rewrite Forall_forall in Hok. apply list_elem_of_In in Hp.
  destruct (Hok _ Hp) as (_ & _ & Hf).
  rewrite Forall_forall in Hf. apply list_elem_of_In in Hl.
  by destruct (Hf _ Hl) as (_ & _ & ?).
Qed.

Lemma linked_clauses_spec (idx : gmap string ClauseData)
    (ls : list TraceabilityLink) :
  Forall (fun l => is_Some (idx !! source_clause_id l)) ls ->
  let r :=
    omap (fun link =>
            clause_data ← idx !! source_clause_id link;
            Some {| lc_clause := clause_data;
                    lc_link_details := link_info link |}) ls in
  map lc_link_details r = map link_info ls
  /\ Forall2 (fun lc l => idx !! source_clause_id l = Some (lc_clause lc)) r ls.
Proof.
  induction ls as [|l ls IH]; intros Hf; [split; constructor|].
  apply Forall_cons in Hf as [[cd Hcd] Hf].
  destruct (IH Hf) as [IH1 IH2]. simpl. rewrite Hcd. simpl.
  split; [f_equal; exact IH1|constructor; [exact Hcd|exact IH2]].
Qed.

Lemma export_spec agent now k e :
  wf agent ->
  export_trace_data agent now k = Some e ->
  get_decision_trace agent k = Some (te_trace e)
  /\ trace_id (te_trace e) = k
  /\ map lc_link_details (te_linked_clauses e)
     = map link_info (source_links (te_trace e))
  /\ Forall2 (fun lc l =>
                clause_index (index agent) !! source_clause_id l
                = Some (lc_clause lc))
             (te_linked_clauses e) (source_links (te_trace e)).
Proof.
  intros (_ & Ht & Hok) He. unfold export_trace_data, get_decision_trace in *.
  destruct (PyList.oget Nat.eqb k (decision_traces agent)) as [t|] eqn:E;
    [|discriminate].
  injection He as <-. cbn [te_trace te_linked_clauses].
  apply oget_In in E.
  rewrite Forall_forall in Ht, Hok. apply list_elem_of_In in E.
  destruct (Ht _ E) as (_ & _ & Hid). destruct (Hok _ E) as (_ & _ & Hf).
  simpl in Hid. split; [done|]. split; [done|].
  apply linked_clauses_spec.
  eapply Forall_impl; [exact Hf|]. by intros l (_ & _ & ?).
Qed.

End MappingReportsProofs.

(** X10. Every link of a new trace has one of the four relation types
    supports, contradicts, validates and references, and a strength between
    0 and 1 when the relevance of every clause lies between 0 and 1. For an
    approved or rejected decision no link has the type references; for any
    other decision no link has the type supports or contradicts. *)
Theorem X10_links_have_known_types_and_bounded_strength :
  forall agent now query entities decision_result clauses path,
    Forall (fun c => (0 <= Schemas.relevance_score c <= 1)%Q) clauses ->
    let created :=
      Mapping.create_decision_trace agent now query entities decision_result
        clauses path in
    exists t,
      Mapping.get_decision_trace created.1 created.2 = Some t
      /\ Forall (fun l =>
                   In (Mapping.relationship_type l) relation_types
                   /\ (0 <= Mapping.strength l <= 1)%Q
                   /\ (In (PyStr.lower (Decision.decision decision_result))
                          ["approved"; "rejected"]
                       -> Mapping.relationship_type l <> "references")
                   /\ (~ In (PyStr.lower (Decision.decision decision_result))
                            ["approved"; "rejected"]
                       -> Mapping.relationship_type l <> "supports"
                          /\ Mapping.relationship_type l <> "contradicts"))
                (Mapping.source_links t).
Proof.
  intros agent now query entities dr cs path Hcs created. subst created.
  unfold Mapping.create_decision_trace, Mapping.get_decision_trace.
  cbn [fst snd Mapping.decision_traces]. rewrite oget_oset_nat.
  eexists. split; [reflexivity|]. cbn [Mapping.source_links].
  eapply Forall_impl; [apply create_links_from_clauses|].
  intros l (k & c & Hc & ->).
  rewrite Forall_forall in Hcs. apply list_elem_of_In in Hc.
  specialize (Hcs _ Hc).
  pose proof (analyze_relationship_spec c dr) as H.
  unfold Mapping._create_traceability_link.
  destruct (Mapping._analyze_clause_relationship c dr) as [[ty st] ex].
  simpl in *. destruct H as (H1 & H2 & H3 & H4). auto.
Qed.

(** X10 at the trace of the decision on the knee clause. *)
Lemma X10_knee_witness :
  exists t,
    Mapping.get_decision_trace one_trace_agent 0 = Some t
    /\ Forall (fun l =>
                 In (Mapping.relationship_type l) relation_types
                 /\ (0 <= Mapping.strength l <= 1)%Q
                 /\ (In (PyStr.lower (Decision.decision knee_decision))
                        ["approved"; "rejected"]
                     -> Mapping.relationship_type l <> "references")
                 /\ (~ In (PyStr.lower (Decision.decision knee_decision))
                          ["approved"; "rejected"]
                     -> Mapping.relationship_type l <> "supports"
                        /\ Mapping.relationship_type l <> "contradicts"))
              (Mapping.source_links t).
Proof.
  apply (X10_links_have_known_types_and_bounded_strength Mapping.new_agent 0
           "knee surgery, 46" knee_entities knee_decision [knee_clause] []).
  constructor; [|constructor]. split; vm_compute; discriminate.
Defined.

(** X11. In the statistics of the mapping agent the counts of
    [link_type_distribution] add up to [total_links]; every relation type
    has one entry at most, and its count is the number of stored links of
    that type. *)
Theorem X11_link_type_distribution_counts_the_links :
  forall agent,
    let stats := MappingReports.get_mapping_statistics agent in
    PyCount.total (MappingReports.link_type_distribution stats)
    = MappingReports.total_links stats
    /\ NoDup (map fst (MappingReports.link_type_distribution stats))
    /\ Forall (fun p => 0 < p.2) (MappingReports.link_type_distribution stats)
    /\ forall ty,
         default 0 (PyList.oget String.eqb ty
                      (MappingReports.link_type_distribution stats))
         = length (List.filter
                     (fun l => String.eqb (Mapping.relationship_type l) ty)
                     (PyList.ovalues (Mapping.traceability_links agent))).
Proof.
  intros agent stats. subst stats.
  unfold MappingReports.get_mapping_statistics,
    MappingReports._get_link_type_distribution.
  cbn [MappingReports.link_type_distribution MappingReports.total_links].
  destruct (count_by_spec Mapping.relationship_type
              (PyList.ovalues (Mapping.traceability_links agent)))
    as (H1 & H2 & H3 & H4).
  split; [|split; [|split]]; try done.
  rewrite H2. unfold PyList.ovalues. apply length_map.
Qed.

(** X12. In every state that the calls of the agent reach, the stored links
    are the links of the stored traces, trace by trace, so [total_links] is
    the number of links of all traces; [audit_events] is [total_traces],
    bounded by 10000; and both coverage ratios lie between 0 and 1. *)
Theorem X12_statistics_of_reachable_states :
  forall agent,
    reachable agent ->
    let stats := MappingReports.get_mapping_statistics agent in
    let coverage := MappingReports._calculate_traceability_coverage agent in
    PyList.ovalues (Mapping.traceability_links agent) = links_of_traces agent
    /\ MappingReports.total_links stats = length (links_of_traces agent)
    /\ Z.of_nat (MappingReports.audit_events stats)
       = Z.min 10000 (Z.of_nat (MappingReports.total_traces stats))
    /\ (0 <= MappingReports.decision_coverage coverage <= 1)%Q
    /\ (0 <= MappingReports.clause_coverage coverage <= 1)%Q.
Proof.
  intros agent Hr stats coverage. subst stats coverage.
  destruct (reachable_stores_agree _ Hr) as [Hs Ha].
  split; [done|]. split; [|split; [done|split]].
  - simpl. rewrite <- Hs. unfold PyList.ovalues. by rewrite length_map.
  - apply ratio_bounds. etransitivity; [apply List.filter_length_le|].
    unfold PyList.ovalues. by rewrite length_map.
  - apply ratio_bounds. cbn zeta.
    rewrite <- (size_dom (D := gset string)
                  (Mapping.clause_index (Mapping.index agent))).
    apply subseteq_size. intros cid Hc.
    apply elem_of_list_to_set in Hc. apply list_elem_of_In in Hc.
    apply in_map_iff in Hc as (l & <- & Hl).
    apply elem_of_dom. pose proof (links_indexed _ Hr) as Hf.
    rewrite Forall_forall in Hf. apply Hf. by apply list_elem_of_In.
Qed.

(** X12 at the agent with one trace. *)
Lemma X12_one_trace_witness :
  let stats := MappingReports.get_mapping_statistics one_trace_agent in
  let coverage :=
    MappingReports._calculate_traceability_coverage one_trace_agent in
  PyList.ovalues (Mapping.traceability_links one_trace_agent)
  = links_of_traces one_trace_agent
  /\ MappingReports.total_links stats = length (links_of_traces one_trace_agent)
  /\ Z.of_nat (MappingReports.audit_events stats)
     = Z.min 10000 (Z.of_nat (MappingReports.total_traces stats))
  /\ (0 <= MappingReports.decision_coverage coverage <= 1)%Q
  /\ (0 <= MappingReports.clause_coverage coverage <= 1)%Q.
Proof.
  apply (X12_statistics_of_reachable_states one_trace_agent).
  exact (reach_create Mapping.new_agent 0 "knee surgery, 46" knee_entities
           knee_decision [knee_clause] [] reach_new).
Defined.

(** X13. In every reachable state the export of a trace drops no link: it
    holds the trace stored under the id, and its [linked_clauses] are, link
    by link, the index entries of the linked clauses with the details of
    the link. *)
Theorem X13_export_keeps_every_link :
  forall agent now trace_id e,
    reachable agent ->
    MappingReports.export_trace_data agent now trace_id = Some e ->
    Mapping.get_decision_trace agent trace_id = Some (MappingReports.te_trace e)
    /\ Mapping.trace_id (MappingReports.te_trace e) = trace_id
    /\ map MappingReports.lc_link_details (MappingReports.te_linked_clauses e)
       = map Mapping.link_info
             (Mapping.source_links (MappingReports.te_trace e))
    /\ Forall2 (fun lc l =>
                  Mapping.clause_index (Mapping.index agent)
                    !! Mapping.source_clause_id l
                  = Some (MappingReports.lc_clause lc))
               (MappingReports.te_linked_clauses e)
               (Mapping.source_links (MappingReports.te_trace e)).
Proof.
  intros agent now k e Hr He. apply (export_spec agent now k e); [|done].
  by apply reachable_wf.
Qed.

(** X13 at the agent with one trace. *)
Lemma X13_one_trace_witness :
  match MappingReports.export_trace_data one_trace_agent 5 0 with
  | None => False
  | Some e =>
      Mapping.get_decision_trace one_trace_agent 0
      = Some (MappingReports.te_trace e)
      /\ Mapping.trace_id (MappingReports.te_trace e) = 0
      /\ map MappingReports.lc_link_details (MappingReports.te_linked_clauses e)
         = map Mapping.link_info
               (Mapping.source_links (MappingReports.te_trace e))
      /\ Forall2 (fun lc l =>
                    Mapping.clause_index (Mapping.index one_trace_agent)
                      !! Mapping.source_clause_id l
                    = Some (MappingReports.lc_clause lc))
                 (MappingReports.te_linked_clauses e)
                 (Mapping.source_links (MappingReports.te_trace e))
  end.
Proof.
  destruct (MappingReports.export_trace_data one_trace_agent 5 0) as [e|] eqn:E.
  - apply (X13_export_keeps_every_link one_trace_agent 5 0 e); [|exact E].
    exact (reach_create Mapping.new_agent 0 "knee surgery, 46" knee_entities
             knee_decision [knee_clause] [] reach_new).
  - vm_compute in E. discriminate E.
Defined.

(** X14. Every call of [create_decision_trace] logs one audit entry, the
    last of the log, with the ids of the trace and of the decision, the
    decision and the number of clauses; the log never holds more than
    10000 entries. *)
Theorem X14_audit_log_is_bounded :
  forall agent now query entities decision_result clauses path,
    let created :=
      Mapping.create_decision_trace agent now query entities decision_result
        clauses path in
    last (Mapping.audit_log created.1)
    = Some (trace_created_entry now created.2 (S created.2) decision_result
              clauses)
    /\ Z.of_nat (length (Mapping.audit_log created.1))
       = Z.min 10000 (Z.of_nat (length (Mapping.audit_log agent)) + 1).
Proof.
  intros agent now query entities dr cs path created. subst created.
  unfold Mapping.create_decision_trace.
  cbn [fst snd Mapping.audit_log]. split.
  - apply log_audit_event_last.
  - apply log_audit_event_length.
Qed.

(** ** The vector store and the evidence *)

Section StoreProofs.
Import Schemas Retrieval.
Local Open Scope Q_scope.

Lemma oget_In_str {V : Type} (k : string) (v : V) (d : PyList.odict string V) :
  NoDup (map fst d) -> In (k, v) d -> PyList.oget String.eqb k d = Some v.
Proof.
  induction d as [|[k' v'] d IH]; simpl; intros Hnd Hin; [done|].
  apply NoDup_cons in Hnd as [Hk Hnd].
  destruct Hin as [[= -> ->]|Hin].
  - by rewrite String.eqb_refl.
  - destruct (String.eqb k k') eqn:E; [|by apply IH].
    apply String.eqb_eq in E as ->. exfalso. apply Hk.
    apply list_elem_of_In, in_map_iff. by exists (k', v).
Qed.

Lemma oget_Some_In_str {V : Type} (k : string) (v : V)
    (d : PyList.odict string V) :
  PyList.oget String.eqb k d = Some v -> In (k, v) d.
Proof.
  induction d as [|[k' v'] d IH]; simpl; [done|].
  destruct (String.eqb k k') eqn:E.
  - apply String.eqb_eq in E as ->. intros [= ->]. by left.
  - intros H. right. by apply IH.
Qed.

Lemma oset_values {V : Type} (P : string * V -> Prop) (k : string) (v : V)
    (d : PyList.odict string V) :
  P (k, v) -> Forall P d -> Forall P (PyList.oset String.eqb k v d).
Proof.
  intros Hk. induction d as [|[k' v'] d IH]; simpl; intros Hd.
  - by constructor.
  - apply Forall_cons in Hd as [H1 H2].
    destruct (String.eqb k k'); constructor; try done. by apply IH.
Qed.

Lemma store_ok_add store chunk :
  store_ok store -> store_ok (add_document store chunk).1.
Proof.
  intros [Hnd Hk]. split; simpl.
  - by apply oset_keys_NoDup.
  - by apply oset_values.
Qed.

Lemma reachable_store_ok store : reachable_store store -> store_ok store.
Proof.
  induction 1 as [|store chunk _ IH].
  - split; constructor.
  - by apply store_ok_add.
Qed.

Lemma add_documents_fold store chunks :
  (add_documents store chunks).1
  = foldl (fun st chunk => (add_document st chunk).1) store chunks.
Proof.
  unfold add_documents.
  assert (forall n,
            (let '(store0, success_count) :=
               foldl (fun '(st, n) chunk =>
                        let '(st', ok) := add_document st chunk in
                        (st', if ok then S n else n))
                     (store, n) chunks in
             (store0, (success_count =? length chunks)%nat)).1
            = foldl (fun st chunk => (add_document st chunk).1) store chunks)
    as H; [|apply H].
  revert store. induction chunks as [|c chunks IH]; intros store n; [done|].
  simpl. specialize (IH (add_document store c).1 (S n)). simpl in IH.
  destruct (foldl _ _ chunks) as [s k] eqn:E. simpl in *. exact IH.
Qed.

Lemma reachable_add_documents store chunks :
  reachable_store store -> reachable_store (add_documents store chunks).1.
Proof.
  rewrite add_documents_fold. revert store.
  induction chunks as [|c chunks IH]; intros store Hr; [done|].
  simpl. apply IH. by constructor.
Qed.

Section Evidence.
Variable dense_similarity : string -> string -> Q.
Variable sparse_similarity : string -> string -> Q.

Lemma slice_to_is_take {A : Type} (n : Z) (l : list A) :
  exists m, PyList.slice_to n l = take m l.
Proof. unfold PyList.slice_to. destruct (0 <=? n)%Z; by eexists. Qed.

Lemma similarity_search_keys store query config :
  let found :=
    similarity_search dense_similarity sparse_similarity store query config in
  (NoDup (map fst (documents store)) -> NoDup (map fst found))
  /\ Forall (fun p => In p.1 (map fst (documents store))) found
  /\ (length found <= length (documents store))%nat.
Proof.
  intros found. subst found. unfold similarity_search.
  set (sims := omap (M := list) _ (documents store)).
  assert (map fst sims `sublist_of` map fst (documents store)) as Hsub.
  { subst sims. induction (documents store) as [|[doc_id chunk] d IH]; simpl.
    - constructor.
    - destruct (Qle_bool _ _); simpl.
      + by apply sublist_skip.
      + by apply sublist_cons. }
  destruct (slice_to_is_take (max_results config)
              (PyList.sort_desc (pair_gt) sims)) as [m ->].
  split; [|split].
  - intros Hnd. rewrite <- List.firstn_map.
    eapply sublist_NoDup; [|apply sublist_take].
    rewrite (sort_desc_perm pair_gt sims). by eapply sublist_NoDup.
  - apply Forall_take. apply (sort_desc_Forall pair_gt).
    apply Forall_forall. intros p Hp.
    apply list_elem_of_In. eapply elem_of_sublist; [|exact Hsub].
    apply list_elem_of_In, in_map. by apply list_elem_of_In.
  - rewrite length_take, (sort_desc_length pair_gt).
    apply sublist_length in Hsub. rewrite !length_map in Hsub. lia.
Qed.

Lemma to_source_clauses_total store pairs :
  store_ok store ->
  Forall (fun p => In p.1 (map fst (documents store))) pairs ->
  exists clauses,
    to_source_clauses store pairs = Some clauses
    /\ map clause_id clauses = map fst pairs
    /\ Forall (clause_of_store store) clauses.
Proof.
  intros [Hnd Hk]. induction pairs as [|[doc_id score] pairs IH]; intros Hp.
  - exists []. by repeat split.
  - apply Forall_cons in Hp as [Hd Hp]. destruct (IH Hp) as (cs & Hcs & Hids & Hf).
    simpl in Hd. apply in_map_iff in Hd as ([k chunk] & Hfst & Hin).
    simpl in Hfst. subst k.
    pose proof (oget_In_str _ _ _ Hnd Hin) as Hget.
    rewrite Forall_forall in Hk. apply list_elem_of_In in Hin.
    pose proof (Hk _ Hin) as Hid. simpl in Hid.
    unfold to_source_clauses in *. cbn [mapM]. rewrite Hget. simpl.
    rewrite Hcs. simpl. eexists. split; [reflexivity|].
    simpl. split; [by rewrite Hids, Hid|].
    constructor; [|done]. exists chunk. simpl. by rewrite <- Hid.
Qed.

Lemma clause_of_store_with_score store c s :
  clause_of_store store c -> clause_of_store store (with_score c s).
Proof. intros (chunk & H). by exists chunk. Qed.

Lemma retrieve_from_store config store query :
  store_ok store ->
  let evidence :=
    retrieve_relevant_documents dense_similarity sparse_similarity config
      store query in
  Forall (clause_of_store store) evidence
  /\ NoDup (map clause_id evidence)
  /\ (length evidence <= length (documents store))%nat.
Proof.
  intros Hok evidence. subst evidence. unfold retrieve_relevant_documents.
  set (q := query +:+ " " +:+ _).
  destruct (similarity_search_keys store q config) as (Hnd & Hin & Hlen).
  destruct (to_source_clauses_total store _ Hok Hin) as (cs & -> & Hids & Hf).
  assert (length cs = length (similarity_search dense_similarity
                                sparse_similarity store q config)) as Hl
    by (rewrite <- (length_map clause_id), Hids; apply length_map).
  assert (NoDup (map clause_id cs)) as Hcs
    by (rewrite Hids; apply Hnd, Hok).
  destruct (rerank_results config); [|by rewrite Hl].
  unfold _rerank_results.
  split; [|split].
  - apply (sort_desc_Forall score_gt).
    apply (List.Forall_map _ (clause_of_store store)).
    eapply Forall_impl; [exact Hf|]. intros c Hc.
    by apply clause_of_store_with_score.
  - rewrite (sort_desc_perm score_gt). rewrite map_map. simpl. exact Hcs.
  - rewrite (sort_desc_length score_gt), length_map. lia.
Qed.

End Evidence.

Lemma filter_filter_count (w : string) (p : string -> bool) (l : list string) :
  p w = true ->
  length (List.filter (fun x => String.eqb x w) (List.filter p l))
  = length (List.filter (fun x => String.eqb x w) l).
Proof.
  intros Hw. induction l as [|x l IH]; simpl; [done|].
  destruct (String.eqb x w) eqn:E.
  - apply String.eqb_eq in E as ->. rewrite Hw. simpl.
    rewrite String.eqb_refl. simpl. by rewrite IH.
  - destruct (p x); simpl; [rewrite E|]; exact IH.
Qed.

Lemma filter_nonempty_In {A : Type} (p : A -> bool) (l : list A) :
  (0 < length (List.filter p l))%nat -> exists x, In x l /\ p x = true.
Proof.
  destruct (List.filter p l) as [|x l'] eqn:E; simpl; [lia|]. intros _.
  assert (In x (List.filter p l)) as H by (rewrite E; by left).
  apply filter_In in H. by exists x.
Qed.

Lemma sparse_embedding_spec text w tf :
  let words := PyStr.split (PyStr.lower text) in
  In (w, tf) (SparseEmbedding._generate_sparse_embedding text) ->
  (2 < String.length w)%nat /\ In w words
  /\ tf = inject_Z (Z.of_nat (count_word w words))
          / inject_Z (Z.of_nat (length words))
  /\ 0 < tf <= 1.
Proof.
  intros words. unfold SparseEmbedding._generate_sparse_embedding.
  fold words.
  set (long := List.filter (fun word => (2 <? String.length word)%nat) words).
  destruct (count_by_spec id long) as (Hget & _ & Hnd & Hpos).
  intros Hin. apply in_map_iff in Hin as ([w' freq] & Heq & Hin).
  injection Heq as -> <-.
  pose proof (oget_In_str _ _ _ Hnd Hin) as Hw.
  specialize (Hget w). rewrite Hw in Hget. simpl in Hget.
  rewrite Forall_forall in Hpos. apply list_elem_of_In in Hin.
  pose proof (Hpos _ Hin) as Hf. simpl in Hf.
  assert (In w long) as Hl.
  { rewrite Hget in Hf. apply filter_nonempty_In in Hf as (x & Hx & E).
    by apply String.eqb_eq in E as <-. }
  subst long. apply filter_In in Hl as [Hwords Hlen].
  assert (freq = count_word w words) as Hc.
  { rewrite Hget. unfold count_word.
    by apply (filter_filter_count w (fun word => (2 <? String.length word)%nat)). }
  assert (count_word w words <= length words)%nat as Hle
    by apply List.filter_length_le.
  apply Nat.ltb_lt in Hlen. split; [done|]. split; [done|].
  split; [by rewrite Hc|]. rewrite Hc in *.
  assert (0 < inject_Z (Z.of_nat (length words))) as Hb
    by (change 0 with (inject_Z 0); rewrite <- Zlt_Qlt; lia).
  split.
  - apply Qlt_shift_div_l; [done|]. rewrite Qmult_0_l.
    change 0 with (inject_Z 0). rewrite <- Zlt_Qlt. lia.
  - apply Qle_shift_div_r; [done|]. rewrite Qmult_1_l.
    rewrite <- Zle_Qle. lia.
Qed.

Lemma sparse_embedding_keys text w :
  let words := PyStr.split (PyStr.lower text) in
  In w (map fst (SparseEmbedding._generate_sparse_embedding text))
  <-> In w words /\ (2 < String.length w)%nat.
Proof.
  intros words. split.
  - intros Hin. apply in_map_iff in Hin as ([w' tf] & <- & Hin).
    destruct (sparse_embedding_spec text w' tf Hin) as (H1 & H2 & _). done.
  - intros [Hw Hlen]. unfold SparseEmbedding._generate_sparse_embedding.
    fold words. rewrite map_map.
    set (long := List.filter (fun word => (2 <? String.length word)%nat) words).
    destruct (count_by_spec id long) as (Hget & _ & _ & _).
    assert (In w long) as Hl
      by (apply filter_In; split; [done|by apply Nat.ltb_lt]).
    specialize (Hget w).
    destruct (PyList.oget String.eqb w (PyCount.count_by id long)) as [freq|] eqn:E.
    + apply oget_Some_In_str in E. apply in_map_iff.
      by exists (w, freq).
    + exfalso. simpl in Hget.
      assert (In w (List.filter (fun x => String.eqb (id x) w) long)) as Hf
        by (apply filter_In; split; [done|apply String.eqb_refl]).
      destruct (List.filter _ long); [destruct Hf|simpl in Hget; lia].
Qed.

End StoreProofs.

(** X15. [add_document] stores the chunk under its id and answers [True]:
    a lookup of the id gives the chunk, every other id keeps its chunk,
    and a chunk whose id is already in the store replaces the stored one
    without adding an entry. *)
Theorem X15_add_document_stores_under_the_chunk_id :
  forall store chunk,
    let added := Retrieval.add_document store chunk in
    let docs := Retrieval.documents added.1 in
    added.2 = true
    /\ PyList.oget String.eqb (Schemas.chunk_id chunk) docs = Some chunk
    /\ (forall id, id <> Schemas.chunk_id chunk ->
                   PyList.oget String.eqb id docs
                   = PyList.oget String.eqb id (Retrieval.documents store))
    /\ map fst docs
       = if existsb (String.eqb (Schemas.chunk_id chunk))
                    (map fst (Retrieval.documents store))
         then map fst (Retrieval.documents store)
         else map fst (Retrieval.documents store) ++ [Schemas.chunk_id chunk].
Proof.
  intros store chunk added docs. subst added docs. simpl.
  split; [done|]. split; [apply oget_oset_eq|]. split.
  - intros id Hid. by apply oget_oset_ne.
  - apply oset_keys.
Qed.

(** X16. For a store filled by [add_document], every clause of the evidence
    is the rendering of a chunk that the store holds under the id of the
    clause (same text, same document, the paragraph as page), no chunk
    gives two clauses, and the evidence is no longer than the store; the
    evidence of the empty store is empty. *)
Theorem X16_evidence_comes_from_the_store :
  forall dense_similarity sparse_similarity config store query,
    reachable_store store ->
    let evidence :=
      Retrieval.retrieve_relevant_documents dense_similarity sparse_similarity
        config store query in
    Forall (clause_of_store store) evidence
    /\ NoDup (map Schemas.clause_id evidence)
    /\ length evidence <= length (Retrieval.documents store)
    /\ Retrieval.retrieve_relevant_documents dense_similarity sparse_similarity
         config Retrieval.empty_store query = [].
Proof.
  intros dense sparse config store query Hr evidence. subst evidence.
  destruct (retrieve_from_store dense sparse config store query
              (reachable_store_ok _ Hr)) as (H1 & H2 & H3).
  split; [done|]. split; [done|]. split; [done|].
  destruct (retrieve_from_store dense sparse config Retrieval.empty_store query
              (reachable_store_ok _ sreach_empty)) as (_ & _ & H).
  destruct (Retrieval.retrieve_relevant_documents _ _ _ Retrieval.empty_store _);
    [done|simpl in H; lia].
Qed.

(** X16 at the store with one chunk. *)
Lemma X16_one_chunk_witness :
  let evidence :=
    Retrieval.retrieve_relevant_documents (fun _ _ => 1%Q) (fun _ _ => 1%Q)
      Retrieval.default_config one_chunk_store "knee surgery" in
  Forall (clause_of_store one_chunk_store) evidence
  /\ NoDup (map Schemas.clause_id evidence)
  /\ length evidence <= length (Retrieval.documents one_chunk_store)
  /\ Retrieval.retrieve_relevant_documents (fun _ _ => 1%Q) (fun _ _ => 1%Q)
       Retrieval.default_config Retrieval.empty_store "knee surgery" = [].
Proof.
  apply (X16_evidence_comes_from_the_store (fun _ _ => 1%Q) (fun _ _ => 1%Q)
           Retrieval.default_config one_chunk_store "knee surgery").
  exact (sreach_add Retrieval.empty_store
           (Chunker._create_chunk "Knee surgery is covered." "policy.pdf" 0 0)
           sreach_empty).
Defined.

(** X17. The sparse embedding of a text has one entry for every word of
    the lower-cased text that is longer than 2 characters, and for no other
    word; the value of a word is the number of its occurrences divided by
    the number of all words, short ones included, so it is greater than 0
    and at most 1. *)
Theorem X17_sparse_embedding_is_the_term_frequency :
  forall text,
    let words := PyStr.split (PyStr.lower text) in
    let embedding := SparseEmbedding._generate_sparse_embedding text in
    NoDup (map fst embedding)
    /\ (forall w, In w (map fst embedding)
                  <-> In w words /\ 2 < String.length w)
    /\ (forall w tf,
          In (w, tf) embedding ->
          tf = (inject_Z (Z.of_nat (count_word w words))
                / inject_Z (Z.of_nat (length words)))%Q
          /\ (0 < tf <= 1)%Q).
Proof.
  intros text words embedding. subst words embedding.
  split; [|split].
  - unfold SparseEmbedding._generate_sparse_embedding. rewrite map_map.
    destruct (count_by_spec id
                (List.filter (fun word => (2 <? String.length word)%nat)
                   (PyStr.split (PyStr.lower text)))) as (_ & _ & Hnd & _).
    erewrite map_ext; [exact Hnd|]. by intros [w f].
  - intros w. apply sparse_embedding_keys.
  - intros w tf Hin.
    destruct (sparse_embedding_spec text w tf Hin) as (_ & _ & H1 & H2). done.
Qed.

(** ** More on the chunker *)

Section ChunkerMore.
Import Schemas Chunker.

Lemma rev_onto_length (s acc : string) :
  String.length (PyStr.rev_onto s acc) = String.length s + String.length acc.
Proof.
  revert acc. induction s as [|c s IH]; intros acc; simpl; [done|].
  rewrite IH. simpl. lia.
Qed.

Lemma lstrip_length (s : string) :
  String.length (PyStr.lstrip s) <= String.length s.
Proof.
  induction s as [|c s IH]; simpl; [done|].
  destruct (PyStr.isspace c); simpl; lia.
Qed.

Lemma strip_length (s : string) :
  String.length (PyStr.strip s) <= String.length s.
Proof.
  unfold PyStr.strip, PyStr.srev. rewrite rev_onto_length. simpl.
  etransitivity; [rewrite Nat.add_0_r; apply lstrip_length|].
  rewrite rev_onto_length. simpl. rewrite Nat.add_0_r. apply lstrip_length.
Qed.

Lemma create_chunk_consistent text source i j :
  chunk_consistent source (_create_chunk text source i j).
Proof. by repeat split. Qed.

Lemma chunk_step_chunks (P : DocumentChunk -> Prop) cfg source i st sentence :
  (forall text j, (nonempty st.2 = true -> text = PyStr.strip st.2) ->
                  nonempty st.2 = true -> P (_create_chunk text source i j)) ->
  Forall P st.1 -> Forall P (chunk_step cfg source i st sentence).1.
Proof.
  destruct st as [chunks current]. simpl. intros Hnew Hc.
  destruct (_ && nonempty current) eqn:E; [|done].
  apply andb_prop in E as [_ E]. simpl.
  destruct (min_chunk_size cfg <=? len current)%Z; [|done].
  apply Forall_app. split; [done|]. constructor; [|constructor].
  by apply Hnew.
Qed.

Lemma fold_chunk_step_consistent cfg source i sentences st :
  Forall (chunk_consistent source) st.1 ->
  Forall (chunk_consistent source)
         (foldl (chunk_step cfg source i) st sentences).1.
Proof.
  revert st. induction sentences as [|s sentences IH]; intros st Hst; [done|].
  simpl. apply IH. apply chunk_step_chunks; [|done].
  intros. apply create_chunk_consistent.
Qed.

Lemma chunk_paragraph_consistent cfg paragraph source i :
  Forall (chunk_consistent source) (_chunk_paragraph cfg paragraph source i).
Proof.
  unfold _chunk_paragraph.
  destruct (len paragraph <=? max_chunk_size cfg)%Z.
  - constructor; [apply create_chunk_consistent|constructor].
  - pose proof (fold_chunk_step_consistent cfg source i
                  (_extract_sentences cfg paragraph) ([], EmptyString)) as H.
    destruct (foldl _ _ _) as [chunks current]. simpl in H.
    specialize (H ltac:(constructor)).
    destruct (_ && _); [|done].
    apply Forall_app. split; [done|].
    constructor; [apply create_chunk_consistent|constructor].
Qed.

Lemma chunk_paragraphs_Forall (P : DocumentChunk -> Prop) cfg source
    paragraphs :
  forall i,
    (forall p j, In p paragraphs -> Forall P (_chunk_paragraph cfg p source j)) ->
    Forall P (chunk_paragraphs cfg source i paragraphs).
Proof.
  induction paragraphs as [|p ps IH]; intros i H; simpl; [constructor|].
  apply Forall_app. split.
  - apply H. by left.
  - apply IH. intros q j Hq. apply H. by right.
Qed.

Lemma optimize_chunks_consistent cfg source chunks :
  Forall (chunk_consistent source) chunks ->
  Forall (chunk_consistent source) (_optimize_chunks cfg chunks).
Proof.
  unfold _optimize_chunks.
  assert (Forall (chunk_consistent source) []) as Hacc by constructor.
  revert Hacc. generalize (@nil DocumentChunk) as acc.
  induction chunks as [|c chunks IH]; intros acc Hacc Hc; [done|].
  apply Forall_cons in Hc as [Hc Hcs]. simpl. apply IH; [|done].
  unfold optimize_step.
  assert (Forall (chunk_consistent source) (acc ++ [c])) as Happ
    by (apply Forall_app; split; [done|by constructor]).
  destruct (len (content c) <? min_chunk_size cfg)%Z; [|done].
  destruct (last acc) as [prev|] eqn:El; [|done].
  destruct (_ <? max_chunk_size cfg)%Z; [|done].
  apply Forall_app. split; [by apply Forall_removelast|].
  constructor; [|constructor].
  apply last_Some in El as [acc' ->].
  apply Forall_app in Hacc as [_ Hp]. apply Forall_cons in Hp as [(Hs & _) _].
  by repeat split.
Qed.

Lemma fold_chunk_step_within cfg source i sentences st :
  overlap_size cfg = 0%Z ->
  Forall (fun s => (len s <= max_chunk_size cfg)%Z) sentences ->
  Forall (within_max cfg) st.1 ->
  (nonempty st.2 = true -> (len st.2 <= max_chunk_size cfg)%Z) ->
  let r := foldl (chunk_step cfg source i) st sentences in
  Forall (within_max cfg) r.1
  /\ (nonempty r.2 = true -> (len r.2 <= max_chunk_size cfg)%Z).
Proof.
  intros Ho. revert st.
  induction sentences as [|s sentences IH]; intros st Hs Hc Hcur; [done|].
  apply Forall_cons in Hs as [Hs Hss]. simpl. apply IH; [done| |].
  - apply chunk_step_chunks; [|done].
    intros text j Ht Hn. rewrite (Ht Hn). unfold within_max. simpl.
    specialize (Hcur Hn). unfold len in *.
    pose proof (strip_length st.2). lia.
  - destruct st as [chunks current]. simpl in *.
    destruct (max_chunk_size cfg <? len _)%Z eqn:E1; simpl.
    + destruct (nonempty current) eqn:E2; simpl.
      * intros _. unfold _add_overlap. rewrite Ho. simpl.
        by destruct (last _).
      * intros _. exact Hs.
    + intros _. apply Z.ltb_ge in E1.
      destruct (nonempty current); [exact E1|exact Hs].
Qed.

Lemma chunk_paragraph_within cfg paragraph source i :
  overlap_size cfg = 0%Z ->
  sentences_fit cfg paragraph ->
  Forall (within_max cfg) (_chunk_paragraph cfg paragraph source i).
Proof.
  intros Ho Hfit. unfold _chunk_paragraph.
  destruct (len paragraph <=? max_chunk_size cfg)%Z eqn:E.
  - apply Z.leb_le in E. constructor; [exact E|constructor].
  - destruct Hfit as [Hp|Hs]; [apply Z.leb_gt in E; lia|].
    pose proof (fold_chunk_step_within cfg source i _ ([], EmptyString) Ho Hs)
      as H.
    destruct (foldl _ _ _) as [chunks current]. simpl in H.
    destruct H as [Hc Hcur]; [constructor|discriminate|].
    destruct (nonempty current) eqn:En; simpl; [|done].
    destruct (min_chunk_size cfg <=? len current)%Z; [|done].
    apply Forall_app. split; [done|]. constructor; [|constructor].
    unfold within_max. simpl. specialize (Hcur eq_refl). unfold len in *.
    pose proof (strip_length current). lia.
Qed.

End ChunkerMore.

(** X18. Every chunk that [create_chunks] returns names the document it
    was cut from, and its [character_count] and [word_count] are those of
    its content, also after the merge pass has lengthened the content. *)
Theorem X18_chunk_metadata_agree_with_the_content :
  forall cfg document_content document_source,
    Forall (chunk_consistent document_source)
           (Chunker.create_chunks cfg document_content document_source).
Proof.
  intros cfg doc source. unfold Chunker.create_chunks.
  apply optimize_chunks_consistent, chunk_paragraphs_Forall.
  intros p j _. apply chunk_paragraph_consistent.
Qed.

(** X19. Without overlap ([overlap_size] 0) no chunk is longer than
    [max_chunk_size], provided that every paragraph is short enough to be
    one chunk or has no sentence longer than [max_chunk_size]. *)
Theorem X19_chunks_within_max_without_overlap :
  forall cfg document_content document_source,
    Chunker.overlap_size cfg = 0%Z ->
    Forall (sentences_fit cfg)
           (Chunker._extract_paragraphs cfg
              (Chunker._preprocess_content document_content)) ->
    Forall (within_max cfg)
           (Chunker.create_chunks cfg document_content document_source).
Proof.
  intros cfg doc source Ho Hfit. unfold Chunker.create_chunks.
  apply optimize_chunks_keeps_max, chunk_paragraphs_Forall.
  intros p j Hp. apply chunk_paragraph_within; [done|].
  rewrite Forall_forall in Hfit. apply Hfit. by apply list_elem_of_In.
Qed.

(** X19 at the text of four sentences and a bound of 40 characters. *)
Lemma X19_four_sentences_witness :
  Forall (within_max small_config)
         (Chunker.create_chunks small_config four_sentences "doc").
Proof.
  apply (X19_chunks_within_max_without_overlap small_config four_sentences
           "doc"); [reflexivity|].
  assert (Chunker._extract_paragraphs small_config
            (Chunker._preprocess_content four_sentences)
          = [four_sentences]) as -> by (vm_compute; reflexivity).
  constructor; [|constructor]. right.
  assert (Chunker._extract_sentences small_config four_sentences
          = ["The policy covers knee surgery"; "Claims need approval first";
             "Bye now friend"]) as -> by (vm_compute; reflexivity).
  repeat constructor; vm_compute; discriminate.
Defined.

(** ** The structured query and the applicable rules *)

Section StructuredQuery.
Import QueryParser.

Lemma part_general (label key : string) (entities : gmap string Py.value) :
  entities !! key = None ->
  match entities !! key with
  | Some v => [label +:+ Py.str v]
  | None => []
  end = [].
Proof. by intros ->. Qed.

Lemma parsed_entities_absent query field :
  pattern_of field = None ->
  entities (parse_query query) !! field = None.
Proof.
  intros Hp. simpl. unfold extract_entities. rewrite extract_entities_fold.
  - unfold pattern_of in Hp.
    destruct (List.find _ _) as [p|]; [discriminate|]. apply lookup_empty.
  - cbn [map fst entity_patterns].
    apply (bool_decide_unpack _). vm_compute. exact I.
Qed.

End StructuredQuery.

(** X20. The structured query is "General inquiry" exactly when the
    entities have none of the keys age, gender, procedure, location and
    policy_duration; the entity amount, which the parser extracts, never
    shows in it. *)
Theorem X20_structured_query_general_inquiry :
  forall entities,
    (QueryParser._build_structured_query entities = "General inquiry"
     <-> Forall (fun key => entities !! key = None) structured_keys)
    /\ (forall v, QueryParser._build_structured_query
                    (<["amount" := v]> entities)
                  = QueryParser._build_structured_query entities).
Proof.
  intros entities. split.
  - unfold QueryParser._build_structured_query, structured_keys.
    rewrite !Forall_cons, Forall_nil.
    destruct (entities !! "age") as [v1|], (entities !! "gender") as [v2|],
      (entities !! "procedure") as [v3|], (entities !! "location") as [v4|],
      (entities !! "policy_duration") as [v5|]; simpl;
      (split;
       [intros H; first [discriminate H|by repeat split]
       |intros (H1 & H2 & H3 & H4 & H5 & _); congruence]).
  - intros v. unfold QueryParser._build_structured_query.
    by rewrite !lookup_insert_ne by done.
Qed.

Section ApplicableRules.
Import Validation ValidationReports.

Lemma applicable_without_condition_entities (entities : gmap string Py.value) :
  Forall (fun key => entities !! key = None)
         ["waiting_period_days"; "covered_procedures"; "excluded_procedures";
          "covered_locations"; "claim_amount"; "requires_pre_authorization"] ->
  map ar_rule_id (get_applicable_rules new_agent entities)
  = if bool_decide (is_Some (entities !! "age")) then ["age_limit"] else [].
Proof.
  intros H.
  apply Forall_cons in H as [H1 H]. apply Forall_cons in H as [H2 H].
  apply Forall_cons in H as [H3 H]. apply Forall_cons in H as [H4 H].
  apply Forall_cons in H as [H5 H]. apply Forall_cons in H as [H6 _].
  unfold get_applicable_rules, new_agent, default_rules.
  cbn [rules List.filter conditions map fst existsb].
  change (condition_entity "min_age") with "age".
  change (condition_entity "max_age") with "age".
  change (condition_entity "waiting_period_days") with "waiting_period_days".
  change (condition_entity "covered_procedures") with "covered_procedures".
  change (condition_entity "excluded_procedures") with "excluded_procedures".
  change (condition_entity "covered_locations") with "covered_locations".
  change (condition_entity "max_claim_amount") with "claim_amount".
  change (condition_entity "requires_pre_authorization")
    with "requires_pre_authorization".
  rewrite H1, H2, H3, H4, H5, H6.
  assert (bool_decide (is_Some (@None Py.value)) = false) as ->
    by (apply bool_decide_eq_false_2; by intros [? ?]).
  cbn [orb]. rewrite !orb_false_r, orb_diag.
  destruct (bool_decide (is_Some (entities !! "age"))); reflexivity.
Qed.

End ApplicableRules.

(** X21. For the entities of a parsed query, [get_applicable_rules] of the
    agent with the default rules reports the rule age_limit when the query
    gave an age, and no rule otherwise: a procedure, a location or an
    amount in the query makes no rule applicable. *)
Theorem X21_only_the_age_rule_is_applicable :
  forall query,
    let entities := QueryParser.entities (QueryParser.parse_query query) in
    map ValidationReports.ar_rule_id
        (ValidationReports.get_applicable_rules Validation.new_agent entities)
    = if bool_decide (is_Some (entities !! "age")) then ["age_limit"] else [].
Proof.
  intros query entities. subst entities.
  apply applicable_without_condition_entities.
  repeat (constructor; [by apply parsed_entities_absent|]). constructor.
Qed.

(** ** The orchestrator *)

Section OrchestratorProofs.
Import Orchestrator.

Variable dense_similarity : string -> string -> Q.
Variable sparse_similarity : string -> string -> Q.

Lemma made_decision_ranges agent now entities clauses vr qt :
  let r := (Decision.make_decision agent now entities clauses vr qt).2 in
  (0 <= Decision.confidence_score r <= 1)%Q
  /\ In (Decision.decision r) outcomes.
Proof.
  intros r. subst r.
  destruct (Decision.evaluate_coverage_decision (mk_context entities clauses vr qt))
    as [r|msg] eqn:E.
  - rewrite (make_decision_ok _ _ _ _ _ _ _ E). split.
    + by apply (evaluate_coverage_decision_confidence _ _ E).
    + destruct (evaluate_coverage_decision_ok _ _ E) as [-> _].
      apply decide_branch_outcomes.
  - rewrite (make_decision_raise _ _ _ _ _ _ _ E). simpl.
    split; [split; discriminate|tauto].
Qed.

Lemma approved_decision_needs agent now entities clauses vr qt :
  Decision.decision (Decision.make_decision agent now entities clauses vr qt).2
  = "approved" ->
  Validation.is_valid vr = true
  /\ exists c, In c clauses
               /\ Decision._analyze_clause_sentiment c entities
                  = Decision.Positive.
Proof.
  destruct (Decision.evaluate_coverage_decision (mk_context entities clauses vr qt))
    as [r|msg] eqn:E.
  - rewrite (make_decision_ok _ _ _ _ _ _ _ E).
    destruct (evaluate_coverage_decision_ok _ _ E) as [-> _]. simpl.
    destruct (decide_branch_cases vr
                (Decision._evaluate_clause_support clauses entities))
      as [(_ & Hv & Hs)|(Hb & _)]; [|done].
    intros _. split; [done|]. by apply clause_support_positive.
  - rewrite (make_decision_raise _ _ _ _ _ _ _ E). simpl. discriminate.
Qed.

Lemma created_trace agent now query entities dr cs path :
  wf agent ->
  let created :=
    Mapping.create_decision_trace agent now query entities dr cs path in
  exists t,
    Mapping.get_decision_trace created.1 created.2 = Some t
    /\ Mapping.trace_id t = created.2
    /\ Mapping.query t = query
    /\ Mapping.decision t = Decision.decision dr
    /\ Mapping.confidence_score t = Decision.confidence_score dr
    /\ Mapping.entities t = entities
    /\ Mapping.decision_path t = path
    /\ Mapping.md_amount (Mapping.metadata t) = Decision.amount dr
    /\ map Mapping.source_clause_id (Mapping.source_links t)
       = map Schemas.clause_id cs
    /\ length (Mapping.decision_traces created.1)
       = S (length (Mapping.decision_traces agent)).
Proof.
  intros (Hl & Ht & _) created. subst created.
  unfold Mapping.create_decision_trace, Mapping.get_decision_trace.
  cbn [fst snd Mapping.decision_traces]. rewrite oget_oset_nat.
  eexists. split; [reflexivity|].
  cbn [Mapping.trace_id Mapping.query Mapping.decision Mapping.confidence_score
       Mapping.entities Mapping.decision_path Mapping.metadata
       Mapping.md_amount Mapping.source_links].
  repeat (split; [reflexivity|]). split.
  - assert (Forall (fun p : nat * Mapping.TraceabilityLink =>
                      p.1 < S (S (Mapping.next_uuid agent)))
                   (Mapping.traceability_links agent)) as Hl'
      by (eapply Forall_impl; [exact Hl|]; simpl; intros; lia).
    by destruct (create_links_spec now (S (Mapping.next_uuid agent)) dr cs _ _ Hl')
      as (_ & _ & _ & ?).
  - rewrite oset_fresh
      by (eapply Forall_impl; [exact Ht|]; simpl; intros ? (? & _); done).
    rewrite length_app. simpl. lia.
Qed.

Lemma add_documents_stored store chunks :
  Forall (fun c => is_Some (PyList.oget String.eqb (Schemas.chunk_id c)
                              (Retrieval.documents
                                 (Retrieval.add_documents store chunks).1)))
         chunks.
Proof.
  rewrite add_documents_fold.
  assert (forall chunks store,
            (forall k, is_Some (PyList.oget String.eqb k
                                  (Retrieval.documents store)) ->
                       is_Some (PyList.oget String.eqb k
                                  (Retrieval.documents
                                     (foldl (fun st chunk =>
                                               (Retrieval.add_document st chunk).1)
                                            store chunks))))) as Hkeep.
  { clear. induction chunks as [|c chunks IH]; intros store k Hk; [done|].
    simpl. apply IH. simpl.
    destruct (String.eqb_spec (Schemas.chunk_id c) k) as [<-|Hne].
    - rewrite oget_oset_eq. by eexists.
    - by rewrite oget_oset_ne. }
  revert store. induction chunks as [|c chunks IH]; intros store; [constructor|].
  simpl. constructor; [|apply IH].
  apply Hkeep. simpl. rewrite oget_oset_eq. by eexists.
Qed.

Lemma orchestrator_ok_initialized o b :
  orchestrator_ok o -> orchestrator_ok (set_initialized o b).
Proof. by intros H. Qed.

Lemma orchestrator_ok_document o file_path parsed t_start t_end :
  orchestrator_ok o ->
  orchestrator_ok (process_document o file_path parsed t_start t_end).1.
Proof.
  intros Hok. unfold process_document.
  assert (orchestrator_ok (if initialized o then o else initialize o)) as Hok'
    by (destruct (initialized o); [done|by apply orchestrator_ok_initialized]).
  destruct (negb (pd_success parsed)); [done|].
  destruct (Chunker.create_chunks _ _ _) as [|c cs]; [done|].
  destruct Hok' as (H1 & H2 & H3 & H4 & H5 & H6 & H7).
  repeat split; try done. cbn [fst vector_store].
  by apply reachable_add_documents.
Qed.

Lemma orchestrator_ok_query o query now tick t_start t_end :
  orchestrator_ok o ->
  orchestrator_ok
    (process_query dense_similarity sparse_similarity o query now tick
       t_start t_end).1.
Proof.
  intros Hok. unfold process_query.
  assert (orchestrator_ok (if initialized o then o else initialize o)) as Hok'
    by (destruct (initialized o); [done|by apply orchestrator_ok_initialized]).
  destruct Hok' as (H1 & H2 & H3 & H4 & H5 & H6 & H7).
  unfold orchestrator_ok.
  cbn [fst mapping_agent decision_agent vector_store validation_agent
       chunking_config processing_stats queries_processed decisions_made].
  split; [by constructor|]. split; [by constructor|].
  repeat (split; [done|]). split; [by rewrite H6|].
  match goal with
  | |- context [Mapping.create_decision_trace ?a ?n ?q ?e ?d ?c ?p] =>
      destruct (created_trace a n q e d c p (reachable_wf _ H1))
        as (t & _ & _ & _ & _ & _ & _ & _ & _ & _ & Hlen)
  end.
  rewrite Hlen. lia.
Qed.

Lemma reachable_orchestrator_ok o :
  reachable_orchestrator dense_similarity sparse_similarity o ->
  orchestrator_ok o.
Proof.
  induction 1 as [settings|o _ IH|o file_path parsed t_start t_end _ IH
                 |o query now tick t_start t_end _ IH|o _ IH|o _ IH].
  - repeat split; try done; try constructor; simpl; lia.
  - by apply orchestrator_ok_initialized.
  - by apply orchestrator_ok_document.
  - by apply orchestrator_ok_query.
  - destruct IH as (H1 & H2 & H3 & H4 & H5 & H6 & H7).
    repeat split; try done; simpl; lia.
  - by apply orchestrator_ok_initialized.
Qed.

Lemma process_query_response o query now tick t_start t_end :
  orchestrator_ok o ->
  let run :=
    process_query dense_similarity sparse_similarity o query now tick
      t_start t_end in
  In (qr_decision run.2) outcomes
  /\ (0 <= qr_confidence_score run.2 <= 1)%Q
  /\ qr_entities run.2 = QueryParser.entities (QueryParser.parse_query query)
  /\ exists t,
       qr_trace_id run.2 = Some (Mapping.trace_id t)
       /\ Mapping.get_decision_trace (mapping_agent run.1) (Mapping.trace_id t)
          = Some t
       /\ Mapping.query t = query
       /\ Mapping.decision t = qr_decision run.2
       /\ Mapping.confidence_score t = qr_confidence_score run.2
       /\ Mapping.entities t = qr_entities run.2
       /\ Mapping.md_amount (Mapping.metadata t) = qr_amount run.2
       /\ map Mapping.source_clause_id (Mapping.source_links t)
          = map Schemas.clause_id (qr_source_clauses run.2).
Proof.
  intros Hok run. subst run. unfold process_query.
  assert (orchestrator_ok (if initialized o then o else initialize o)) as Hok'
    by (destruct (initialized o); [done|by apply orchestrator_ok_initialized]).
  destruct Hok' as (H1 & _).
  cbn [fst snd mapping_agent qr_decision qr_confidence_score qr_entities
       qr_trace_id qr_amount qr_source_clauses].
  match goal with
  | |- context [Decision.make_decision ?a ?n ?e ?c ?v ?q] =>
      destruct (made_decision_ranges a n e c v q) as [Hc Hd]
  end.
  split; [exact Hd|]. split; [exact Hc|]. split; [reflexivity|].
  match goal with
  | |- context [Mapping.create_decision_trace ?a ?n ?q ?e ?d ?c ?p] =>
      destruct (created_trace a n q e d c p (reachable_wf _ H1))
        as (t & Hg & Hid & Hq & Hdec & Hconf & Hent & _ & Ham & Hids & _)
  end.
  exists t. rewrite Hid. by repeat split.
Qed.

Lemma approved_response o query now tick t_start t_end :
  orchestrator_ok o ->
  let run :=
    process_query dense_similarity sparse_similarity o query now tick
      t_start t_end in
  qr_decision run.2 = "approved" ->
  vs_is_valid (qr_validation_summary run.2) = true
  /\ age_missing (qr_entities run.2) = false
  /\ exists c,
       In c (qr_source_clauses run.2)
       /\ Decision._analyze_clause_sentiment c (qr_entities run.2)
          = Decision.Positive
       /\ clause_of_store (vector_store o) c.
Proof.
  intros Hok run. subst run. unfold process_query.
  assert (orchestrator_ok (if initialized o then o else initialize o)
          /\ vector_store (if initialized o then o else initialize o)
             = vector_store o) as [Hok' Hst]
    by (destruct (initialized o);
        [done|split; [by apply orchestrator_ok_initialized|done]]).
  destruct Hok' as (_ & _ & H3 & H4 & _).
  cbn [fst snd qr_decision qr_validation_summary vs_is_valid qr_entities
       qr_source_clauses].
  rewrite H4, Hst in *. intros Ha.
  apply approved_decision_needs in Ha as (Hv & c & Hc & Hp).
  split; [exact Hv|]. split.
  - destruct (age_missing _) eqn:E; [|done].
    destruct (invalid_when_age_missing _
                (Retrieval.retrieve_relevant_documents dense_similarity
                   sparse_similarity
                   (retrieval_config (if initialized o then o else initialize o))
                   (vector_store o) query) E) as [Hi _].
    congruence.
  - exists c. split; [exact Hc|]. split; [exact Hp|].
    destruct (retrieve_from_store dense_similarity sparse_similarity
                (retrieval_config (if initialized o then o else initialize o))
                (vector_store o) query (reachable_store_ok _ H3)) as (Hf & _).
    rewrite Forall_forall in Hf. apply Hf. by apply list_elem_of_In.
Qed.

End OrchestratorProofs.

(** X22. For every state of the orchestrator and every query,
    [process_query] answers with one of the four outcomes (the outcome
    "error" does not occur), a confidence between 0 and 1 and the entities
    of the parsed query, and its [trace_id] is the key of a trace of the
    mapping agent that holds the same query, decision, confidence,
    entities and amount and one link for each source clause of the
    answer, in their order. *)
Theorem X22_query_answer_agrees_with_its_trace :
  forall dense_similarity sparse_similarity o query now tick t_start t_end,
    reachable_orchestrator dense_similarity sparse_similarity o ->
    let run :=
      Orchestrator.process_query dense_similarity sparse_similarity o query
        now tick t_start t_end in
    In (Orchestrator.qr_decision run.2) outcomes
    /\ (0 <= Orchestrator.qr_confidence_score run.2 <= 1)%Q
    /\ Orchestrator.qr_entities run.2
       = QueryParser.entities (QueryParser.parse_query query)
    /\ exists t,
         Orchestrator.qr_trace_id run.2 = Some (Mapping.trace_id t)
         /\ Mapping.get_decision_trace (Orchestrator.mapping_agent run.1)
              (Mapping.trace_id t) = Some t
         /\ Mapping.query t = query
         /\ Mapping.decision t = Orchestrator.qr_decision run.2
         /\ Mapping.confidence_score t = Orchestrator.qr_confidence_score run.2
         /\ Mapping.entities t = Orchestrator.qr_entities run.2
         /\ Mapping.md_amount (Mapping.metadata t)
            = Orchestrator.qr_amount run.2
         /\ map Mapping.source_clause_id (Mapping.source_links t)
            = map Schemas.clause_id (Orchestrator.qr_source_clauses run.2).
Proof.
  intros dense sparse o query now tick t_start t_end Hr.
  apply process_query_response. by apply (reachable_orchestrator_ok dense sparse).
Qed.

(** X22 at the orchestrator that has processed one document. *)
Lemma X22_treatment_witness :
  let run :=
    Orchestrator.process_query ones ones one_document_orchestrator
      treatment_query "t" 0 0 1 in
  In (Orchestrator.qr_decision run.2) outcomes
  /\ (0 <= Orchestrator.qr_confidence_score run.2 <= 1)%Q
  /\ Orchestrator.qr_entities run.2
     = QueryParser.entities (QueryParser.parse_query treatment_query)
  /\ exists t,
       Orchestrator.qr_trace_id run.2 = Some (Mapping.trace_id t)
       /\ Mapping.get_decision_trace (Orchestrator.mapping_agent run.1)
            (Mapping.trace_id t) = Some t
       /\ Mapping.query t = treatment_query
       /\ Mapping.decision t = Orchestrator.qr_decision run.2
       /\ Mapping.confidence_score t = Orchestrator.qr_confidence_score run.2
       /\ Mapping.entities t = Orchestrator.qr_entities run.2
       /\ Mapping.md_amount (Mapping.metadata t)
          = Orchestrator.qr_amount run.2
       /\ map Mapping.source_clause_id (Mapping.source_links t)
          = map Schemas.clause_id (Orchestrator.qr_source_clauses run.2).
Proof.
  apply (X22_query_answer_agrees_with_its_trace ones ones
           one_document_orchestrator treatment_query "t" 0 0 1).
  exact (oreach_document ones ones _ "policy.pdf" policy_document 0 1
           (oreach_new ones ones Config.default_settings)).
Defined.

(** X23. An answer "approved" of [process_query] rests on evidence: the
    validation summary says valid, the query gave an age, and among the
    source clauses of the answer there is one that is positive for the
    entities and that renders a chunk of the store. So a query without an
    age, or a query put to an orchestrator without indexed documents, is
    never approved. *)
Theorem X23_approved_answer_rests_on_evidence :
  forall dense_similarity sparse_similarity o query now tick t_start t_end,
    reachable_orchestrator dense_similarity sparse_similarity o ->
    let run :=
      Orchestrator.process_query dense_similarity sparse_similarity o query
        now tick t_start t_end in
    Orchestrator.qr_decision run.2 = "approved" ->
    Orchestrator.vs_is_valid (Orchestrator.qr_validation_summary run.2) = true
    /\ age_missing (Orchestrator.qr_entities run.2) = false
    /\ exists c,
         In c (Orchestrator.qr_source_clauses run.2)
         /\ Decision._analyze_clause_sentiment c (Orchestrator.qr_entities run.2)
            = Decision.Positive
         /\ clause_of_store (Orchestrator.vector_store o) c.
Proof.
  intros dense sparse o query now tick t_start t_end Hr.
  apply approved_response. by apply (reachable_orchestrator_ok dense sparse).
Qed.

(** X23 at the query about a treatment, which is approved. *)
Lemma X23_treatment_witness :
  let run :=
    Orchestrator.process_query ones ones one_document_orchestrator
      treatment_query "t" 0 0 1 in
  Orchestrator.qr_decision run.2 = "approved"
  /\ Orchestrator.vs_is_valid (Orchestrator.qr_validation_summary run.2) = true
  /\ age_missing (Orchestrator.qr_entities run.2) = false
  /\ exists c,
       In c (Orchestrator.qr_source_clauses run.2)
       /\ Decision._analyze_clause_sentiment c (Orchestrator.qr_entities run.2)
          = Decision.Positive
       /\ clause_of_store (Orchestrator.vector_store one_document_orchestrator) c.
Proof.
  assert (Orchestrator.qr_decision
            (Orchestrator.process_query ones ones one_document_orchestrator
               treatment_query "t" 0 0 1).2 = "approved") as Ha
    by (vm_compute; reflexivity).
  split; [exact Ha|].
  apply (X23_approved_answer_rests_on_evidence ones ones
           one_document_orchestrator treatment_query "t" 0 0 1); [|exact Ha].
  exact (oreach_document ones ones _ "policy.pdf" policy_document 0 1
           (oreach_new ones ones Config.default_settings)).
Defined.

(** X24. [process_document] fails without a trace in the store or in the
    counters when the parser reports no success or the chunker returns no
    chunk; otherwise it reports the number of chunks, which is not 0,
    counts one more document, and every chunk can be looked up in the
    store under its id. In both cases the orchestrator is initialized
    afterwards. *)
Theorem X24_process_document_outcomes :
  forall o file_path parsed t_start t_end,
    let run := Orchestrator.process_document o file_path parsed t_start t_end in
    let chunks :=
      Chunker.create_chunks (Orchestrator.chunking_config o)
        (Orchestrator.pd_content parsed) file_path in
    Orchestrator.initialized run.1 = true
    /\ match run.2 with
       | Orchestrator.DocumentFailed error =>
           (Orchestrator.pd_success parsed = false \/ chunks = [])
           /\ Orchestrator.vector_store run.1 = Orchestrator.vector_store o
           /\ Orchestrator.processing_stats run.1
              = Orchestrator.processing_stats o
       | Orchestrator.DocumentProcessed n processing_time path =>
           Orchestrator.pd_success parsed = true
           /\ n = length chunks /\ 0 < n /\ path = file_path
           /\ Orchestrator.documents_processed
                (Orchestrator.processing_stats run.1)
              = S (Orchestrator.documents_processed
                     (Orchestrator.processing_stats o))
           /\ Forall (fun c =>
                        is_Some (PyList.oget String.eqb (Schemas.chunk_id c)
                                   (Retrieval.documents
                                      (Orchestrator.vector_store run.1))))
                     chunks
       end.
Proof.
  intros o file_path parsed t_start t_end run chunks. subst run chunks.
  unfold Orchestrator.process_document.
  assert (Orchestrator.chunking_config
            (if Orchestrator.initialized o then o else Orchestrator.initialize o)
          = Orchestrator.chunking_config o) as -> by (by destruct (Orchestrator.initialized o)).
  assert (Orchestrator.initialized
            (if Orchestrator.initialized o then o else Orchestrator.initialize o)
          = true) as Hi by (by destruct (Orchestrator.initialized o) eqn:E).
  assert (Orchestrator.vector_store
            (if Orchestrator.initialized o then o else Orchestrator.initialize o)
          = Orchestrator.vector_store o) as Hs
    by (by destruct (Orchestrator.initialized o)).
  assert (Orchestrator.processing_stats
            (if Orchestrator.initialized o then o else Orchestrator.initialize o)
          = Orchestrator.processing_stats o) as Hp
    by (by destruct (Orchestrator.initialized o)).
  destruct (Orchestrator.pd_success parsed); simpl.
  - destruct (Chunker.create_chunks _ _ _) as [|c cs] eqn:E; simpl.
    + split; [done|]. split; [by right|done].
    + split; [done|]. rewrite Hp. repeat (split; [done || lia|]).
      rewrite <- E. apply add_documents_stored.
  - split; [done|]. split; [by left|done].
Qed.

(** X25. In every state that the methods of the orchestrator reach, the
    counter of queries equals the counter of decisions and does not exceed
    the number of traces of the mapping agent; the validation agent still
    has the default rules; and the chunker has the default configuration,
    whatever chunk sizes the settings give. *)
Theorem X25_orchestrator_invariants :
  forall dense_similarity sparse_similarity o,
    reachable_orchestrator dense_similarity sparse_similarity o ->
    Orchestrator.queries_processed (Orchestrator.processing_stats o)
    = Orchestrator.decisions_made (Orchestrator.processing_stats o)
    /\ Orchestrator.decisions_made (Orchestrator.processing_stats o)
       <= MappingReports.total_traces
            (MappingReports.get_mapping_statistics
               (Orchestrator.mapping_agent o))
    /\ Validation.rules (Orchestrator.validation_agent o)
       = Validation.default_rules
    /\ Orchestrator.chunking_config o = Chunker.default_config.
Proof.
  intros dense sparse o Hr.
  destruct (reachable_orchestrator_ok dense sparse o Hr)
    as (_ & _ & _ & H4 & H5 & H6 & H7).
  split; [done|]. split; [done|]. split; [by rewrite H4|done].
Qed.

(** X25 at the orchestrator that has processed one document. *)
Lemma X25_one_document_witness :
  Orchestrator.queries_processed
    (Orchestrator.processing_stats one_document_orchestrator)
  = Orchestrator.decisions_made
      (Orchestrator.processing_stats one_document_orchestrator)
  /\ Orchestrator.decisions_made
       (Orchestrator.processing_stats one_document_orchestrator)
     <= MappingReports.total_traces
          (MappingReports.get_mapping_statistics
             (Orchestrator.mapping_agent one_document_orchestrator))
  /\ Validation.rules (Orchestrator.validation_agent one_document_orchestrator)
     = Validation.default_rules
  /\ Orchestrator.chunking_config one_document_orchestrator
     = Chunker.default_config.
Proof.
  apply (X25_orchestrator_invariants ones ones one_document_orchestrator).
  exact (oreach_document ones ones _ "policy.pdf" policy_document 0 1
           (oreach_new ones ones Config.default_settings)).
Defined.

(** ** The rule statistics and the check of the configuration *)

Section RuleStatistics.
Import Validation ValidationReports.

Lemma fold_rule_types (rs : list PolicyRule) (d : PyList.odict string nat) :
  foldl (fun rule_types rule =>
           foldl PyCount.incr rule_types (map fst (conditions rule))) d rs
  = foldl PyCount.incr d
      (concat (map (fun rule => map fst (conditions rule)) rs)).
Proof.
  revert d. induction rs as [|r rs IH]; intros d; simpl; [done|].
  by rewrite IH, foldl_app.
Qed.

End RuleStatistics.

(** X26. [get_rule_statistics] reports the number of rules, and its
    [rule_types] counts conditions, not rules: every condition kind has one
    entry, whose count is the number of conditions of that kind over all
    rules, so the counts add up to the number of all conditions. *)
Theorem X26_rule_statistics_count_the_conditions :
  forall agent,
    let stats := ValidationReports.get_rule_statistics agent in
    ValidationReports.total_rules stats = length (Validation.rules agent)
    /\ NoDup (map fst (ValidationReports.rule_types stats))
    /\ PyCount.total (ValidationReports.rule_types stats)
       = length (condition_kinds agent)
    /\ forall kind,
         default 0 (PyList.oget String.eqb kind
                      (ValidationReports.rule_types stats))
         = count_word kind (condition_kinds agent).
Proof.
  intros agent stats. subst stats. unfold ValidationReports.get_rule_statistics.
  cbn [ValidationReports.total_rules ValidationReports.rule_types].
  rewrite fold_rule_types. fold (condition_kinds agent).
  destruct (fold_incr_spec (condition_kinds agent) []) as (H1 & H2 & H3 & _).
  split; [done|]. split; [apply H3; constructor|]. split; [by rewrite H2|].
  intros kind. by rewrite H1.
Qed.

(** X27. [validate_configuration] reports no issue exactly when the
    directories gave none and the settings pass its four checks: the
    weights add up to 1, the minimum chunk size is below the maximum, the
    similarity threshold lies between 0 and 1, and the minimum age is
    below the maximum; [main.py] goes on to start exactly then. It never
    reports more than four issues of its own. *)
Theorem X27_configuration_accepted_iff_checks_pass :
  forall dir_issues settings,
    (Config.validate_configuration dir_issues settings = []
     <-> dir_issues = [] /\ settings_ok settings)
    /\ (Config.main_startup dir_issues settings = None
        <-> dir_issues = [] /\ settings_ok settings)
    /\ length (Config.validate_configuration dir_issues settings)
       <= length dir_issues + 4.
Proof.
  intros dir_issues settings.
  assert (Config.validate_configuration dir_issues settings = []
          <-> dir_issues = [] /\ settings_ok settings) as H.
  { unfold Config.validate_configuration, settings_ok.
    set (weights := negb (Qeq_bool _ 1)).
    set (sizes := (Config.max_chunk_size settings
                   <=? Config.min_chunk_size settings)%Z).
    set (threshold := negb (Qle_bool 0 _) || negb (Qle_bool _ 1)).
    set (ages := (Config.default_age_max settings
                  <=? Config.default_age_min settings)%Z).
    assert (weights = false /\ sizes = false /\ threshold = false
            /\ ages = false
            <-> (Config.dense_weight settings + Config.sparse_weight settings
                 == 1)%Q
                /\ (Config.min_chunk_size settings
                    < Config.max_chunk_size settings)%Z
                /\ (0 <= Config.similarity_threshold settings <= 1)%Q
                /\ (Config.default_age_min settings
                    < Config.default_age_max settings)%Z) as <-.
    { subst weights sizes threshold ages.
      rewrite negb_false_iff, Qeq_bool_iff, !Z.leb_gt, orb_false_iff,
        !negb_false_iff, !Qle_bool_iff. tauto. }
    clearbody weights sizes threshold ages.
    destruct dir_issues, weights, sizes, threshold, ages; simpl;
      split; try done; intros (? & ? & ? & ? & ?); done. }
  split; [exact H|]. split.
  - unfold Config.main_startup. rewrite <- H.
    destruct (Config.validate_configuration dir_issues settings);
      split; intros; done.
  - unfold Config.validate_configuration. rewrite !length_app.
    destruct (negb _), (_ <=? _)%Z, (_ || _),
      (Config.default_age_max settings <=? Config.default_age_min settings)%Z;
      simpl; lia.
Qed.
